(** * django-task-manager: the request handlers of [tasks/views.py]

    A shallow embedding of the task API, the weather proxy, the analytics
    endpoint and the dashboard view, together with the two models of
    [tasks/models.py] and the serializer of [tasks/serializers.py].

    Everything the handlers obtain from outside the repository (the
    configuration, the weather HTTP API, the database engine's failures, the
    clock, matplotlib, the template engine) is gathered in one record [Env];
    a handler is a function of that record, of its arguments and of the
    system state (the two tables and a log of the outside calls it made). *)

From Stdlib Require Import ZArith List String Ascii Bool Lia Permutation Sorted.
From Stdlib Require Import Floats Uint63.
Import ListNotations.

#[local] Set Warnings "-register-all".

Local Open Scope list_scope.
Local Open Scope string_scope.
Local Open Scope Z_scope.

(** ** Python text *)

Module Text.

(** A [str] is kept as the bytes of its UTF-8 encoding.  A character is a
    byte that is not of the form [10xxxxxx] together with the bytes of that
    form that follow it. *)

(** The double quote, which string literals of this file never contain. *)
Definition dq : string := String (ascii_of_nat 34) EmptyString.

(** A line feed. *)
Definition nl : string := String (ascii_of_nat 10) EmptyString.

(** The text with the given byte values. *)
Definition bytes (codes : list Z) : string :=
  string_of_list_ascii (map (fun c => ascii_of_nat (Z.to_nat c)) codes).

(** A byte that continues a character. *)
Definition is_continuation (c : ascii) : bool :=
  let n := nat_of_ascii c in ((128 <=? n) && (n <? 192))%nat.

Definition continues (s : string) : bool :=
  match s with
  | EmptyString => false
  | String c _ => is_continuation c
  end.

(** The characters of a text, in order. *)
Fixpoint chars (s : string) : list string :=
  match s with
  | EmptyString => []
  | String c rest =>
      match chars rest with
      | following :: others =>
          if continues following then String c following :: others
          else String c EmptyString :: following :: others
      | [] => [String c EmptyString]
      end
  end.

(** The text made of the given pieces. *)
Definition join (pieces : list string) : string :=
  fold_right append EmptyString pieces.

(** [len(s)]: the number of characters. *)
Definition len (s : string) : nat := List.length (chars s).

(** [s[:n]]: the first [n] characters, all of [s] when it is shorter. *)
Definition slice_to (n : nat) (s : string) : string := join (firstn n (chars s)).

(** Truth value of a [str]: non-empty. *)
Definition truthy (s : string) : bool :=
  match s with EmptyString => false | String _ _ => true end.

(** The character with the given code point. *)
Definition utf8 (code : Z) : string :=
  bytes (if code <? 128 then [code]
         else if code <? 2048 then [192 + code / 64; 128 + code mod 64]
         else if code <? 65536 then
           [224 + code / 4096; 128 + (code / 64) mod 64; 128 + code mod 64]
         else
           [240 + code / 262144; 128 + (code / 4096) mod 64;
            128 + (code / 64) mod 64; 128 + code mod 64]).

(** The code points of the characters for which [str.isspace] holds, which
    are the ones [str.strip] removes. *)
Definition whitespace : list Z :=
  [9; 10; 11; 12; 13; 28; 29; 30; 31; 32; 133; 160; 5760;
   8192; 8193; 8194; 8195; 8196; 8197; 8198; 8199; 8200; 8201; 8202;
   8232; 8233; 8239; 8287; 12288].

(** [c.isspace()] on one character. *)
Definition isspace (c : string) : bool :=
  existsb (fun code => String.eqb c (utf8 code)) whitespace.

Fixpoint dropwhile {A : Type} (p : A -> bool) (l : list A) : list A :=
  match l with
  | [] => []
  | x :: rest => if p x then dropwhile p rest else l
  end.

(** [s.strip()]: without the white space at its two ends. *)
Definition strip (s : string) : string :=
  join (rev (dropwhile isspace (rev (dropwhile isspace (chars s))))).

(** [needle in hay], as a proposition. *)
Definition contains (hay needle : string) : Prop :=
  exists pre post, hay = (pre ++ needle ++ post)%string.


(** Whether [pre] starts [s]; what follows it, if so. *)
Fixpoint after_prefix (pre s : string) : option string :=
  match pre, s with
  | EmptyString, _ => Some s
  | String _ _, EmptyString => None
  | String a pre', String b s' => if Ascii.eqb a b then after_prefix pre' s' else None
  end.

(** [s.partition(needle)] at the first occurrence: what is before and
    what is after, or nothing when [needle] does not occur. *)
Fixpoint partition (needle s : string) : option (string * string) :=
  match after_prefix needle s with
  | Some rest => Some (EmptyString, rest)
  | None =>
      match s with
      | EmptyString => None
      | String c s' =>
          match partition needle s' with
          | Some (before, rest) => Some (String c before, rest)
          | None => None
          end
      end
  end.

(** Decimal text of an integer, as [str(n)] prints it. *)
Fixpoint digits (fuel : nat) (n : Z) (acc : string) : string :=
  match fuel with
  | O => acc
  | S fuel' =>
      let d := ascii_of_nat (48 + Z.to_nat (n mod 10))%nat in
      if (n <? 10)%Z then String d acc else digits fuel' (n / 10) (String d acc)
  end.

Definition str_of_Z (n : Z) : string :=
  if (n <? 0)%Z then ("-" ++ digits (S (Z.to_nat (Z.log2 (- n)))) (- n) "")%string
  else digits (S (Z.to_nat (Z.log2 n))) n "".

End Text.

(** ** Values read from JSON *)

(** What [response.json()] builds: [None], [bool], [int], [float], [str],
    [list] and [dict] with string keys.  A [dict] is kept as an association
    list, the first binding of a key being the one in force. *)
Inductive json : Type :=
| JNull
| JBool (b : bool)
| JInt (n : Z)
| JFloat (x : float)
| JStr (s : string)
| JArr (items : list json)
| JObj (members : list (string * json)).

(** Timestamps: microseconds since the epoch, in UTC ([USE_TZ = True],
    [TIME_ZONE = 'UTC']). *)
Definition datetime : Type := Z.

(** ** Exceptions *)

(** The classes the handlers tell apart; every one of them derives from
    [Exception].  [ConnectTimeout] derives from both [ConnectionError] and
    [Timeout] in [requests.exceptions]. *)
Inductive exn_class : Type :=
| KeyError
| IndexError
| TypeError
| AttributeError
| ValueError
| UndefinedValueError
| Timeout
| ConnectTimeout
| ConnectionError
| RequestException
| DatabaseError
| TemplateError
| RuntimeError.

Record exn : Type := mk_exn {
  exn_kind : exn_class;
  exn_text : string          (* str(e) *)
}.

(** [isinstance(e, requests.exceptions.Timeout)] *)
Definition is_Timeout (e : exn) : bool :=
  match exn_kind e with
  | Timeout | ConnectTimeout => true
  | _ => false
  end.

(** [isinstance(e, requests.exceptions.ConnectionError)] *)
Definition is_ConnectionError (e : exn) : bool :=
  match exn_kind e with
  | ConnectionError | ConnectTimeout => true
  | _ => false
  end.

(** The result of evaluating an expression: a value or a raised exception. *)
Inductive outcome (A : Type) : Type :=
| Return (a : A)
| Raise (e : exn).
Arguments Return {A} a.
Arguments Raise {A} e.

(** ** Subscripts and methods on values read from JSON *)

Module Py.

Fixpoint assoc (k : string) (members : list (string * json)) : option json :=
  match members with
  | [] => None
  | (k', v) :: rest => if String.eqb k k' then Some v else assoc k rest
  end.

(** The repr of a string key, as [str(KeyError(k))] shows it. *)
Definition repr_key (k : string) : string := ("'" ++ k ++ "'")%string.

Definition type_name (v : json) : string :=
  match v with
  | JNull => "NoneType"
  | JBool _ => "bool"
  | JInt _ => "int"
  | JFloat _ => "float"
  | JStr _ => "str"
  | JArr _ => "list"
  | JObj _ => "dict"
  end.

Definition not_subscriptable (v : json) : exn :=
  mk_exn TypeError ("'" ++ type_name v ++ "' object is not subscriptable").

Definition no_attribute (v : json) (attr : string) : exn :=
  mk_exn AttributeError
    ("'" ++ type_name v ++ "' object has no attribute '" ++ attr ++ "'").

(** [v[k]] for a string [k]. *)
Definition getitem (v : json) (k : string) : outcome json :=
  match v with
  | JObj members =>
      match assoc k members with
      | Some x => Return x
      | None => Raise (mk_exn KeyError (repr_key k))
      end
  | JArr _ => Raise (mk_exn TypeError "list indices must be integers or slices, not str")
  | JStr _ => Raise (mk_exn TypeError "string indices must be integers, not 'str'")
  | _ => Raise (not_subscriptable v)
  end.

(** [v[0]] *)
Definition getitem0 (v : json) : outcome json :=
  match v with
  | JArr (x :: _) => Return x
  | JArr [] => Raise (mk_exn IndexError "list index out of range")
  | JStr (String c _) => Return (JStr (String c EmptyString))
  | JStr EmptyString => Raise (mk_exn IndexError "string index out of range")
  | JObj _ => Raise (mk_exn KeyError "0")
  | _ => Raise (not_subscriptable v)
  end.

(** [v.get(k, default)]; [v.get(k)] is [get v k JNull]. *)
Definition get (v : json) (k : string) (default : json) : outcome json :=
  match v with
  | JObj members =>
      match assoc k members with
      | Some x => Return x
      | None => Return default
      end
  | _ => Raise (no_attribute v "get")
  end.

(** [list(v.keys())] *)
Definition keys (v : json) : outcome (list string) :=
  match v with
  | JObj members => Return (map fst members)
  | _ => Raise (no_attribute v "keys")
  end.

End Py.

(** ** The models of [tasks/models.py] *)

Module Task.

Definition PRIORITY_CHOICES : list (string * string) :=
  [("low", "Low"); ("medium", "Medium"); ("high", "High")].

Definition STATUS_CHOICES : list (string * string) :=
  [("pending", "Pending"); ("in_progress", "In Progress"); ("completed", "Completed")].

Record t : Type := mk {
  id : Z;
  title : string;
  description : string;
  priority : string;
  status : string;
  created_at : datetime;
  updated_at : datetime;
  due_date : option datetime;
  user : Z
}.

End Task.

Module WeatherLog.

(** A row of the table, or the instance [objects.create] returns.  A
    column value is kept as the JSON value it is read back as: a text for
    a [CharField], a float for a [FloatField], an integer for an
    [IntegerField], [None] for a NULL.  The instance that [objects.create]
    returns keeps the attributes it was given, whatever they are. *)
Record t : Type := mk {
  id : Z;
  city : json;
  temperature : json;
  description : json;
  humidity : json;
  timestamp : datetime
}.

End WeatherLog.

(** ** The database and the log of outside calls *)

Record Store : Type := mk_Store {
  tasks : list Task.t;
  weather_logs : list WeatherLog.t;
  users : list Z;                 (* primary keys of [auth.User] *)
  next_task_id : Z;
  next_weather_log_id : Z
}.

(** What a chart is drawn from (see [task_analytics]). *)
Inductive pie_panel : Type :=
| Pie (chart_data : list Z) (labels colors : list string)
| PieText (caption : string).

Inductive bar_panel : Type :=
| Bar (priorities : list string) (counts : list Z) (bar_colors : list string)
| BarText (caption : string).

Record figure : Type := mk_figure { ax1 : pie_panel; ax2 : bar_panel }.

(** What the dashboard template is rendered from. *)
Record context : Type := mk_context {
  ctx_task_count : Z;
  ctx_recent_tasks : list Task.t;
  ctx_completed_tasks : Z;
  ctx_pending_tasks : Z
}.

(** A call that leaves the process. *)
Inductive event : Type :=
| HttpGet (url : string)               (* [requests.get(url, timeout=10)] *)
| DrawChart (fig : figure)             (* the matplotlib calls of one chart *)
| RenderTemplate (name : string).      (* [render(request, name, context)] *)

Record Sys : Type := mk_Sys {
  db : Store;
  calls : list event                   (* oldest first *)
}.

(** ** What the surroundings provide *)

(** The body of a [requests] response. *)
Record HttpResponse : Type := mk_HttpResponse {
  status_code : Z;
  text : string;                       (* [response.text] *)
  json_body : outcome json             (* [response.json()] *)
}.

Inductive db_op : Type :=
| SelectTasks
| SelectUsers
| InsertTask
| InsertWeatherLog (city temperature description humidity : json).

Record Env : Type := mk_Env {
  (** [decouple.config(name)] without a default: the value, or the exception
      raised for an undefined name. *)
  config : string -> outcome string;
  (** The weather API, by URL. *)
  requests_get : string -> outcome HttpResponse;
  (** The exception a database statement raises, if it does. *)
  db_fault : db_op -> option exn;
  (** The place the database gives the group of a value among the groups
      of a [GROUP BY] without [ORDER BY]: SQL leaves that order to it. *)
  group_rank : string -> Z;
  (** [Field.get_prep_value] of the model field with the given name, for
      the values whose conversion is not computed here (a text to be read
      as a number, a float to be printed, a list, a dict, a number with
      no value in the column type): the column value, or the exception
      raised. *)
  field_prep : string -> json -> outcome json;
  (** [timezone.now()], for the one reading of the clock that a request
      shows or stores. *)
  now : datetime;
  (** The next reading, for the request that stores two: the creation of
      a task, where [auto_now_add] reads the clock for [created_at] and
      then [auto_now] reads it for [updated_at]. *)
  later : datetime;
  (** [datetime.isoformat()] and [datetime.strftime(fmt)] *)
  isoformat : datetime -> string;
  strftime : string -> datetime -> string;
  (** matplotlib, from [plt.subplots] to [base64.b64encode(...).decode()]:
      the encoded picture, or the exception raised on the way. *)
  draw_chart : figure -> outcome string;
  (** The template engine: the page, or the exception raised. *)
  render : string -> context -> outcome string
}.

(** ** Computations of a request handler *)

Definition M (A : Type) : Type := Sys -> outcome A * Sys.

Definition ret {A} (a : A) : M A := fun s => (Return a, s).

Definition raise {A} (e : exn) : M A := fun s => (Raise e, s).

Definition bind {A B} (m : M A) (k : A -> M B) : M B :=
  fun s =>
    match m s with
    | (Return a, s') => k a s'
    | (Raise e, s') => (Raise e, s')
    end.

(** [try: m  except Exception as e: handler(e)] *)
Definition try_except {A} (m : M A) (handler : exn -> M A) : M A :=
  fun s =>
    match m s with
    | (Return a, s') => (Return a, s')
    | (Raise e, s') => handler e s'
    end.

(** An expression that may raise, evaluated in place. *)
Definition eval {A} (o : outcome A) : M A := fun s => (o, s).

Declare Scope handler_scope.
Delimit Scope handler_scope with handler.
Notation "x <- m ;; k" := (bind m (fun x => k))
  (at level 100, m at next level, right associativity) : handler_scope.
Notation "m ;;; k" := (bind m (fun _ => k))
  (at level 100, right associativity) : handler_scope.
Local Open Scope handler_scope.

Definition log_call (ev : event) : M unit :=
  fun s => (Return tt, mk_Sys (db s) (calls s ++ [ev])%list).

(** [requests.get(url, timeout=10)] *)
Definition http_get (env : Env) (url : string) : M HttpResponse :=
  log_call (HttpGet url) ;;; eval (requests_get env url).

(** The chart of one analytics request. *)
Definition savefig (env : Env) (fig : figure) : M string :=
  log_call (DrawChart fig) ;;; eval (draw_chart env fig).

(** A read-only statement, run when its result is needed. *)
Definition db_run {A} (env : Env) (op : db_op) (q : Store -> A) : M A :=
  fun s =>
    match db_fault env op with
    | Some e => (Raise e, s)
    | None => (Return (q (db s)), s)
    end.

(** A query over the task table. *)
Definition db_select {A} (env : Env) (q : Store -> A) : M A :=
  db_run env SelectTasks q.

(** ** Responses *)

Inductive body : Type :=
| JsonBody (j : json)                 (* [Response(dict)], [JsonResponse] *)
| TaskBody (t : Task.t)               (* [TaskSerializer(task).data] *)
| TaskListBody (l : list Task.t)      (* [TaskSerializer(tasks, many=True).data] *)
| HtmlBody (page : string).           (* [HttpResponse(text)], [render(...)] *)

Record Response : Type := mk_Response {
  content : body;
  status : Z
}.

(** A field of a JSON response body. *)
Definition field (r : Response) (k : string) : option json :=
  match content r with
  | JsonBody (JObj members) => Py.assoc k members
  | _ => None
  end.

(** A field of the [debug_info] object of a JSON response body. *)
Definition debug_field (r : Response) (k : string) : option json :=
  match field r "debug_info" with
  | Some (JObj members) => Py.assoc k members
  | _ => None
  end.

(** ** Queries over the task table *)

(** Where a task goes in a list that is ordered by [-created_at]; among
    tasks created at the same instant the earlier row stays first. *)
Fixpoint insert_by_created (x : Task.t) (l : list Task.t) : list Task.t :=
  match l with
  | [] => [x]
  | y :: rest =>
      if Task.created_at y <=? Task.created_at x then x :: l
      else y :: insert_by_created x rest
  end.

(** [ORDER BY created_at DESC] *)
Definition order_by_created_desc (l : list Task.t) : list Task.t :=
  fold_right insert_by_created [] l.

(** A [QuerySet] of tasks: no statement is sent until its rows are asked
    for, so it is a function of the table it will be run on. *)
Definition QuerySet : Type := Store -> list Task.t.

(** [Task.objects.all()], with [Meta.ordering = ['-created_at']]. *)
Definition Task_objects_all : QuerySet :=
  fun st => order_by_created_desc (tasks st).

(** [queryset.filter(status=value)] *)
Definition filter_status (value : string) (queryset : QuerySet) : QuerySet :=
  fun st => filter (fun t => String.eqb (Task.status t) value) (queryset st).

(** [queryset.filter(priority=value)] *)
Definition filter_priority (value : string) (queryset : QuerySet) : QuerySet :=
  fun st => filter (fun t => String.eqb (Task.priority t) value) (queryset st).

(** [queryset.count()] *)
Definition count (queryset : QuerySet) (st : Store) : Z :=
  Z.of_nat (List.length (queryset st)).

(** One more row in the group of its priority. *)
Fixpoint bump (p : string) (groups : list (string * Z)) : list (string * Z) :=
  match groups with
  | [] => [(p, 1)]
  | (q, n) :: rest =>
      if String.eqb p q then (q, n + 1) :: rest else (q, n) :: bump p rest
  end.

(** One group per priority value, with the number of tasks that have it. *)
Definition priority_groups (st : Store) : list (string * Z) :=
  fold_left (fun groups t => bump (Task.priority t) groups) (tasks st) [].

(** Where a group goes among groups that are in the order of [rank]. *)
Fixpoint insert_by_rank (rank : string -> Z) (g : string * Z) (l : list (string * Z))
    : list (string * Z) :=
  match l with
  | [] => [g]
  | h :: rest =>
      if rank (fst g) <? rank (fst h) then g :: l else h :: insert_by_rank rank g rest
  end.

(** [Task.objects.values('priority').annotate(count=Count('priority'))]:
    [SELECT priority, COUNT(priority) ... GROUP BY priority], the ordering
    of [Meta] being left out of a query that groups.  The groups come in
    the order the database gives them. *)
Definition priority_counts (env : Env) (st : Store) : list (string * Z) :=
  fold_right (insert_by_rank (group_rank env)) [] (priority_groups st).

(** [Task.objects.order_by('-created_at')[:5]] *)
Definition recent_five (st : Store) : list Task.t :=
  firstn 5 (order_by_created_desc (tasks st)).

(** ** The task API: [TaskViewSet] *)

(** The query string, in the order its pairs were written. *)
Definition query_params : Type := list (string * string).

(** [QueryDict.get(key, None)]: the last value given for the key. *)
Fixpoint query_get (key : string) (params : query_params) : option string :=
  match params with
  | [] => None
  | (k, v) :: rest =>
      match query_get key rest with
      | Some later => Some later
      | None => if String.eqb key k then Some v else None
      end
  end.

(** ** The serializer of [tasks/serializers.py] *)

(** [TaskSerializer] is a [ModelSerializer]: its fields, and what each one
    accepts, follow from the declarations of [Task].  [title] becomes a
    required [CharField(max_length=200)], [description] an optional
    [CharField(allow_blank=True)], [priority] and [status] optional
    [ChoiceField]s over the model's choices, [due_date] an optional nullable
    [DateTimeField], [user] a required [PrimaryKeyRelatedField] over the
    users; [id], [created_at] and [updated_at] are read-only.  A [CharField]
    trims white space ([trim_whitespace] is left at its default); a
    [ChoiceField] does not. *)
Module TaskSerializer.

Definition fields : list string :=
  ["id"; "title"; "description"; "priority"; "status";
   "created_at"; "updated_at"; "due_date"; "user"].

Definition read_only_fields : list string := ["created_at"; "updated_at"].

(** The writable fields of a request; [None] is a field the client left
    out.  A date is taken as the instant it denotes. *)
Record data : Type := mk_data {
  title : option string;
  description : option string;
  priority : option string;
  status : option string;
  due_date : option (option datetime);
  user : option Z
}.

(** [serializer.validated_data] *)
Record validated_data : Type := mk_validated {
  v_title : string;
  v_description : option string;
  v_priority : option string;
  v_status : option string;
  v_due_date : option (option datetime);
  v_user : Z
}.

Inductive checked (A : Type) : Type :=
| Valid (a : A)
| Invalid (messages : list string).
Arguments Valid {A} a.
Arguments Invalid {A} messages.

Definition required_message : string := "This field is required.".

Definition blank_message : string := "This field may not be blank.".

Definition invalid_choice (input : string) : string :=
  Text.dq ++ input ++ Text.dq ++ " is not a valid choice.".

Definition does_not_exist (pk : Z) : string :=
  "Invalid pk " ++ Text.dq ++ Text.str_of_Z pk ++ Text.dq ++ " - object does not exist.".

Fixpoint has_nul (s : string) : bool :=
  match s with
  | EmptyString => false
  | String c s' => (nat_of_ascii c =? 0)%nat || has_nul s'
  end.

(** The validators of a [CharField], on the trimmed text. *)
Definition max_length_message (n : nat) : string :=
  "Ensure this field has no more than " ++ Text.str_of_Z (Z.of_nat n) ++ " characters.".

Definition char_validators (max_length : option nat) (s : string) : list string :=
  let too_long :=
    match max_length with
    | Some n => if (n <? Text.len s)%nat then [max_length_message n] else []
    | None => []
    end in
  let nul := if has_nul s then ["Null characters are not allowed."] else [] in
  (too_long ++ nul)%list.

(** [CharField.run_validation] *)
Definition check_char (required allow_blank : bool) (max_length : option nat)
    (input : option string) : checked (option string) :=
  match input with
  | None => if required then Invalid [required_message] else Valid None
  | Some s =>
      let s' := Text.strip s in
      if Text.truthy s' then
        match char_validators max_length s' with
        | [] => Valid (Some s')
        | messages => Invalid messages
        end
      else if allow_blank then Valid (Some "") else Invalid [blank_message]
  end.

Definition check_title (input : option string) : checked string :=
  match check_char true false (Some 200%nat) input with
  | Valid (Some s) => Valid s
  | Valid None => Invalid [required_message]
  | Invalid messages => Invalid messages
  end.

Definition is_choice (choices : list (string * string)) (s : string) : bool :=
  existsb (fun c => String.eqb (fst c) s) choices.

(** [ChoiceField.run_validation] *)
Definition check_choice (choices : list (string * string))
    (input : option string) : checked (option string) :=
  match input with
  | None => Valid None
  | Some s => if is_choice choices s then Valid (Some s) else Invalid [invalid_choice s]
  end.

(** [PrimaryKeyRelatedField.run_validation] over [User.objects.all()] *)
Definition check_user (users : list Z) (input : option Z) : checked Z :=
  match input with
  | None => Invalid [required_message]
  | Some pk => if existsb (Z.eqb pk) users then Valid pk else Invalid [does_not_exist pk]
  end.

Definition errors_of {A} (name : string) (c : checked A) : list (string * list string) :=
  match c with
  | Valid _ => []
  | Invalid messages => [(name, messages)]
  end.

(** [serializer.is_valid()]: the validated data, or the messages of every
    field that was refused, in the order of [fields]. *)
Definition run_validation (users : list Z) (d : data)
    : validated_data + list (string * list string) :=
  let t := check_title (title d) in
  let ds := check_char false true None (description d) in
  let p := check_choice Task.PRIORITY_CHOICES (priority d) in
  let s := check_choice Task.STATUS_CHOICES (status d) in
  let u := check_user users (user d) in
  match t, ds, p, s, u with
  | Valid t', Valid ds', Valid p', Valid s', Valid u' =>
      inl (mk_validated t' ds' p' s' (due_date d) u')
  | _, _, _, _, _ =>
      inr (errors_of "title" t ++ errors_of "description" ds
           ++ errors_of "priority" p ++ errors_of "status" s
           ++ errors_of "user" u)%list
  end.

(** The body of the 400 response: [{field: [message, ...], ...}]. *)
Definition errors_json (errors : list (string * list string)) : json :=
  JObj (map (fun e => (fst e, JArr (map JStr (snd e)))) errors).

End TaskSerializer.

Module TaskViewSet.

Definition get_queryset (params : query_params) : QuerySet :=
  let queryset := Task_objects_all in
  let status_filter := query_get "status" params in
  let priority_filter := query_get "priority" params in
  let queryset :=
    match status_filter with
    | Some s => if Text.truthy s then filter_status s queryset else queryset
    | None => queryset
    end in
  let queryset :=
    match priority_filter with
    | Some p => if Text.truthy p then filter_priority p queryset else queryset
    | None => queryset
    end in
  queryset.

(** What the exception handler makes of the [Http404] of
    [get_object_or_404], whose message names the model. *)
Definition not_found : Response :=
  mk_Response (JsonBody (JObj [("detail", JStr "No Task matches the given query.")])) 404.

(** [GET /api/tasks/{pk}/] ([RetrieveModelMixin.retrieve]): the row of the
    queryset with that primary key, or 404. *)
Definition retrieve (env : Env) (params : query_params) (pk : Z) : M Response :=
  rows <- db_select env (get_queryset params) ;;
  match find (fun t => Task.id t =? pk) rows with
  | Some t => ret (mk_Response (TaskBody t) 200)
  | None => ret not_found
  end.

(** [Task.objects.create] on the validated data: the fields that were left out
    take the defaults of the model; [created_at] is set by [auto_now_add]
    and then [updated_at] by [auto_now], each from a reading of the clock
    of its own. *)
Definition Task_objects_create (env : Env) (v : TaskSerializer.validated_data) : M Task.t :=
  fun s =>
    match db_fault env InsertTask with
    | Some e => (Raise e, s)
    | None =>
        let st := db s in
        let task :=
          Task.mk (next_task_id st)
            (TaskSerializer.v_title v)
            (match TaskSerializer.v_description v with Some d => d | None => "" end)
            (match TaskSerializer.v_priority v with Some p => p | None => "medium" end)
            (match TaskSerializer.v_status v with Some x => x | None => "pending" end)
            (now env) (later env)
            (match TaskSerializer.v_due_date v with Some d => d | None => None end)
            (TaskSerializer.v_user v) in
        (Return task,
         mk_Sys (mk_Store (tasks st ++ [task])%list (weather_logs st) (users st)
                   (next_task_id st + 1) (next_weather_log_id st))
                (calls s))
    end.

(** What [create] answers once [serializer.is_valid] has run: 400 with the
    messages when the data is refused; else [perform_create] saves the
    serializer, which inserts the row, and the row is returned with 201. *)
Definition answer_create (env : Env)
    (checked : TaskSerializer.validated_data + list (string * list string))
    : M Response :=
  match checked with
  | inr errors => ret (mk_Response (JsonBody (TaskSerializer.errors_json errors)) 400)
  | inl v =>
      task <- Task_objects_create env v ;;
      ret (mk_Response (TaskBody task) 201)
  end.

(** [POST /api/tasks/] ([CreateModelMixin.create]).  The users are looked
    up when the request names one. *)
Definition create (env : Env) (d : TaskSerializer.data) : M Response :=
  known <- match TaskSerializer.user d with
           | Some _ => db_run env SelectUsers users
           | None => ret []
           end ;;
  answer_create env (TaskSerializer.run_validation known d).

(** [GET /api/tasks/] ([ListModelMixin.list]). *)
Definition list (env : Env) (params : query_params) : M Response :=
  rows <- db_select env (get_queryset params) ;;
  ret (mk_Response (TaskListBody rows) 200).

End TaskViewSet.

(** ** Python floats *)

Module PyFloat.

(** [float(n)], exact for [0 <= n < 2^53]. *)
Definition of_int (n : Z) : float := PrimFloat.of_uint63 (Uint63.of_Z n).

(** [a / b] on integers (true division), for operands below [2^53]. *)
Definition true_div (a b : Z) : float := PrimFloat.div (of_int a) (of_int b).

(** The integer nearest to [n / d], a tie going to the even one. *)
Definition div_half_even (n d : Z) : Z :=
  let q := n / d in
  let r := n mod d in
  if 2 * r <? d then q
  else if d <? 2 * r then q + 1
  else if Z.even q then q else q + 1.

(** [round(x, 2)]: the decimal with two places nearest to the exact value
    of [x] (a tie going to the even one), then the float nearest to that
    decimal.  For [x] of magnitude below [2^53 / 100]. *)
Definition round2 (x : float) : float :=
  match Prim2SF x with
  | S754_finite sign m e =>
      let n := Z.pos m * 100 in
      let hundredths := if 0 <=? e then n * 2 ^ e else div_half_even n (2 ^ (- e)) in
      let r := PrimFloat.div (of_int hundredths) (of_int 100) in
      if sign then PrimFloat.opp r else r
  | _ => x
  end.

(** [float(n)] for an [int]: the float nearest to [n], a tie going to the
    even one; nothing when that is beyond the largest float
    ([OverflowError]). *)
Definition of_Z (n : Z) : option float :=
  match binary_normalize prec emax n 0 false with
  | S754_infinity _ => None
  | nearest => Some (SF2Prim nearest)
  end.

(** [int(x)] for a [float]: [x] without its fractional part; nothing for
    an infinity or a NaN. *)
Definition trunc (x : float) : option Z :=
  match Prim2SF x with
  | S754_zero _ => Some 0
  | S754_finite sign m e =>
      let magnitude := if 0 <=? e then Z.pos m * 2 ^ e else Z.pos m / 2 ^ (- e) in
      Some (if sign then - magnitude else magnitude)
  | _ => None
  end.

End PyFloat.

(** ** The weather proxy: [get_weather] *)

Definition and_then {A B} (o : outcome A) (k : A -> outcome B) : outcome B :=
  match o with
  | Return a => k a
  | Raise e => Raise e
  end.

(** [data['main'][k]] *)
Definition main_item (data : json) (k : string) : outcome json :=
  and_then (Py.getitem data "main") (fun main => Py.getitem main k).

(** [data['weather'][0]['description']] *)
Definition weather_description (data : json) : outcome json :=
  and_then (Py.getitem data "weather") (fun weather =>
  and_then (Py.getitem0 weather) (fun first =>
  Py.getitem first "description")).

(** [data['main'].get(k)] *)
Definition main_get (data : json) (k : string) : outcome json :=
  and_then (Py.getitem data "main") (fun main => Py.get main k JNull).

(** [data.get(outer, {}).get(inner)] *)
Definition nested_get (data : json) (outer inner : string) : outcome json :=
  and_then (Py.get data outer (JObj [])) (fun section => Py.get section inner JNull).

(** [CharField.get_prep_value]: a [str] and [None] as they are, any other
    value as [str(value)]. *)
Definition CharField_get_prep_value (env : Env) (name : string) (value : json)
    : outcome json :=
  match value with
  | JStr _ | JNull => Return value
  | JInt n => Return (JStr (Text.str_of_Z n))
  | JBool b => Return (JStr (if b then "True" else "False"))
  | _ => field_prep env name value
  end.

(** [FloatField.get_prep_value]: [None] as it is, any other value as
    [float(value)]. *)
Definition FloatField_get_prep_value (env : Env) (name : string) (value : json)
    : outcome json :=
  match value with
  | JNull | JFloat _ => Return value
  | JInt n =>
      match PyFloat.of_Z n with
      | Some x => Return (JFloat x)
      | None => field_prep env name value
      end
  | JBool b => Return (JFloat (if b then 1%float else 0%float))
  | _ => field_prep env name value
  end.

(** [IntegerField.get_prep_value]: [None] as it is, any other value as
    [int(value)]. *)
Definition IntegerField_get_prep_value (env : Env) (name : string) (value : json)
    : outcome json :=
  match value with
  | JNull | JInt _ => Return value
  | JFloat x =>
      match PyFloat.trunc x with
      | Some n => Return (JInt n)
      | None => field_prep env name value
      end
  | JBool b => Return (JInt (if b then 1 else 0))
  | _ => field_prep env name value
  end.

(** The column values of a [WeatherLog] row, prepared field after field in
    the order of the model; the first exception ends the preparation. *)
Definition column_values (env : Env) (city temperature description humidity : json)
    : outcome (json * json * json * json) :=
  and_then (CharField_get_prep_value env "city" city) (fun c =>
  and_then (FloatField_get_prep_value env "temperature" temperature) (fun t =>
  and_then (CharField_get_prep_value env "description" description) (fun d =>
  and_then (IntegerField_get_prep_value env "humidity" humidity) (fun h =>
  Return (c, t, d, h))))).

(** [WeatherLog.objects.create(city=..., temperature=..., description=...,
    humidity=...)]: the values are prepared for their columns, then the
    row is inserted; [timestamp] is set by [auto_now_add].  The instance
    that is returned has the attributes it was given. *)
Definition WeatherLog_objects_create (env : Env)
    (city temperature description humidity : json) : M WeatherLog.t :=
  fun s =>
    match column_values env city temperature description humidity with
    | Raise e => (Raise e, s)
    | Return (c, t, d, h) =>
        match db_fault env (InsertWeatherLog city temperature description humidity) with
        | Some e => (Raise e, s)
        | None =>
            let st := db s in
            let row := WeatherLog.mk (next_weather_log_id st) c t d h (now env) in
            let weather_log :=
              WeatherLog.mk (next_weather_log_id st) city temperature description
                humidity (now env) in
            (Return weather_log,
             mk_Sys (mk_Store (tasks st) (weather_logs st ++ [row])%list (users st)
                       (next_task_id st) (next_weather_log_id st + 1))
                    (calls s))
        end
    end.

(** [int(t.timestamp())] *)
Definition timestamp_unix (t : datetime) : Z := Z.quot t 1000000.

(** The dictionary both branches of the 200 case build: the entries are
    evaluated in the order they are written. *)
Definition response_data (env : Env) (data : json) (logged_at : datetime)
    (debug_info : json) : M json :=
  city <- eval (Py.getitem data "name") ;;
  temperature <- eval (main_item data "temp") ;;
  description <- eval (weather_description data) ;;
  humidity <- eval (main_item data "humidity") ;;
  feels_like <- eval (main_get data "feels_like") ;;
  pressure <- eval (main_get data "pressure") ;;
  visibility <- eval (Py.get data "visibility" JNull) ;;
  wind_speed <- eval (nested_get data "wind" "speed") ;;
  country <- eval (nested_get data "sys" "country") ;;
  ret (JObj
         [("city", city);
          ("temperature", temperature);
          ("description", description);
          ("humidity", humidity);
          ("logged_at", JStr (isoformat env logged_at));
          ("logged_at_readable", JStr (strftime env "%Y-%m-%d %H:%M:%S" logged_at));
          ("feels_like", feels_like);
          ("pressure", pressure);
          ("visibility", visibility);
          ("wind_speed", wind_speed);
          ("country", country);
          ("debug_info", debug_info)]).

(** Lines 93 to 119: the row is stored and the answer carries its time. *)
Definition stored_response (env : Env) (data : json) : M json :=
  city <- eval (Py.getitem data "name") ;;
  temperature <- eval (main_item data "temp") ;;
  description <- eval (weather_description data) ;;
  humidity <- eval (main_item data "humidity") ;;
  weather_log <- WeatherLog_objects_create env city temperature description humidity ;;
  let stamp := WeatherLog.timestamp weather_log in
  response_data env data stamp
    (JObj [("api_status", JStr "success");
           ("stored_in_db", JBool true);
           ("timestamp_iso", JStr (isoformat env stamp));
           ("timestamp_unix", JInt (timestamp_unix stamp))]).

(** Lines 121 to 143: [except Exception as db_error]. *)
Definition unstored_response (env : Env) (data : json) (db_error : exn) : M json :=
  let current_time := now env in
  response_data env data current_time
    (JObj [("api_status", JStr "success");
           ("stored_in_db", JBool false);
           ("db_error", JStr (exn_text db_error));
           ("timestamp_iso", JStr (isoformat env current_time))]).

Definition error_body (error debug_info : string) : body :=
  JsonBody (JObj [("error", JStr error); ("debug_info", JStr debug_info)]).

(** [Response(data, status=status)] for a status that is no constant of
    the handler: Django refuses one outside 100..599. *)
Definition Response_with_status (content : body) (status : Z) : outcome Response :=
  if ((100 <=? status) && (status <=? 599))%bool then Return (mk_Response content status)
  else Raise (mk_exn ValueError "HTTP status code must be an integer from 100 to 599.").

Definition suggestions : list string :=
  ["Mumbai"; "Delhi"; "Bangalore"; "Chennai"; "Kolkata"; "Pune"].

(** Lines 62 to 75: the key, or the response that ends the request. *)
Definition load_api_key (env : Env) : M (Response + string) :=
  try_except
    (api_key <- eval (config env "WEATHER_API_KEY") ;;
     if Text.truthy api_key then ret (inr api_key)
     else ret (inl (mk_Response
                      (error_body "Weather API key not configured"
                         "WEATHER_API_KEY environment variable is empty or not set")
                      500)))
    (fun e =>
       ret (inl (mk_Response
                   (error_body "Weather API key not configured" (exn_text e)) 500))).

Definition weather_url (city api_key : string) : string :=
  "http://api.openweathermap.org/data/2.5/weather?q=" ++ city
    ++ "&appid=" ++ api_key ++ "&units=metric".

(** Lines 82 to 168: the body of the outer [try]. *)
Definition fetch_weather (env : Env) (city url : string) : M Response :=
  response <- http_get env url ;;
  if status_code response =? 200 then
    data <- eval (json_body response) ;;
    _ <- eval (Py.keys data) ;;
    answer <- try_except (stored_response env data) (unstored_response env data) ;;
    _ <- eval (Py.getitem data "name") ;;
    ret (mk_Response (JsonBody answer) 200)
  else if status_code response =? 401 then
    ret (mk_Response
           (error_body "Invalid weather API key"
              "Check your WEATHER_API_KEY in .env file") 401)
  else if status_code response =? 404 then
    ret (mk_Response
           (JsonBody (JObj
              [("error", JStr ("City '" ++ city ++ "' not found"));
               ("debug_info",
                JStr ("Try using the exact city name (e.g., " ++ Text.dq ++ "Mumbai"
                        ++ Text.dq ++ " instead of " ++ Text.dq ++ "mumbai"
                        ++ Text.dq ++ ")"));
               ("suggestions", JArr (map JStr suggestions))])) 404)
  else
    eval (Response_with_status
            (error_body
               ("Weather API returned status " ++ Text.str_of_Z (status_code response))
               (if Text.truthy (text response) then Text.slice_to 200 (text response)
                else "No response content"))
            (status_code response)).

(** Lines 170 to 189: the [except] clauses, in the order they are tried. *)
Definition weather_handlers (e : exn) : M Response :=
  if is_Timeout e then
    ret (mk_Response
           (error_body "Weather API request timed out"
              "The weather service is taking too long to respond") 504)
  else if is_ConnectionError e then
    ret (mk_Response
           (error_body "Cannot connect to weather API"
              "Check your internet connection") 503)
  else
    ret (mk_Response (error_body "Unexpected error occurred" (exn_text e)) 500).

Definition get_weather (env : Env) (city : string) : M Response :=
  loaded <- load_api_key env ;;
  match loaded with
  | inl response => ret response
  | inr api_key =>
      let url := weather_url city api_key in
      try_except (fetch_weather env city url) weather_handlers
  end.

(** ** The analytics endpoint: [task_analytics] *)

Definition status_labels : list string := ["Completed"; "Pending"; "In Progress"].

(** Lines 226 to 236: the left panel. *)
Definition status_panel (completed_tasks pending_tasks in_progress_tasks : Z) : pie_panel :=
  let status_data := [completed_tasks; pending_tasks; in_progress_tasks] in
  let non_zero_data := filter (fun p => 0 <? snd p) (combine status_labels status_data) in
  match non_zero_data with
  | [] => PieText "No tasks yet"
  | _ :: _ =>
      let labels := map fst non_zero_data in
      let chart_data := map snd non_zero_data in
      let colors := firstn (List.length labels) ["#4CAF50"; "#FF9800"; "#2196F3"] in
      Pie chart_data labels colors
  end.

(** [colors.get(p, '#607D8B')] *)
Definition bar_color (p : string) : string :=
  if String.eqb p "low" then "#4CAF50"
  else if String.eqb p "medium" then "#FF9800"
  else if String.eqb p "high" then "#F44336"
  else "#607D8B".

(** Lines 240 to 249: the right panel. *)
Definition priority_panel (priority_stats : list (string * Z)) : bar_panel :=
  match priority_stats with
  | [] => BarText "No tasks yet"
  | _ :: _ =>
      let priorities := map fst priority_stats in
      let counts := map snd priority_stats in
      let bar_colors := map bar_color priorities in
      Bar priorities counts bar_colors
  end.

Definition recent_task_data (env : Env) (task : Task.t) : json :=
  JObj [("id", JInt (Task.id task));
        ("title", JStr (Task.title task));
        ("status", JStr (Task.status task));
        ("priority", JStr (Task.priority task));
        ("created_at", JStr (isoformat env (Task.created_at task)))].

Definition priority_row (row : string * Z) : json :=
  JObj [("priority", JStr (fst row)); ("count", JInt (snd row))].

(** [round((completed_tasks / total_tasks * 100), 2) if total_tasks > 0 else 0] *)
Definition completion_rate (completed_tasks total_tasks : Z) : json :=
  if 0 <? total_tasks then
    JFloat (PyFloat.round2
              (PrimFloat.mul (PyFloat.true_div completed_tasks total_tasks)
                 (PyFloat.of_int 100)))
  else JInt 0.

(** Lines 220 to 269: the picture, or [None]. *)
Definition chart (env : Env) (total_tasks completed_tasks pending_tasks in_progress_tasks : Z)
    (priority_stats : list (string * Z)) : M (option string) :=
  if 0 <? total_tasks then
    try_except
      (picture <- savefig env
                    (mk_figure
                       (status_panel completed_tasks pending_tasks in_progress_tasks)
                       (priority_panel priority_stats)) ;;
       ret (Some picture))
      (fun chart_error => ret None)
  else ret None.

Definition task_analytics (env : Env) : M Response :=
  try_except
    (total_tasks <- db_select env (count Task_objects_all) ;;
     completed_tasks <- db_select env (count (filter_status "completed" Task_objects_all)) ;;
     pending_tasks <- db_select env (count (filter_status "pending" Task_objects_all)) ;;
     in_progress_tasks <- db_select env (count (filter_status "in_progress" Task_objects_all)) ;;
     priority_stats <- db_select env (priority_counts env) ;;
     recent_tasks <- db_select env recent_five ;;
     let recent_tasks_data := map (recent_task_data env) recent_tasks in
     chart_image <- chart env total_tasks completed_tasks pending_tasks
                      in_progress_tasks priority_stats ;;
     ret (mk_Response
            (JsonBody (JObj
               [("total_tasks", JInt total_tasks);
                ("completed_tasks", JInt completed_tasks);
                ("pending_tasks", JInt pending_tasks);
                ("in_progress_tasks", JInt in_progress_tasks);
                ("completion_rate", completion_rate completed_tasks total_tasks);
                ("priority_distribution", JArr (map priority_row priority_stats));
                ("recent_tasks", JArr recent_tasks_data);
                ("chart_image",
                 match chart_image with Some picture => JStr picture | None => JNull end);
                ("generated_at", JStr (isoformat env (now env)));
                ("debug_info",
                 JObj [("chart_generated",
                        JBool (match chart_image with Some _ => true | None => false end));
                       ("has_tasks", JBool (0 <? total_tasks));
                       ("recent_tasks_count",
                        JInt (Z.of_nat (List.length recent_tasks_data)))])]))
            200))
    (fun e =>
       ret (mk_Response (error_body "Failed to generate analytics" (exn_text e)) 500)).

(** ** The dashboard view: [dashboard] *)

Definition endpoint_line (href : string) (icon : list Z) (label : string) : string :=
  "            <div class=" ++ Text.dq ++ "endpoint" ++ Text.dq ++ "><a href="
    ++ Text.dq ++ href ++ Text.dq ++ " target=" ++ Text.dq ++ "_blank" ++ Text.dq
    ++ ">" ++ Text.bytes icon ++ " " ++ href ++ " - " ++ label ++ "</a></div>".

(** The lines of the page of lines 324 to 351 that come before the error
    text; the pictographs are given by the bytes they have in the file. *)
Definition page_before_error : list string :=
  ["";
   "        <!DOCTYPE html>";
   "        <html>";
   "        <head>";
   "            <title>Task Manager Dashboard</title>";
   "            <style>";
   "                body { font-family: Arial, sans-serif; margin: 40px; }";
   "                .endpoint { background: #f5f5f5; padding: 10px; margin: 5px 0; border-radius: 5px; }";
   "                .error { color: #d32f2f; background: #ffebee; padding: 10px; border-radius: 5px; }";
   "            </style>";
   "        </head>";
   "        <body>";
   "            <h1>" ++ Text.bytes [239; 163; 191; 195; 188; 195; 182; 195; 132]
     ++ " Task Manager Dashboard</h1>";
   "            <div class=" ++ Text.dq ++ "error" ++ Text.dq ++ ">";
   "                <strong>Template Error:</strong> "].

(** The lines that come after it. *)
Definition page_after_error : list string :=
  ["";
   "            </div>";
   "            <h2>Available API Endpoints:</h2>";
   endpoint_line "/api/tasks/"
     [239; 163; 191; 195; 188; 195; 172; 195; 163] "Task Management";
   endpoint_line "/api/weather/Mumbai/"
     [239; 163; 191; 195; 188; 195; 165; 194; 182; 195; 148; 226; 136; 143; 195; 168]
     "Weather Data";
   endpoint_line "/api/analytics/"
     [239; 163; 191; 195; 188; 195; 172; 195; 164] "Task Analytics";
   endpoint_line "/api/test/"
     [239; 163; 191; 195; 188; 195; 159; 226; 132; 162] "Test Endpoint";
   endpoint_line "/api/debug-config/"
     [239; 163; 191; 195; 188; 195; 174; 195; 159] "Configuration Debug";
   "            ";
   "            <h2>Quick Test:</h2>";
   "            <p>Your Django server is running correctly! All API endpoints should be working.</p>";
   "        </body>";
   "        </html>";
   "        "].

(** The page of the [except] clause, around [str(e)]. *)
Definition fallback_page (error_text : string) : string :=
  String.concat Text.nl page_before_error
    ++ error_text
    ++ String.concat Text.nl page_after_error.

(** The endpoints the page links to. *)
Definition listed_endpoints : list string :=
  ["/api/tasks/"; "/api/weather/Mumbai/"; "/api/analytics/"; "/api/test/";
   "/api/debug-config/"].

(** Lines 305 to 319: the body of the [try].  The query for the recent
    tasks is run by the template engine, when the page asks for its rows. *)
Definition dashboard_body (env : Env) : M Response :=
  task_count <- db_select env (count Task_objects_all) ;;
  completed_tasks <- db_select env (count (filter_status "completed" Task_objects_all)) ;;
  pending_tasks <- db_select env (count (filter_status "pending" Task_objects_all)) ;;
  log_call (RenderTemplate "dashboard.html") ;;;
  recent_tasks <- db_select env recent_five ;;
  page <- eval (render env "dashboard.html"
                  (mk_context task_count recent_tasks completed_tasks pending_tasks)) ;;
  ret (mk_Response (HtmlBody page) 200).

Definition dashboard (env : Env) : M Response :=
  try_except (dashboard_body env)
    (fun e => ret (mk_Response (HtmlBody (fallback_page (exn_text e))) 200)).

(** ** The liveness and configuration endpoints: [test_endpoint], [debug_config] *)

(** What the handlers read of a request. *)
Record Request : Type := mk_Request {
  method : string;
  path : string;
  META : list (string * string)
}.

(** What [debug_config] needs of its surroundings beyond [Env]. *)
Record Settings : Type := mk_Settings {
  (** [config('DEBUG', default=False, cast=bool)] *)
  debug_setting : outcome bool;
  (** The exception a query over the weather log raises, if it does. *)
  weather_log_fault : option exn;
  (** [str(timezone.get_current_timezone())] *)
  current_timezone : string
}.

Definition available_endpoints : list string :=
  ["/api/tasks/"; "/api/weather/<city>/"; "/api/analytics/"; "/api/test/"].

Definition test_endpoint (env : Env) (request : Request) : M Response :=
  ret (mk_Response
         (JsonBody (JObj
            [("status", JStr "success");
             ("message", JStr "URL routing is working!");
             ("available_endpoints", JArr (map JStr available_endpoints));
             ("request_method", JStr (method request));
             ("request_path", JStr (path request));
             ("timestamp", JStr (isoformat env (now env)))]))
         200).

(** [config(name, default=default)]: the default stands in for a name
    that is not defined, and for that only. *)
Definition config_default (env : Env) (name default : string) : outcome string :=
  match config env name with
  | Return value => Return value
  | Raise e =>
      match exn_kind e with
      | UndefinedValueError => Return default
      | _ => Raise e
      end
  end.

(** A query over the weather log. *)
Definition db_select_logs {A} (settings : Settings) (q : Store -> A) : M A :=
  fun s =>
    match weather_log_fault settings with
    | Some e => (Raise e, s)
    | None => (Return (q (db s)), s)
    end.

(** Where a row goes in a list that is ordered by [-timestamp]; among rows
    of the same instant the earlier row stays first. *)
Fixpoint insert_by_timestamp (x : WeatherLog.t) (l : list WeatherLog.t)
    : list WeatherLog.t :=
  match l with
  | [] => [x]
  | y :: rest =>
      if WeatherLog.timestamp y <=? WeatherLog.timestamp x then x :: l
      else y :: insert_by_timestamp x rest
  end.

(** [WeatherLog.objects.order_by('-timestamp')[:3]] *)
Definition recent_logs (st : Store) : list WeatherLog.t :=
  firstn 3 (fold_right insert_by_timestamp [] (weather_logs st)).

(** [request.META.get(key, 'unknown')] *)
Fixpoint meta_get (key : string) (meta : list (string * string)) : string :=
  match meta with
  | [] => "unknown"
  | (k, v) :: rest => if String.eqb key k then v else meta_get key rest
  end.

(** Lines 358 to 365: the two entries about the weather key. *)
Definition key_entries (env : Env) : list (string * json) :=
  match config_default env "WEATHER_API_KEY" "" with
  | Return weather_key =>
      [("weather_api_key_configured", JBool (Text.truthy weather_key));
       ("weather_api_key_length",
        JInt (if Text.truthy weather_key then Z.of_nat (Text.len weather_key)
              else 0))]
  | Raise _ =>
      [("weather_api_key_configured", JBool false);
       ("weather_api_key_length", JInt 0)]
  end.

(** Lines 367 to 370 *)
Definition debug_mode (settings : Settings) : json :=
  match debug_setting settings with
  | Return flag => JBool flag
  | Raise _ => JStr "unknown"
  end.

(** Lines 373 to 380: the state of the database, as three entries. *)
Definition database_entries (env : Env) (settings : Settings) : M json :=
  try_except
    (task_count <- db_select env (count Task_objects_all) ;;
     weather_count <- db_select_logs settings
                        (fun st => Z.of_nat (List.length (weather_logs st))) ;;
     ret (JObj [("status", JStr "connected");
                ("task_count", JInt task_count);
                ("weather_log_count", JInt weather_count)]))
    (fun e =>
       ret (JObj [("status", JStr ("error: " ++ exn_text e));
                  ("task_count", JStr "error");
                  ("weather_log_count", JStr "error")])).

Definition recent_log_data (env : Env) (log : WeatherLog.t) : json :=
  JObj [("city", WeatherLog.city log);
        ("temperature", WeatherLog.temperature log);
        ("timestamp", JStr (isoformat env (WeatherLog.timestamp log)))].

(** Lines 383 to 392 *)
Definition recent_weather (env : Env) (settings : Settings) : M json :=
  try_except
    (logs <- db_select_logs settings recent_logs ;;
     ret (JArr (map (recent_log_data env) logs)))
    (fun e => ret (JArr [JObj [("error", JStr (exn_text e))]])).

Definition debug_config (env : Env) (settings : Settings) (request : Request)
    : M Response :=
  try_except
    (let env_vars := (key_entries env ++ [("debug_mode", debug_mode settings)])%list in
     database <- database_entries env settings ;;
     recent <- recent_weather env settings ;;
     ret (mk_Response
            (JsonBody (JObj
               [("server_status", JStr "running");
                ("timestamp", JStr (isoformat env (now env)));
                ("environment_variables", JObj env_vars);
                ("database", database);
                ("recent_weather_logs", recent);
                ("request_info",
                 JObj [("method", JStr (method request));
                       ("path", JStr (path request));
                       ("user_agent", JStr (meta_get "HTTP_USER_AGENT" (META request)));
                       ("remote_addr", JStr (meta_get "REMOTE_ADDR" (META request)))]);
                ("django_info",
                 JObj [("timezone", JStr (current_timezone settings));
                       ("debug_mode", debug_mode settings)])]))
            200))
    (fun e =>
       ret (mk_Response
              (JsonBody (JObj
                 [("error", JStr "Debug endpoint failed");
                  ("details", JStr (exn_text e));
                  ("timestamp", JStr (isoformat env (now env)))]))
              500)).

(** ** The URL patterns of [tasks/app_urls.py] *)

(** A route of [path()]: literal text and [<str:name>] converters. *)
Inductive part : Type :=
| Lit (text : string)
| StrParam (name : string).

(** What a pattern leads to. *)
Inductive target : Type :=
| include_router                (* [include(router.urls)] *)
| to_get_weather
| to_task_analytics
| to_test_endpoint
| to_debug_config
| to_dashboard.

Definition urlpatterns : list (list part * target) :=
  [([Lit "api/"], include_router);
   ([Lit "api/weather/"; StrParam "city"; Lit "/"], to_get_weather);
   ([Lit "api/weather/"; StrParam "city"], to_get_weather);
   ([Lit "api/analytics/"], to_task_analytics);
   ([Lit "api/test/"], to_test_endpoint);
   ([Lit "api/debug-config/"], to_debug_config);
   ([], to_dashboard)].

(** The view a request is handed to, with the arguments captured. *)
Inductive view : Type :=
| router_view (name : string)   (* a view of the router, by its name *)
| view_get_weather (city : string)
| view_task_analytics
| view_test_endpoint
| view_debug_config
| view_dashboard.

Definition is_slash (c : ascii) : bool := (nat_of_ascii c =? 47)%nat.

(** The longest start without a slash, and what follows it: what the
    converter [str] ([[^/]+]) takes when a slash or the end follows it in
    the route, as in every route above. *)
Fixpoint take_segment (s : string) : string * string :=
  match s with
  | EmptyString => (EmptyString, EmptyString)
  | String c rest =>
      if is_slash c then (EmptyString, s)
      else let (segment, after) := take_segment rest in (String c segment, after)
  end.

(** The captured arguments when the whole of [s] matches the route. *)
Fixpoint match_route (route : list part) (s : string) : option (list (string * string)) :=
  match route with
  | [] => if Text.truthy s then None else Some []
  | Lit text :: rest =>
      match Text.after_prefix text s with
      | Some s' => match_route rest s'
      | None => None
      end
  | StrParam name :: rest =>
      let (segment, s') := take_segment s in
      if Text.truthy segment then
        match match_route rest s' with
        | Some captured => Some ((name, segment) :: captured)
        | None => None
        end
      else None
  end.

(** What follows the route when [s] starts with it: an [include] hands
    this remainder to the patterns it includes. *)
Fixpoint match_start (route : list part) (s : string) : option string :=
  match route with
  | [] => Some s
  | Lit text :: rest =>
      match Text.after_prefix text s with
      | Some s' => match_start rest s'
      | None => None
      end
  | StrParam _ :: rest =>
      let (segment, s') := take_segment s in
      if Text.truthy segment then match_start rest s' else None
  end.

Fixpoint kwarg (name : string) (captured : list (string * string)) : string :=
  match captured with
  | [] => ""
  | (k, v) :: rest => if String.eqb name k then v else kwarg name rest
  end.

(** The patterns are tried in order.  [router_urls] stands for the URLs of
    the [DefaultRouter] with its one registration [tasks]: the name of the
    view for what follows [api/], if one of its routes matches. *)
Fixpoint resolve_in (router_urls : string -> option string)
    (patterns : list (list part * target)) (s : string) : option view :=
  match patterns with
  | [] => None
  | (route, include_router) :: rest =>
      match match_start route s with
      | Some remainder =>
          match router_urls remainder with
          | Some name => Some (router_view name)
          | None => resolve_in router_urls rest s
          end
      | None => resolve_in router_urls rest s
      end
  | (route, found) :: rest =>
      match match_route route s with
      | Some captured =>
          Some (match found with
                | to_get_weather => view_get_weather (kwarg "city" captured)
                | to_task_analytics => view_task_analytics
                | to_test_endpoint => view_test_endpoint
                | to_debug_config => view_debug_config
                | _ => view_dashboard
                end)
      | None => resolve_in router_urls rest s
      end
  end.

(** The view for a path.  [s] is the path as these patterns see it:
    without what the including URLconf has matched before them, which for
    patterns included at the root is the slash the path starts with. *)
Definition resolve (router_urls : string -> option string) (s : string) : option view :=
  resolve_in router_urls urlpatterns s.

(** ** Notions used to state the properties *)

(** The query string without the pairs of one key. *)
Definition without (key : string) (params : query_params) : query_params :=
  filter (fun kv => negb (String.eqb key (fst kv))) params.

Definition is_completed (t : Task.t) : bool := String.eqb (Task.status t) "completed".

Definition is_high (t : Task.t) : bool := String.eqb (Task.priority t) "high".

(** The response is an error report: its body has an [error] entry. *)
Definition has_error (r : Response) : Prop :=
  exists message, field r "error" = Some (JStr message).

(** The outside calls made between two states of the system. *)
Definition new_calls (before after : Sys) : list event :=
  skipn (List.length (calls before)) (calls after).

(** The four values [get_weather] stores, as it reads them from the body
    of the weather API's answer. *)
Definition reads (data city temperature description humidity : json) : Prop :=
  Py.getitem data "name" = Return city
  /\ main_item data "temp" = Return temperature
  /\ weather_description data = Return description
  /\ main_item data "humidity" = Return humidity.

(** The member [k] of the body is an object, or the body has no such
    member: what [data.get(k, {}).get(...)] can be evaluated on. *)
Definition section_ok (data : json) (k : string) : Prop :=
  exists members, Py.get data k (JObj []) = Return (JObj members).

(** The statistics entries of the analytics response. *)
Definition statistics_fields : list string :=
  ["total_tasks"; "completed_tasks"; "pending_tasks"; "in_progress_tasks";
   "completion_rate"; "priority_distribution"; "recent_tasks"].

(** The same surroundings with another chart library. *)
Definition with_draw_chart (env : Env) (g : figure -> outcome string) : Env :=
  mk_Env (config env) (requests_get env) (db_fault env) (group_rank env)
         (field_prep env) (now env) (later env) (isoformat env) (strftime env) g
         (render env).

(** The number of stored tasks, and of those with a given status. *)
Definition total_of (st : Store) : Z := Z.of_nat (List.length (tasks st)).

Definition with_status (value : string) (st : Store) : Z :=
  Z.of_nat (List.length (filter (fun t => String.eqb (Task.status t) value) (tasks st))).

(** The figure [task_analytics] draws for a table of tasks. *)
Definition analytics_figure (env : Env) (st : Store) : figure :=
  mk_figure
    (status_panel (with_status "completed" st) (with_status "pending" st)
                  (with_status "in_progress" st))
    (priority_panel (priority_counts env st)).

(** Python's [round(completed / total * 100, 2)] on two counts. *)
Definition percentage (completed total : Z) : float :=
  PyFloat.round2
    (PrimFloat.mul (PyFloat.true_div completed total) (PyFloat.of_int 100)).

(** No stored task has the primary key the next insert will give. *)
Definition fresh_ids (st : Store) : Prop :=
  Forall (fun t => Task.id t <> next_task_id st) (tasks st).

Definition priorities : list string := ["low"; "medium"; "high"].

Definition statuses : list string := ["pending"; "in_progress"; "completed"].




(** What makes [WeatherLog.objects.create] raise, if it does: the
    preparation of a value, or the database. *)
Definition create_error (env : Env) (city temperature description humidity : json)
    : option exn :=
  match column_values env city temperature description humidity with
  | Raise e => Some e
  | Return _ => db_fault env (InsertWeatherLog city temperature description humidity)
  end.

(** ** Sample data *)

Definition sample_task (id : Z) (title priority status : string) (created : datetime) : Task.t :=
  Task.mk id title "" priority status created created None 1.

Definition sample_tasks : list Task.t :=
  [sample_task 1 "write report" "high" "completed" 10;
   sample_task 2 "buy milk" "low" "completed" 20;
   sample_task 3 "call bank" "high" "pending" 30].

Definition sample_store : Store := mk_Store sample_tasks [] [1] 4 1.

Definition no_fault : db_op -> option exn := fun _ => None.

Definition sample_exn : exn := mk_exn RuntimeError "unavailable".

(** Surroundings in which nothing is configured and every outside call
    fails; the samples below change the parts they are about. *)
Definition bare_env : Env :=
  mk_Env (fun _ => Raise (mk_exn UndefinedValueError "WEATHER_API_KEY not found."))
         (fun _ => Raise (mk_exn ConnectionError "no route to host"))
         no_fault
         (fun p => if String.eqb p "high" then 0 else if String.eqb p "low" then 1
                   else if String.eqb p "medium" then 2 else 3)
         (fun name _ =>
            Raise (mk_exn ValueError ("Field '" ++ name ++ "' expected a number.")))
         1700000000000000
         1700000000000042
         (fun t => Text.str_of_Z t)
         (fun _ t => Text.str_of_Z (Z.quot t 1000000))
         (fun _ => Raise sample_exn)
         (fun _ _ => Raise (mk_exn TemplateError "dashboard.html")).

(** The same with a weather key and a weather API that answers. *)
Definition answering (answer : outcome HttpResponse) (fault : db_op -> option exn) : Env :=
  mk_Env (fun _ => Return "k3y") (fun _ => answer) fault
         (group_rank bare_env) (field_prep bare_env)
         (now bare_env) (later bare_env) (isoformat bare_env) (strftime bare_env)
         (draw_chart bare_env) (render bare_env).

Definition empty_key_env : Env :=
  mk_Env (fun _ => Return "") (requests_get bare_env) no_fault
         (group_rank bare_env) (field_prep bare_env)
         (now bare_env) (later bare_env) (isoformat bare_env) (strftime bare_env)
         (draw_chart bare_env) (render bare_env).

Definition sample_sys : Sys := mk_Sys sample_store [].


(** An answer with an integer temperature and a fractional humidity. *)
Definition cold_payload : json :=
  JObj [("name", JStr "Oslo");
        ("main", JObj [("temp", JInt (-3)); ("humidity", JFloat 62.5%float)]);
        ("weather", JArr [JObj [("description", JStr "snow")]])].

Definition cold_answer : HttpResponse :=
  mk_HttpResponse 200 "{...}" (Return cold_payload).



(** The body of an answer of the weather API, reduced to what is read. *)
Definition sample_payload (wind : json) : json :=
  JObj [("name", JStr "Pune");
        ("main", JObj [("temp", JFloat 28.5%float); ("feels_like", JFloat 30.25%float);
                       ("pressure", JInt 1009); ("humidity", JInt 62)]);
        ("weather", JArr [JObj [("main", JStr "Clouds");
                                ("description", JStr "broken clouds")]]);
        ("visibility", JInt 6000);
        ("wind", wind);
        ("sys", JObj [("country", JStr "IN")])].

Definition sample_answer (wind : json) : HttpResponse :=
  mk_HttpResponse 200 "{...}" (Return (sample_payload wind)).

Definition sample_wind : json := JObj [("speed", JFloat 3.5%float)].

(** The database refuses the insert into the weather log, and only that. *)
Definition insert_fails : db_op -> option exn :=
  fun op =>
    match op with
    | InsertWeatherLog _ _ _ _ => Some (mk_exn DatabaseError "database is locked")
    | _ => None
    end.

Definition empty_sys : Sys := mk_Sys (mk_Store [] [] [1] 1 1) [].

(** A chart library that draws. *)
Definition drawing_env : Env :=
  with_draw_chart bare_env (fun _ => Return "iVBORw0KGgo=").

(** A request to create a task, and one whose title has a leading space. *)
Definition sample_data (title : string) : TaskSerializer.data :=
  TaskSerializer.mk_data (Some title) (Some "two pages") (Some "low") (Some "pending")
    (Some (Some 1700086400000000)) (Some 1).

(** ** Notions used to state the further properties *)

(** A computation that leaves the system as it is, whatever it returns. *)
Definition pure {A} (m : M A) : Prop := forall s, snd (m s) = s.

(** The database after one row was added to the weather log. *)
Definition with_log (row : WeatherLog.t) (st : Store) : Store :=
  mk_Store (tasks st) (weather_logs st ++ [row])%list (users st)
    (next_task_id st) (next_weather_log_id st + 1).

(** The row an insert into the weather log makes of four values. *)
Definition log_row (env : Env) (st : Store)
    (city temperature description humidity : json) : WeatherLog.t :=
  WeatherLog.mk (next_weather_log_id st) city temperature description humidity (now env).

(** The four values [get_weather] stores, read in the order the handler
    reads them. *)
Definition read_values (data : json) : outcome (json * json * json * json) :=
  and_then (Py.getitem data "name") (fun name =>
  and_then (main_item data "temp") (fun temperature =>
  and_then (weather_description data) (fun description =>
  and_then (main_item data "humidity") (fun humidity =>
  Return (name, temperature, description, humidity))))).

(** Neither a timeout nor a connection error of [requests]. *)
Definition ordinary (e : exn) : Prop :=
  is_Timeout e = false /\ is_ConnectionError e = false.

(** A body of the weather API whose [wind] member is a text. *)
Definition windy_text : json := JStr "calm".

(** The number of stored tasks with a given priority. *)
Definition with_priority (value : string) (st : Store) : Z :=
  Z.of_nat (List.length
              (filter (fun t => String.eqb (Task.priority t) value) (tasks st))).

(** The count a list of groups gives for a value, 0 when it has no group. *)
Fixpoint group_count (p : string) (groups : list (string * Z)) : Z :=
  match groups with
  | [] => 0
  | (q, n) :: rest => if String.eqb p q then n else group_count p rest
  end.

Definition sum_counts (groups : list (string * Z)) : Z :=
  fold_right (fun g acc => snd g + acc) 0 groups.

(** [a] was created no earlier than [b]: the order of the listings. *)
Definition not_older (a b : Task.t) : Prop := Task.created_at b <= Task.created_at a.

(** The status of the task is one of the three of the model. *)
Definition known_status (t : Task.t) : Prop := In (Task.status t) statuses.

(** Every stored task has a primary key below the next one to be given. *)
Definition ids_below (st : Store) : Prop :=
  Forall (fun t => Task.id t < next_task_id st) (tasks st).

(** The database after one task was added. *)
Definition with_task (task : Task.t) (st : Store) : Store :=
  mk_Store (tasks st ++ [task])%list (weather_logs st) (users st)
    (next_task_id st + 1) (next_weather_log_id st).

(** Surroundings whose template engine prints the number of tasks. *)
Definition rendering_env : Env :=
  mk_Env (config bare_env) (requests_get bare_env) no_fault
         (group_rank bare_env) (field_prep bare_env) (now bare_env) (later bare_env)
         (isoformat bare_env) (strftime bare_env) (draw_chart bare_env)
         (fun _ ctx => Return ("tasks: " ++ Text.str_of_Z (ctx_task_count ctx))).

(** The same surroundings with another value, or failure, of
    [config('WEATHER_API_KEY')]. *)
Definition with_weather_key (env : Env) (key : outcome string) : Env :=
  mk_Env (fun name => if String.eqb name "WEATHER_API_KEY" then key else config env name)
         (requests_get env) (db_fault env) (group_rank env) (field_prep env)
         (now env) (later env) (isoformat env) (strftime env)
         (draw_chart env) (render env).

(** A field of the [database] object of a JSON response body. *)
Definition database_field (r : Response) (k : string) : option json :=
  match field r "database" with
  | Some (JObj members) => Py.assoc k members
  | _ => None
  end.

(** What [debug_config] says of a database that raised [e]. *)
Definition database_error (e : exn) : json :=
  JObj [("status", JStr ("error: " ++ exn_text e));
        ("task_count", JStr "error");
        ("weather_log_count", JStr "error")].

(** [a] was logged no earlier than [b]. *)
Definition not_earlier (a b : WeatherLog.t) : Prop :=
  WeatherLog.timestamp b <= WeatherLog.timestamp a.

(** The number of rows of the weather log. *)
Definition logged (st : Store) : Z := Z.of_nat (List.length (weather_logs st)).

(** The text has no slash. *)
Fixpoint no_slash (s : string) : bool :=
  match s with
  | EmptyString => true
  | String c rest => negb (is_slash c) && no_slash rest
  end.

(** Settings with a readable [DEBUG] and a working weather log, and the
    same with a weather log that cannot be read. *)
Definition sample_settings : Settings := mk_Settings (Return true) None "UTC".

Definition failing_settings : Settings :=
  mk_Settings (Return true) (Some (mk_exn DatabaseError "no such table: tasks_weatherlog"))
    "UTC".

Definition sample_request : Request :=
  mk_Request "GET" "/api/debug-config/" [("HTTP_USER_AGENT", "curl/8.5.0")].

(** A router that knows its root, the list of tasks and one task. *)
Definition sample_router (remainder : string) : option string :=
  if String.eqb remainder "" then Some "api-root"
  else if String.eqb remainder "tasks/" then Some "task-list"
  else
    match Text.after_prefix "tasks/" remainder with
    | Some tail =>
        let (pk, after) := take_segment tail in
        if (Text.truthy pk && String.eqb after "/")%bool then Some "task-detail" else None
    | None => None
    end.

(** What a task adds to the count of the tasks with the status [value]. *)
Definition counted (value : string) (task : Task.t) : Z :=
  if String.eqb (Task.status task) value then 1 else 0.

(** * Properties *)

(** ** Ordering and filtering *)

Lemma insert_by_created_perm (x : Task.t) (l : list Task.t) :
  Permutation (insert_by_created x l) (x :: l).
Proof.
  induction l as [|y rest IH]; simpl.
  - apply Permutation_refl.
  - destruct (Task.created_at y <=? Task.created_at x).
    + apply Permutation_refl.
    + apply Permutation_trans with (y :: x :: rest).
      * apply perm_skip. exact IH.
      * apply perm_swap.
Qed.

Lemma order_by_created_desc_perm (l : list Task.t) :
  Permutation (order_by_created_desc l) l.
Proof.
  unfold order_by_created_desc.
  induction l as [|x rest IH]; simpl.
  - apply perm_nil.
  - eapply Permutation_trans.
    + apply insert_by_created_perm.
    + apply perm_skip. exact IH.
Qed.

Lemma in_order_by_created_desc (t : Task.t) (l : list Task.t) :
  In t (order_by_created_desc l) <-> In t l.
Proof.
  split; apply Permutation_in.
  - apply order_by_created_desc_perm.
  - apply Permutation_sym, order_by_created_desc_perm.
Qed.

Lemma filter_length_perm (p : Task.t -> bool) (l l' : list Task.t) :
  Permutation l l' -> List.length (filter p l) = List.length (filter p l').
Proof.
  induction 1 as [|x l l' _ IH|x y l|l l' l'' _ IH1 _ IH2]; simpl.
  - reflexivity.
  - destruct (p x); simpl; congruence.
  - destruct (p x), (p y); reflexivity.
  - congruence.
Qed.

Lemma query_get_without (key other : string) (params : query_params) :
  query_get key (without other params)
  = if String.eqb other key then None else query_get key params.
Proof.
  induction params as [|[k v] rest IH]; simpl.
  - destruct (String.eqb other key); reflexivity.
  - destruct (String.eqb other k) eqn:Ek; simpl; rewrite IH;
      destruct (String.eqb other key) eqn:Eo; try reflexivity.
    + destruct (query_get key rest); [reflexivity|].
      apply String.eqb_eq in Ek. subst k.
      rewrite String.eqb_sym, Eo. reflexivity.
    + apply String.eqb_eq in Eo. subst key. rewrite Ek. reflexivity.
Qed.

Lemma list_runs (env : Env) (params : query_params) (s : Sys) :
  db_fault env SelectTasks = None ->
  TaskViewSet.list env params s
  = (Return (mk_Response (TaskListBody (TaskViewSet.get_queryset params (db s))) 200), s).
Proof.
  intros Hdb. unfold TaskViewSet.list, bind, db_select, db_run, ret.
  rewrite Hdb. reflexivity.
Qed.

(** ** The task list *)

(** C7. Listing with [?status=completed] returns the rows of the listing
    whose status is [completed], and those only: each stored task with that
    status, none with another.  With [&priority=high] added it returns the
    rows that have both the status [completed] and the priority [high].
    The response of the list operation carries exactly those rows. *)
Theorem list_filters_exactly :
  forall (params : query_params) (st : Store),
    query_get "status" params = Some "completed" ->
    (query_get "priority" params = None ->
       TaskViewSet.get_queryset params st = filter is_completed (Task_objects_all st)
       /\ (forall t, In t (TaskViewSet.get_queryset params st)
                     <-> In t (tasks st) /\ Task.status t = "completed"))
    /\ (query_get "priority" params = Some "high" ->
          TaskViewSet.get_queryset params st
          = filter is_high (filter is_completed (Task_objects_all st))
          /\ (forall t, In t (TaskViewSet.get_queryset params st)
                        <-> In t (tasks st) /\ Task.status t = "completed"
                            /\ Task.priority t = "high"))
    /\ (forall (env : Env) (s : Sys),
          db_fault env SelectTasks = None ->
          TaskViewSet.list env params s
          = (Return (mk_Response
                       (TaskListBody (TaskViewSet.get_queryset params (db s))) 200), s)).
Proof.
  intros params st Hs. repeat split.
  - unfold TaskViewSet.get_queryset. rewrite Hs, H. reflexivity.
  - unfold TaskViewSet.get_queryset in H0. rewrite Hs, H in H0. simpl in H0.
    unfold filter_status in H0. apply filter_In in H0.
    apply (in_order_by_created_desc t (tasks st)), H0.
  - unfold TaskViewSet.get_queryset in H0. rewrite Hs, H in H0. simpl in H0.
    unfold filter_status in H0. apply filter_In in H0.
    apply String.eqb_eq, H0.
  - intros [Hin Hst]. unfold TaskViewSet.get_queryset. rewrite Hs, H. simpl.
    unfold filter_status. apply filter_In. split.
    + apply (in_order_by_created_desc t (tasks st)), Hin.
    + apply String.eqb_eq, Hst.
  - unfold TaskViewSet.get_queryset. rewrite Hs, H. reflexivity.
  - unfold TaskViewSet.get_queryset in H0. rewrite Hs, H in H0. simpl in H0.
    unfold filter_priority, filter_status in H0.
    apply filter_In in H0. destruct H0 as [H0 _]. apply filter_In in H0.
    apply (in_order_by_created_desc t (tasks st)), H0.
  - unfold TaskViewSet.get_queryset in H0. rewrite Hs, H in H0. simpl in H0.
    unfold filter_priority, filter_status in H0.
    apply filter_In in H0. destruct H0 as [H0 _]. apply filter_In in H0.
    apply String.eqb_eq, H0.
  - unfold TaskViewSet.get_queryset in H0. rewrite Hs, H in H0. simpl in H0.
    unfold filter_priority in H0. apply filter_In in H0.
    apply String.eqb_eq, H0.
  - intros (Hin & Hst & Hp). unfold TaskViewSet.get_queryset. rewrite Hs, H. simpl.
    unfold filter_priority, filter_status. apply filter_In. split.
    + apply filter_In. split.
      * apply (in_order_by_created_desc t (tasks st)), Hin.
      * apply String.eqb_eq, Hst.
    + apply String.eqb_eq, Hp.
  - intros env s Hdb. apply list_runs, Hdb.
Qed.

(** On the sample store, [?status=completed] lists the two completed tasks,
    the later one first. *)
Lemma list_filters_exactly_witness :
  query_get "status" [("status", "completed")] = Some "completed"
  /\ TaskViewSet.get_queryset [("status", "completed")] sample_store
     = [sample_task 2 "buy milk" "low" "completed" 20;
        sample_task 1 "write report" "high" "completed" 10].
Proof.
  split; [reflexivity|].
  destruct (list_filters_exactly [("status", "completed")] sample_store eq_refl)
    as [Hone _].
  destruct (Hone eq_refl) as [Heq _].
  rewrite Heq. reflexivity.
Defined.

(** C10. A [status] (or [priority]) parameter that is present with the empty
    string as its value filters nothing: the listing is the one the same
    request gives with that parameter removed, so [?status=] alone lists
    every task, and not the tasks whose status is the empty string. *)
Theorem empty_filter_is_ignored :
  forall (params : query_params) (st : Store),
    (query_get "status" params = Some "" ->
       TaskViewSet.get_queryset params st
       = TaskViewSet.get_queryset (without "status" params) st)
    /\ (query_get "priority" params = Some "" ->
          TaskViewSet.get_queryset params st
          = TaskViewSet.get_queryset (without "priority" params) st)
    /\ TaskViewSet.get_queryset [("status", "")] st = Task_objects_all st
    /\ TaskViewSet.get_queryset [("status", "")] st = TaskViewSet.get_queryset [] st.
Proof.
  intros params st. repeat split.
  - intros H. unfold TaskViewSet.get_queryset.
    rewrite !query_get_without, H. reflexivity.
  - intros H. unfold TaskViewSet.get_queryset.
    rewrite !query_get_without, H. simpl.
    destruct (query_get "status" params) as [v|]; reflexivity.
Qed.

(** On the sample store, [?status=&priority=high] lists the two tasks of
    high priority, whatever their status. *)
Lemma empty_filter_is_ignored_witness :
  query_get "status" [("status", ""); ("priority", "high")] = Some ""
  /\ TaskViewSet.get_queryset [("status", ""); ("priority", "high")] sample_store
     = [sample_task 3 "call bank" "high" "pending" 30;
        sample_task 1 "write report" "high" "completed" 10].
Proof.
  split; [reflexivity|].
  destruct (empty_filter_is_ignored [("status", ""); ("priority", "high")] sample_store)
    as [Hs _].
  rewrite (Hs eq_refl). reflexivity.
Defined.

(** ** The weather proxy *)

Lemma skipn_length_nil (A : Type) (l : list A) : skipn (List.length l) l = [].
Proof. induction l; simpl; auto. Qed.

Lemma append_assoc (a b c : string) : ((a ++ b) ++ c = a ++ (b ++ c))%string.
Proof. induction a as [|x a IH]; simpl; [reflexivity | rewrite IH; reflexivity]. Qed.


Lemma chars_cons (c : ascii) (rest : string) :
  Text.chars (String c rest)
  = match Text.chars rest with
    | following :: others =>
        if Text.continues following then String c following :: others
        else String c EmptyString :: following :: others
    | [] => [String c EmptyString]
    end.
Proof. reflexivity. Qed.








#[local] Opaque Text.slice_to.

(** With a key in the configuration the handler is the outer [try]. *)
Lemma get_weather_with_key (env : Env) (city api_key : string) (s : Sys) :
  config env "WEATHER_API_KEY" = Return api_key ->
  Text.truthy api_key = true ->
  get_weather env city s
  = try_except (fetch_weather env city (weather_url city api_key)) weather_handlers s.
Proof.
  intros Hc Ht. unfold get_weather, load_api_key, bind, try_except, eval, ret.
  rewrite Hc, Ht. reflexivity.
Qed.

(** C3. When the weather API key is absent from the configuration (reading
    it raises) or is the empty string, the weather lookup answers with HTTP
    500 and the error [Weather API key not configured], calls the weather
    API not even once, and leaves the system as it was. *)
Theorem missing_api_key_is_reported :
  forall (env : Env) (city : string) (s : Sys),
    (config env "WEATHER_API_KEY" = Return ""
     \/ exists e, config env "WEATHER_API_KEY" = Raise e) ->
    exists r,
      get_weather env city s = (Return r, s)
      /\ status r = 500
      /\ field r "error" = Some (JStr "Weather API key not configured")
      /\ new_calls s (snd (get_weather env city s)) = [].
Proof.
  intros env city s [H|[e H]];
    unfold get_weather, load_api_key, bind, try_except, eval, ret;
    rewrite H; simpl;
    (eexists; split; [reflexivity|]; repeat split; apply skipn_length_nil).
Qed.

Lemma missing_api_key_is_reported_witness :
  exists r,
    get_weather empty_key_env "Pune" sample_sys = (Return r, sample_sys)
    /\ status r = 500.
Proof.
  destruct (missing_api_key_is_reported empty_key_env "Pune" sample_sys
              (or_introl eq_refl)) as (r & Hrun & Hst & _).
  exists r. split; assumption.
Defined.






(** *** The answer to a successful lookup *)

Lemma getitem_object (data : json) (k : string) (v : json) :
  Py.getitem data k = Return v -> exists members, data = JObj members.
Proof.
  destruct data; simpl; try discriminate.
  intros _. eexists. reflexivity.
Qed.

Lemma get_on_object (members : list (string * json)) (k : string) (default : json) :
  exists x, Py.get (JObj members) k default = Return x.
Proof.
  simpl. destruct (Py.assoc k members); eexists; reflexivity.
Qed.

Lemma main_get_runs (data : json) (k k' : string) (v : json) :
  main_item data k = Return v -> exists x, main_get data k' = Return x.
Proof.
  unfold main_item, main_get, and_then.
  destruct (Py.getitem data "main") as [main|e]; [|discriminate].
  intros H. apply getitem_object in H. destruct H as [members ->].
  apply get_on_object.
Qed.

Lemma nested_get_runs (data : json) (outer inner : string) :
  section_ok data outer -> exists x, nested_get data outer inner = Return x.
Proof.
  intros [members H]. unfold nested_get, and_then. rewrite H.
  apply get_on_object.
Qed.

(** The dictionary of the answer is built without an exception once the
    four stored values can be read and [wind] and [sys] are objects or
    absent. *)
Lemma response_data_runs (env : Env) (data : json) (stamp : datetime) (debug_info : json)
    (s : Sys) (city temperature description humidity : json) :
  reads data city temperature description humidity ->
  section_ok data "wind" ->
  section_ok data "sys" ->
  exists feels_like pressure visibility wind_speed country,
    response_data env data stamp debug_info s
    = (Return (JObj
         [("city", city);
          ("temperature", temperature);
          ("description", description);
          ("humidity", humidity);
          ("logged_at", JStr (isoformat env stamp));
          ("logged_at_readable", JStr (strftime env "%Y-%m-%d %H:%M:%S" stamp));
          ("feels_like", feels_like);
          ("pressure", pressure);
          ("visibility", visibility);
          ("wind_speed", wind_speed);
          ("country", country);
          ("debug_info", debug_info)]), s).
Proof.
  intros (Hn & Ht & Hd & Hh) Hwind Hsys.
  destruct (main_get_runs data "temp" "feels_like" _ Ht) as [fl Hfl].
  destruct (main_get_runs data "temp" "pressure" _ Ht) as [pr Hpr].
  destruct (getitem_object _ _ _ Hn) as [members Hobj].
  destruct (get_on_object members "visibility" JNull) as [vis Hvis].
  rewrite <- Hobj in Hvis.
  destruct (nested_get_runs data "wind" "speed" Hwind) as [ws Hws].
  destruct (nested_get_runs data "sys" "country" Hsys) as [co Hco].
  exists fl, pr, vis, ws, co.
  unfold response_data, bind, eval, ret.
  rewrite Hn, Ht, Hd, Hh, Hfl, Hpr, Hvis, Hws, Hco. reflexivity.
Qed.

Lemma keys_run (data : json) (k : string) (v : json) :
  Py.getitem data k = Return v -> exists ks, Py.keys data = Return ks.
Proof.
  intros H. apply getitem_object in H. destruct H as [members ->].
  eexists. reflexivity.
Qed.

(** [WeatherLog.objects.create] raises what the preparation of the values
    or the database raises, and then changes nothing. *)
Lemma create_raises (env : Env) (city temperature description humidity : json)
    (e : exn) (s : Sys) :
  create_error env city temperature description humidity = Some e ->
  WeatherLog_objects_create env city temperature description humidity s = (Raise e, s).
Proof.
  unfold create_error, WeatherLog_objects_create.
  destruct (column_values env city temperature description humidity) as [[[[c t] d] h]|e'].
  - intros ->. reflexivity.
  - intros H. injection H as ->. reflexivity.
Qed.

(** Otherwise it inserts the row of the prepared values. *)
Lemma create_stores (env : Env) (city temperature description humidity : json)
    (c t d h : json) (s : Sys) :
  column_values env city temperature description humidity = Return (c, t, d, h) ->
  db_fault env (InsertWeatherLog city temperature description humidity) = None ->
  WeatherLog_objects_create env city temperature description humidity s
  = (Return (WeatherLog.mk (next_weather_log_id (db s)) city temperature description
               humidity (now env)),
     mk_Sys (with_log (log_row env (db s) c t d h) (db s)) (calls s)).
Proof.
  intros Hprep Hfault. unfold WeatherLog_objects_create. rewrite Hprep, Hfault.
  reflexivity.
Qed.

Lemma create_error_cases (env : Env) (city temperature description humidity : json) :
  (exists e, create_error env city temperature description humidity = Some e)
  \/ (exists c t d h,
        column_values env city temperature description humidity = Return (c, t, d, h)
        /\ db_fault env (InsertWeatherLog city temperature description humidity) = None).
Proof.
  unfold create_error.
  destruct (column_values env city temperature description humidity) as [[[[c t] d] h]|e].
  - destruct (db_fault env (InsertWeatherLog city temperature description humidity))
      as [e|].
    + left. exists e. reflexivity.
    + right. exists c, t, d, h. split; reflexivity.
  - left. exists e. reflexivity.
Qed.

(** C1, as the code has it. When the weather API answers with HTTP 200, the
    four stored values can be read from its body, the members [wind] and
    [sys] of the body are objects or absent, and the creation of the
    [WeatherLog] row raises an exception (whichever it is, from the
    preparation of a value or from the database), the request
    succeeds with status 200: the response carries the city, temperature,
    description and humidity that were read, its [logged_at] is the time
    of the request, [debug_info.stored_in_db] is false and
    [debug_info.db_error] is the text of the exception; there is no [error]
    entry, the weather API was called once and the database is as it was. *)
Theorem lookup_survives_failed_insert :
  forall (env : Env) (city api_key : string) (s : Sys) (response : HttpResponse)
         (data name temperature description humidity : json) (e : exn),
    config env "WEATHER_API_KEY" = Return api_key ->
    Text.truthy api_key = true ->
    requests_get env (weather_url city api_key) = Return response ->
    status_code response = 200 ->
    json_body response = Return data ->
    reads data name temperature description humidity ->
    section_ok data "wind" ->
    section_ok data "sys" ->
    create_error env name temperature description humidity = Some e ->
    exists r,
      get_weather env city s
      = (Return r, mk_Sys (db s) (calls s ++ [HttpGet (weather_url city api_key)])%list)
      /\ status r = 200
      /\ field r "city" = Some name
      /\ field r "temperature" = Some temperature
      /\ field r "description" = Some description
      /\ field r "humidity" = Some humidity
      /\ field r "logged_at" = Some (JStr (isoformat env (now env)))
      /\ debug_field r "stored_in_db" = Some (JBool false)
      /\ debug_field r "db_error" = Some (JStr (exn_text e))
      /\ field r "error" = None.
Proof.
  intros env city api_key s response data name temperature description humidity e
         Hc Hk Hget H200 Hjson Hreads Hwind Hsys Hfault.
  rewrite (get_weather_with_key env city api_key s Hc Hk).
  pose proof Hreads as (Hn & Ht & Hd & Hh).
  destruct (keys_run _ _ _ Hn) as [ks Hks].
  destruct (response_data_runs env data (now env)
              (JObj [("api_status", JStr "success");
                     ("stored_in_db", JBool false);
                     ("db_error", JStr (exn_text e));
                     ("timestamp_iso", JStr (isoformat env (now env)))])
              (mk_Sys (db s) (calls s ++ [HttpGet (weather_url city api_key)])%list)
              _ _ _ _ Hreads Hwind Hsys)
    as (fl & pr & vis & ws & co & Hrd).
  unfold try_except, fetch_weather, http_get, bind, log_call, eval.
  rewrite Hget, H200. simpl. rewrite Hjson, Hks.
  unfold stored_response, bind, eval, try_except.
  rewrite Hn, Ht, Hd, Hh, (create_raises _ _ _ _ _ e _ Hfault).
  unfold unstored_response. rewrite Hrd. unfold ret.
  eexists. split; [reflexivity|]. repeat split.
Qed.

(** On the sample answer, with a database that refuses the insert. *)
Lemma lookup_survives_failed_insert_witness :
  exists r,
    fst (get_weather (answering (Return (sample_answer sample_wind)) insert_fails)
           "Pune" sample_sys) = Return r
    /\ status r = 200
    /\ debug_field r "db_error" = Some (JStr "database is locked").
Proof.
  destruct (lookup_survives_failed_insert
              (answering (Return (sample_answer sample_wind)) insert_fails)
              "Pune" "k3y" sample_sys (sample_answer sample_wind)
              (sample_payload sample_wind)
              (JStr "Pune") (JFloat 28.5%float) (JStr "broken clouds") (JInt 62)
              (mk_exn DatabaseError "database is locked")
              eq_refl eq_refl eq_refl eq_refl eq_refl
              (conj eq_refl (conj eq_refl (conj eq_refl eq_refl)))
              (ex_intro _ _ eq_refl) (ex_intro _ _ eq_refl) eq_refl)
    as (r & Hrun & Hst & _ & _ & _ & _ & _ & _ & Herr & _).
  exists r. rewrite Hrun. repeat split; assumption.
Defined.

(** C1 as it was stated fails on a body whose [wind] member is [null]: the
    insert raises, the handler of that exception evaluates
    [data.get('wind', {}).get('speed')] on [None], and the request ends
    with the status 500 of the outermost handler. *)
Lemma failed_insert_counterexample :
  exists r,
    get_weather (answering (Return (sample_answer JNull)) insert_fails) "Pune" sample_sys
    = (Return r, mk_Sys sample_store [HttpGet (weather_url "Pune" "k3y")])
    /\ status_code (sample_answer JNull) = 200
    /\ reads (sample_payload JNull)
         (JStr "Pune") (JFloat 28.5%float) (JStr "broken clouds") (JInt 62)
    /\ create_error (answering (Return (sample_answer JNull)) insert_fails)
         (JStr "Pune") (JFloat 28.5%float) (JStr "broken clouds") (JInt 62) <> None
    /\ status r = 500
    /\ field r "error" = Some (JStr "Unexpected error occurred")
    /\ field r "city" = None.
Proof.
  exists (mk_Response
            (error_body "Unexpected error occurred"
               "'NoneType' object has no attribute 'get'") 500).
  split; [vm_compute; reflexivity|]. repeat split. discriminate.
Qed.

Lemma column_values_kinds (env : Env) (name temperature description humidity : json)
    (c t d h : json) :
  column_values env name temperature description humidity = Return (c, t, d, h) ->
  (forall text, name = JStr text -> c = JStr text)
  /\ (forall text, description = JStr text -> d = JStr text)
  /\ (forall x, temperature = JFloat x -> t = JFloat x)
  /\ (forall n x, temperature = JInt n -> PyFloat.of_Z n = Some x -> t = JFloat x)
  /\ (forall n, humidity = JInt n -> h = JInt n)
  /\ (forall x n, humidity = JFloat x -> PyFloat.trunc x = Some n -> h = JInt n).
Proof.
  unfold column_values, and_then.
  destruct (CharField_get_prep_value env "city" name) as [c0|] eqn:Ec; [|discriminate].
  destruct (FloatField_get_prep_value env "temperature" temperature) as [t0|] eqn:Et;
    [|discriminate].
  destruct (CharField_get_prep_value env "description" description) as [d0|] eqn:Ed;
    [|discriminate].
  destruct (IntegerField_get_prep_value env "humidity" humidity) as [h0|] eqn:Eh;
    [|discriminate].
  intros H. injection H as <- <- <- <-. repeat split.
  - intros text ->. simpl in Ec. injection Ec as <-. reflexivity.
  - intros text ->. simpl in Ed. injection Ed as <-. reflexivity.
  - intros x ->. simpl in Et. injection Et as <-. reflexivity.
  - intros n x -> Hx. simpl in Et. rewrite Hx in Et. injection Et as <-. reflexivity.
  - intros n ->. simpl in Eh. injection Eh as <-. reflexivity.
  - intros x n -> Hn. simpl in Eh. rewrite Hn in Eh. injection Eh as <-. reflexivity.
Qed.

(** C2, as the code has it. When the weather API answers with HTTP 200, the
    four stored values can be read from its body, the members [wind] and
    [sys] of the body are objects or absent, the four values can be
    prepared for their columns and the database accepts the insert, the
    response has status 200, carries the city, temperature, description
    and humidity as they were read from the body and
    [debug_info.stored_in_db] true, and the database differs from what it
    was by one row only: a new last row of the weather log, with the time
    of the request and the four values as prepared for their columns: a
    text as it is, a float temperature as it is and an integer one as the
    float it denotes, an integer humidity as it is and a float one without
    its fractional part.  The tasks, the users and the earlier rows of the
    weather log are as they were. *)
Theorem lookup_stores_one_row :
  forall (env : Env) (city api_key : string) (s : Sys) (response : HttpResponse)
         (data name temperature description humidity c t d h : json),
    config env "WEATHER_API_KEY" = Return api_key ->
    Text.truthy api_key = true ->
    requests_get env (weather_url city api_key) = Return response ->
    status_code response = 200 ->
    json_body response = Return data ->
    reads data name temperature description humidity ->
    section_ok data "wind" ->
    section_ok data "sys" ->
    column_values env name temperature description humidity = Return (c, t, d, h) ->
    db_fault env (InsertWeatherLog name temperature description humidity) = None ->
    exists r row,
      get_weather env city s
      = (Return r,
         mk_Sys (mk_Store (tasks (db s)) (weather_logs (db s) ++ [row])%list
                   (users (db s)) (next_task_id (db s))
                   (next_weather_log_id (db s) + 1))
                (calls s ++ [HttpGet (weather_url city api_key)])%list)
      /\ row = WeatherLog.mk (next_weather_log_id (db s)) c t d h (now env)
      /\ status r = 200
      /\ field r "city" = Some name
      /\ field r "temperature" = Some temperature
      /\ field r "description" = Some description
      /\ field r "humidity" = Some humidity
      /\ field r "logged_at" = Some (JStr (isoformat env (WeatherLog.timestamp row)))
      /\ debug_field r "stored_in_db" = Some (JBool true)
      /\ (forall text, name = JStr text -> WeatherLog.city row = JStr text)
      /\ (forall text, description = JStr text -> WeatherLog.description row = JStr text)
      /\ (forall x, temperature = JFloat x -> WeatherLog.temperature row = JFloat x)
      /\ (forall n x, temperature = JInt n -> PyFloat.of_Z n = Some x ->
                      WeatherLog.temperature row = JFloat x)
      /\ (forall n, humidity = JInt n -> WeatherLog.humidity row = JInt n)
      /\ (forall x n, humidity = JFloat x -> PyFloat.trunc x = Some n ->
                      WeatherLog.humidity row = JInt n).
Proof.
  intros env city api_key s response data name temperature description humidity
         c t d h Hc Hk Hget H200 Hjson Hreads Hwind Hsys Hprep Hfault.
  rewrite (get_weather_with_key env city api_key s Hc Hk).
  pose proof Hreads as (Hn & Ht & Hd & Hh).
  destruct (keys_run _ _ _ Hn) as [ks Hks].
  set (row := WeatherLog.mk (next_weather_log_id (db s)) c t d h (now env)).
  set (s' := mk_Sys (mk_Store (tasks (db s)) (weather_logs (db s) ++ [row])%list
                       (users (db s)) (next_task_id (db s))
                       (next_weather_log_id (db s) + 1))
                    (calls s ++ [HttpGet (weather_url city api_key)])%list).
  destruct (response_data_runs env data (now env)
              (JObj [("api_status", JStr "success");
                     ("stored_in_db", JBool true);
                     ("timestamp_iso", JStr (isoformat env (now env)));
                     ("timestamp_unix", JInt (timestamp_unix (now env)))])
              s' _ _ _ _ Hreads Hwind Hsys)
    as (fl & pr & vis & ws & co & Hrd).
  unfold try_except, fetch_weather, http_get, bind, log_call, eval.
  rewrite Hget, H200. simpl. rewrite Hjson, Hks.
  unfold stored_response, bind, eval, try_except.
  rewrite Hn, Ht, Hd, Hh.
  rewrite (create_stores env name temperature description humidity c t d h _ Hprep Hfault).
  cbn [db calls WeatherLog.timestamp]. unfold with_log, log_row. cbn [db calls].
  fold row. fold s'. rewrite Hrd. unfold ret.
  exists (mk_Response
            (JsonBody (JObj
               [("city", name); ("temperature", temperature);
                ("description", description); ("humidity", humidity);
                ("logged_at", JStr (isoformat env (now env)));
                ("logged_at_readable",
                 JStr (strftime env "%Y-%m-%d %H:%M:%S" (now env)));
                ("feels_like", fl); ("pressure", pr); ("visibility", vis);
                ("wind_speed", ws); ("country", co);
                ("debug_info",
                 JObj [("api_status", JStr "success");
                       ("stored_in_db", JBool true);
                       ("timestamp_iso", JStr (isoformat env (now env)));
                       ("timestamp_unix", JInt (timestamp_unix (now env)))])]))
            200).
  exists row.
  destruct (column_values_kinds env name temperature description humidity c t d h Hprep)
    as (K1 & K2 & K3 & K4 & K5 & K6).
  repeat split; assumption.
Qed.

(** On the sample answer and a database that accepts the insert, the log
    gains its first row. *)
Lemma lookup_stores_one_row_witness :
  exists r,
    fst (get_weather (answering (Return (sample_answer sample_wind)) no_fault)
           "Pune" sample_sys) = Return r
    /\ debug_field r "stored_in_db" = Some (JBool true)
    /\ weather_logs
         (db (snd (get_weather (answering (Return (sample_answer sample_wind)) no_fault)
                     "Pune" sample_sys)))
       = [WeatherLog.mk 1 (JStr "Pune") (JFloat 28.5%float) (JStr "broken clouds")
            (JInt 62) 1700000000000000].
Proof.
  destruct (lookup_stores_one_row
              (answering (Return (sample_answer sample_wind)) no_fault)
              "Pune" "k3y" sample_sys (sample_answer sample_wind)
              (sample_payload sample_wind)
              (JStr "Pune") (JFloat 28.5%float) (JStr "broken clouds") (JInt 62)
              (JStr "Pune") (JFloat 28.5%float) (JStr "broken clouds") (JInt 62)
              eq_refl eq_refl eq_refl eq_refl eq_refl
              (conj eq_refl (conj eq_refl (conj eq_refl eq_refl)))
              (ex_intro _ _ eq_refl) (ex_intro _ _ eq_refl) eq_refl eq_refl)
    as (r & row & Hrun & Hrow & _ & _ & _ & _ & _ & _ & Hstored & _).
  exists r. rewrite Hrun, Hrow. repeat split; assumption.
Defined.

(** C2 as it was stated fails in two ways.  When the database refuses the
    insert, the weather API answered with HTTP 200 and a complete body,
    yet the response says [stored_in_db] false and the weather log has no
    new row.  And the row that is stored does not always hold the values
    of the response: for a humidity of 62.5 and a temperature of -3 the
    response carries 62.5 and -3, the row the integer 62 and the float
    -3.0. *)
Lemma stores_one_row_counterexample :
  (exists r s',
      get_weather (answering (Return (sample_answer sample_wind)) insert_fails)
        "Pune" sample_sys = (Return r, s')
      /\ status_code (sample_answer sample_wind) = 200
      /\ status r = 200
      /\ field r "city" = Some (JStr "Pune")
      /\ debug_field r "stored_in_db" = Some (JBool false)
      /\ weather_logs (db s') = weather_logs (db sample_sys))
  /\ (exists r s',
        get_weather (answering (Return cold_answer) no_fault) "Oslo" sample_sys
        = (Return r, s')
        /\ status_code cold_answer = 200
        /\ debug_field r "stored_in_db" = Some (JBool true)
        /\ field r "humidity" = Some (JFloat 62.5%float)
        /\ field r "temperature" = Some (JInt (-3))
        /\ weather_logs (db s')
           = [WeatherLog.mk 1 (JStr "Oslo") (JFloat (-3)%float) (JStr "snow") (JInt 62)
                1700000000000000]
        /\ JInt 62 <> JFloat 62.5%float
        /\ JFloat (-3)%float <> JInt (-3)).
Proof.
  split.
  - eexists. eexists. split; [vm_compute; reflexivity|]. repeat split.
  - eexists. eexists. split; [vm_compute; reflexivity|].
    repeat split; try discriminate.
Qed.

(** ** The analytics endpoint *)

Lemma count_all (st : Store) : count Task_objects_all st = total_of st.
Proof.
  unfold count, Task_objects_all, total_of. f_equal.
  apply Permutation_length, order_by_created_desc_perm.
Qed.

Lemma count_status (value : string) (st : Store) :
  count (filter_status value Task_objects_all) st = with_status value st.
Proof.
  unfold count, filter_status, Task_objects_all, with_status. f_equal.
  apply filter_length_perm, order_by_created_desc_perm.
Qed.

Lemma skipn_length_app (A : Type) (l extra : list A) :
  skipn (List.length l) (l ++ extra)%list = extra.
Proof. induction l; simpl; auto. Qed.

(** What the chart step does: nothing when there is no task, one drawing
    otherwise, whose failure gives [None]. *)
Lemma chart_runs (env : Env) (s : Sys) (total completed pending in_progress : Z)
    (priority_stats : list (string * Z)) :
  let fig := mk_figure (status_panel completed pending in_progress)
                       (priority_panel priority_stats) in
  chart env total completed pending in_progress priority_stats s
  = if 0 <? total then
      (Return (match draw_chart env fig with
               | Return picture => Some picture
               | Raise _ => None
               end),
       mk_Sys (db s) (calls s ++ [DrawChart fig])%list)
    else (Return None, s).
Proof.
  unfold chart, savefig, try_except, bind, log_call, eval, ret.
  destruct (0 <? total); [|reflexivity].
  destruct (draw_chart env _); reflexivity.
Qed.

(** The analytics response when the queries run: the statistics of the
    table, and the picture the chart step gave. *)
Lemma task_analytics_runs (env : Env) (s : Sys) :
  db_fault env SelectTasks = None ->
  exists chart_image s',
    chart env (total_of (db s)) (with_status "completed" (db s))
      (with_status "pending" (db s)) (with_status "in_progress" (db s))
      (priority_counts env (db s)) s = (Return chart_image, s')
    /\ task_analytics env s
       = (Return
            (mk_Response
               (JsonBody (JObj
                  [("total_tasks", JInt (total_of (db s)));
                   ("completed_tasks", JInt (with_status "completed" (db s)));
                   ("pending_tasks", JInt (with_status "pending" (db s)));
                   ("in_progress_tasks", JInt (with_status "in_progress" (db s)));
                   ("completion_rate",
                    completion_rate (with_status "completed" (db s)) (total_of (db s)));
                   ("priority_distribution",
                    JArr (map priority_row (priority_counts env (db s))));
                   ("recent_tasks",
                    JArr (map (recent_task_data env) (recent_five (db s))));
                   ("chart_image",
                    match chart_image with Some picture => JStr picture | None => JNull end);
                   ("generated_at", JStr (isoformat env (now env)));
                   ("debug_info",
                    JObj [("chart_generated",
                           JBool (match chart_image with Some _ => true | None => false end));
                          ("has_tasks", JBool (0 <? total_of (db s)));
                          ("recent_tasks_count",
                           JInt (Z.of_nat (List.length
                                   (map (recent_task_data env) (recent_five (db s))))))])]))
               200), s').
Proof.
  intros Hdb.
  unfold task_analytics, try_except, bind, db_select, db_run, ret.
  rewrite Hdb. rewrite count_all, !count_status.
  rewrite !chart_runs.
  destruct (0 <? total_of (db s)); eexists; eexists; split; reflexivity.
Qed.

(** C5. When the statistics queries run: with no task in the table the
    analytics response has [completion_rate] 0 (the integer) and
    [chart_image] null, and nothing was drawn; with [N > 0] tasks of which
    [C] have the status [completed], [completion_rate] is the float
    [round(C / N * 100, 2)]. *)
Theorem completion_rate_is_rounded_percentage :
  forall (env : Env) (s : Sys),
    db_fault env SelectTasks = None ->
    (total_of (db s) = 0 ->
       exists r,
         task_analytics env s = (Return r, s)
         /\ status r = 200
         /\ field r "completion_rate" = Some (JInt 0)
         /\ field r "chart_image" = Some JNull
         /\ new_calls s (snd (task_analytics env s)) = [])
    /\ (0 < total_of (db s) ->
          exists r,
            fst (task_analytics env s) = Return r
            /\ status r = 200
            /\ field r "total_tasks" = Some (JInt (total_of (db s)))
            /\ field r "completed_tasks" = Some (JInt (with_status "completed" (db s)))
            /\ field r "completion_rate"
               = Some (JFloat (percentage (with_status "completed" (db s))
                                 (total_of (db s))))).
Proof.
  intros env s Hdb.
  destruct (task_analytics_runs env s Hdb) as (chart_image & s' & Hchart & Hrun).
  rewrite chart_runs in Hchart. split.
  - intros Hzero. rewrite Hzero in Hchart. simpl in Hchart.
    injection Hchart as <- <-.
    rewrite Hrun. eexists. split; [reflexivity|].
    rewrite Hzero. repeat split. apply skipn_length_nil.
  - intros Hpos. rewrite Hrun. eexists. split; [reflexivity|].
    repeat split. unfold field. simpl. unfold completion_rate, percentage.
    apply Z.ltb_lt in Hpos. rewrite Hpos. reflexivity.
Qed.

(** No task: rate 0, no picture.  Three tasks, two of them completed:
    66.67, the float [0x1.0aae147ae147bp+6]. *)
Lemma completion_rate_is_rounded_percentage_witness :
  (exists r,
      task_analytics drawing_env empty_sys = (Return r, empty_sys)
      /\ field r "completion_rate" = Some (JInt 0)
      /\ field r "chart_image" = Some JNull)
  /\ (exists r,
        fst (task_analytics drawing_env sample_sys) = Return r
        /\ field r "completion_rate" = Some (JFloat 0x1.0aae147ae147bp+6%float)).
Proof.
  split.
  - destruct (completion_rate_is_rounded_percentage drawing_env empty_sys eq_refl)
      as [Hzero _].
    destruct (Hzero eq_refl) as (r & Hrun & _ & Hrate & Himage & _).
    exists r. repeat split; assumption.
  - destruct (completion_rate_is_rounded_percentage drawing_env sample_sys eq_refl)
      as [_ Hpos].
    destruct (Hpos eq_refl) as (r & Hrun & _ & _ & _ & Hrate).
    exists r. split; [exact Hrun|]. rewrite Hrate. vm_compute. reflexivity.
Defined.

(** C6. When the drawing of the chart raises an exception during an
    analytics request, the request still succeeds with status 200 and a
    null [chart_image], without an [error] entry; and whatever the chart
    library does instead on the same table (drawing the picture, for one),
    the request succeeds with the same value in every statistics entry:
    [total_tasks], [completed_tasks], [pending_tasks], [in_progress_tasks],
    [completion_rate], [priority_distribution] and [recent_tasks]. *)
Theorem chart_failure_keeps_statistics :
  forall (env : Env) (s : Sys) (fig : figure) (e : exn),
    In (DrawChart fig) (new_calls s (snd (task_analytics env s))) ->
    draw_chart env fig = Raise e ->
    exists r,
      fst (task_analytics env s) = Return r
      /\ status r = 200
      /\ field r "chart_image" = Some JNull
      /\ field r "error" = None
      /\ forall g : figure -> outcome string,
           exists r',
             fst (task_analytics (with_draw_chart env g) s) = Return r'
             /\ status r' = 200
             /\ (forall k, In k statistics_fields -> field r' k = field r k)
             /\ (forall picture, g fig = Return picture ->
                                 field r' "chart_image" = Some (JStr picture)).
Proof.
  intros env s fig e Hcall Hraise.
  destruct (db_fault env SelectTasks) as [e0|] eqn:Hdb.
  { exfalso. revert Hcall.
    unfold task_analytics, try_except, bind, db_select, db_run, ret.
    rewrite Hdb. simpl. unfold new_calls. rewrite skipn_length_nil. intros []. }
  destruct (task_analytics_runs env s Hdb) as (chart_image & s' & Hchart & Hrun).
  rewrite chart_runs in Hchart. rewrite Hrun in Hcall. simpl in Hcall.
  destruct (0 <? total_of (db s)) eqn:Hpos.
  2:{ exfalso. injection Hchart as _ <-. unfold new_calls in Hcall.
      rewrite skipn_length_nil in Hcall. destruct Hcall. }
  injection Hchart as Himage Hs'. subst s'.
  unfold new_calls in Hcall. simpl in Hcall. rewrite skipn_length_app in Hcall.
  destruct Hcall as [Hfig|[]]. injection Hfig as Hfig.
  rewrite Hfig, Hraise in Himage. subst chart_image.
  rewrite Hrun. eexists. split; [reflexivity|]. repeat split.
  intros g.
  destruct (task_analytics_runs (with_draw_chart env g) s Hdb)
    as (chart_image' & s'' & Hchart' & Hrun').
  rewrite chart_runs, Hpos in Hchart'. injection Hchart' as Himage' _.
  rewrite Hrun'. eexists. split; [reflexivity|]. repeat split.
  - intros k Hk. simpl in Hk.
    repeat (destruct Hk as [<-|Hk]; [reflexivity|]). destruct Hk.
  - intros picture Hg. subst chart_image'. simpl.
    change (priority_counts (with_draw_chart env g) (db s))
      with (priority_counts env (db s)).
    rewrite Hfig, Hg. reflexivity.
Qed.

(** On the sample table, with a chart library that fails: the response
    comes with status 200 and no picture. *)
Lemma chart_failure_keeps_statistics_witness :
  exists r,
    fst (task_analytics bare_env sample_sys) = Return r
    /\ status r = 200
    /\ field r "chart_image" = Some JNull
    /\ field r "total_tasks" = Some (JInt 3).
Proof.
  destruct (chart_failure_keeps_statistics bare_env sample_sys
              (analytics_figure bare_env sample_store) sample_exn
              (or_introl eq_refl) eq_refl)
    as (r & Hrun & Hst & Himage & _ & Hsame).
  exists r. repeat split; try assumption.
  destruct (Hsame (fun _ => Return "iVBORw0KGgo=")) as (r' & Hrun' & _ & Hfields & _).
  rewrite <- (Hfields "total_tasks" (or_introl eq_refl)).
  injection Hrun' as <-. reflexivity.
Defined.

(** ** The dashboard *)

Lemma after_prefix_sound (pre s rest : string) :
  Text.after_prefix pre s = Some rest -> s = (pre ++ rest)%string.
Proof.
  revert s. induction pre as [|a pre IH]; intros s; simpl.
  - intros H. injection H as <-. reflexivity.
  - destruct s as [|b s']; [discriminate|].
    destruct (Ascii.eqb a b) eqn:Eab; [|discriminate].
    apply Ascii.eqb_eq in Eab. subst b.
    intros H. rewrite (IH s' H). reflexivity.
Qed.

Lemma partition_sound (needle s before rest : string) :
  Text.partition needle s = Some (before, rest) ->
  s = (before ++ needle ++ rest)%string.
Proof.
  revert before. induction s as [|c s' IH]; intros before; simpl.
  - destruct (Text.after_prefix needle "") eqn:E; [|discriminate].
    intros H. injection H as <- <-. apply after_prefix_sound in E. exact E.
  - destruct (Text.after_prefix needle (String c s')) eqn:E.
    + intros H. injection H as <- <-. apply after_prefix_sound in E. exact E.
    + destruct (Text.partition needle s') as [[b r]|]; [|discriminate].
      intros H. injection H as <- <-. simpl. f_equal. apply IH. reflexivity.
Qed.

Lemma contains_partition (needle s : string) :
  Text.partition needle s <> None -> Text.contains s needle.
Proof.
  destruct (Text.partition needle s) as [[before rest]|] eqn:E; [|congruence].
  intros _. exists before, rest. apply partition_sound, E.
Qed.

Lemma contains_middle (a b c : string) : Text.contains (a ++ b ++ c) b.
Proof. exists a, c. reflexivity. Qed.

Lemma contains_right (a b needle : string) :
  Text.contains b needle -> Text.contains (a ++ b) needle.
Proof.
  intros [pre [post ->]]. exists (a ++ pre)%string, post.
  rewrite append_assoc. reflexivity.
Qed.

(** The page of the [except] clause shows the text it is given and links
    to the five endpoints. *)
Lemma fallback_page_contents (error_text : string) :
  Text.contains (fallback_page error_text) error_text
  /\ Forall (Text.contains (fallback_page error_text)) listed_endpoints.
Proof.
  unfold fallback_page. split.
  - apply contains_middle.
  - repeat constructor; apply contains_right, contains_right, contains_partition;
      vm_compute; discriminate.
Qed.

(** C9. The dashboard view always answers, with status 200.  When the
    computation of the context or the rendering of the template raises an
    exception, the answer is the HTML page written in the view itself,
    which depends on nothing but the text of the exception, contains that
    text as it is, and lists the API endpoints. *)
Theorem dashboard_always_answers :
  forall (env : Env) (s : Sys),
    (exists r, fst (dashboard env s) = Return r /\ status r = 200)
    /\ (forall e,
          fst (dashboard_body env s) = Raise e ->
          exists page,
            fst (dashboard env s) = Return (mk_Response (HtmlBody page) 200)
            /\ page = fallback_page (exn_text e)
            /\ Text.contains page (exn_text e)
            /\ Forall (Text.contains page) listed_endpoints).
Proof.
  intros env s. split.
  - unfold dashboard, try_except.
    destruct (dashboard_body env s) as [[r|e] s'] eqn:Hbody.
    + exists r. split; [reflexivity|].
      revert Hbody.
      unfold dashboard_body, bind, db_select, db_run, log_call, eval, ret.
      destruct (db_fault env SelectTasks); [discriminate|].
      destruct (render env _ _); [|discriminate].
      intros H. injection H as <- _. reflexivity.
    + eexists. split; reflexivity.
  - intros e Hbody. unfold dashboard, try_except.
    destruct (dashboard_body env s) as [[r|e'] s'].
    + discriminate Hbody.
    + simpl in Hbody. injection Hbody as ->.
      exists (fallback_page (exn_text e)). split; [reflexivity|].
      split; [reflexivity|]. apply fallback_page_contents.
Qed.

(** A missing template: the page shows the name the exception carries. *)
Lemma dashboard_always_answers_witness :
  exists page,
    fst (dashboard bare_env sample_sys) = Return (mk_Response (HtmlBody page) 200)
    /\ Text.contains page "dashboard.html".
Proof.
  destruct (dashboard_always_answers bare_env sample_sys) as [_ Hfails].
  destruct (Hfails (mk_exn TemplateError "dashboard.html") eq_refl)
    as (page & Hrun & _ & Hshown & _).
  exists page. split; assumption.
Defined.

(** ** Creating and retrieving a task *)

Lemma is_choice_priorities (p : string) :
  TaskSerializer.is_choice Task.PRIORITY_CHOICES p = true <-> In p priorities.
Proof.
  unfold TaskSerializer.is_choice, priorities. split.
  - intros H. apply existsb_exists in H. destruct H as [c [Hin Heq]].
    apply String.eqb_eq in Heq. subst p.
    destruct Hin as [<-|[<-|[<-|[]]]]; simpl; auto.
  - intros [<-|[<-|[<-|[]]]]; reflexivity.
Qed.

Lemma is_choice_statuses (v : string) :
  TaskSerializer.is_choice Task.STATUS_CHOICES v = true <-> In v statuses.
Proof.
  unfold TaskSerializer.is_choice, statuses. split.
  - intros H. apply existsb_exists in H. destruct H as [c [Hin Heq]].
    apply String.eqb_eq in Heq. subst v.
    destruct Hin as [<-|[<-|[<-|[]]]]; simpl; auto.
  - intros [<-|[<-|[<-|[]]]]; reflexivity.
Qed.

Lemma check_char_valid (required allow_blank : bool) (max_length : option nat)
    (input value : option string) :
  TaskSerializer.check_char required allow_blank max_length input
  = TaskSerializer.Valid value ->
  value = option_map Text.strip input.
Proof.
  unfold TaskSerializer.check_char.
  destruct input as [text|]; simpl.
  - destruct (Text.strip text) as [|c rest] eqn:E; simpl.
    + destruct allow_blank; [|discriminate]. intros H. injection H as <-. reflexivity.
    + destruct (TaskSerializer.char_validators max_length (String c rest));
        [|discriminate].
      intros H. injection H as <-. reflexivity.
  - destruct required; [discriminate|]. intros H. injection H as <-. reflexivity.
Qed.

Lemma check_choice_valid (choices : list (string * string)) (input value : option string) :
  TaskSerializer.check_choice choices input = TaskSerializer.Valid value ->
  value = input.
Proof.
  unfold TaskSerializer.check_choice. destruct input as [v|].
  - destruct (TaskSerializer.is_choice choices v); [|discriminate].
    intros H. injection H as <-. reflexivity.
  - intros H. injection H as <-. reflexivity.
Qed.

(** What the validated data is, when the request data is accepted. *)
Lemma run_validation_accepts (known : list Z) (d : TaskSerializer.data)
    (v : TaskSerializer.validated_data) :
  TaskSerializer.run_validation known d = inl v ->
  (exists t, TaskSerializer.title d = Some t /\ TaskSerializer.v_title v = Text.strip t)
  /\ TaskSerializer.v_description v = option_map Text.strip (TaskSerializer.description d)
  /\ TaskSerializer.v_priority v = TaskSerializer.priority d
  /\ TaskSerializer.v_status v = TaskSerializer.status d
  /\ TaskSerializer.v_due_date v = TaskSerializer.due_date d
  /\ TaskSerializer.user d = Some (TaskSerializer.v_user v).
Proof.
  unfold TaskSerializer.run_validation.
  destruct (TaskSerializer.check_title (TaskSerializer.title d)) as [t'|] eqn:Et;
    [|discriminate].
  destruct (TaskSerializer.check_char false true None (TaskSerializer.description d))
    as [ds'|] eqn:Ed; [|discriminate].
  destruct (TaskSerializer.check_choice Task.PRIORITY_CHOICES (TaskSerializer.priority d))
    as [p'|] eqn:Ep; [|discriminate].
  destruct (TaskSerializer.check_choice Task.STATUS_CHOICES (TaskSerializer.status d))
    as [s'|] eqn:Es; [|discriminate].
  destruct (TaskSerializer.check_user known (TaskSerializer.user d)) as [u'|] eqn:Eu;
    [|discriminate].
  intros H. injection H as <-. simpl.
  apply check_char_valid in Ed. apply check_choice_valid in Ep, Es.
  repeat split; try assumption.
  - unfold TaskSerializer.check_title in Et.
    destruct (TaskSerializer.check_char true false (Some 200%nat) (TaskSerializer.title d))
      as [[t0|]|] eqn:Ec; try discriminate.
    injection Et as <-. apply check_char_valid in Ec.
    destruct (TaskSerializer.title d) as [t|]; [|discriminate].
    exists t. split; [reflexivity|]. injection Ec as ->. reflexivity.
  - unfold TaskSerializer.check_user in Eu.
    destruct (TaskSerializer.user d) as [pk|]; [|discriminate].
    destruct (existsb (Z.eqb pk) known); [|discriminate].
    injection Eu as <-. reflexivity.
Qed.

Lemma find_the_one (p : Task.t -> bool) (x : Task.t) (l : list Task.t) :
  In x l -> p x = true -> (forall y, In y l -> p y = true -> y = x) ->
  find p l = Some x.
Proof.
  induction l as [|y rest IH]; simpl; [intros []|].
  intros Hin Hp Hone. destruct (p y) eqn:Ey.
  - f_equal. apply Hone; auto.
  - destruct Hin as [->|Hin]; [congruence|].
    apply IH; auto.
Qed.

(** A task that was just inserted is the one [retrieve] finds under its
    primary key. *)
Lemma retrieve_inserted (env : Env) (st : Store) (history : list event) (task : Task.t) :
  db_fault env SelectTasks = None ->
  fresh_ids st ->
  Task.id task = next_task_id st ->
  let s' := mk_Sys (mk_Store (tasks st ++ [task])%list (weather_logs st) (users st)
                      (next_task_id st + 1) (next_weather_log_id st)) history in
  TaskViewSet.retrieve env [] (Task.id task) s'
  = (Return (mk_Response (TaskBody task) 200), s').
Proof.
  intros Hdb Hfresh Hid s'.
  unfold TaskViewSet.retrieve, bind, db_select, db_run, ret. rewrite Hdb.
  unfold TaskViewSet.get_queryset. simpl. unfold Task_objects_all. simpl.
  rewrite (find_the_one _ task); [reflexivity| | |].
  - apply in_order_by_created_desc, in_or_app. right. left. reflexivity.
  - apply Z.eqb_refl.
  - intros y Hy Heq. apply (proj1 (in_order_by_created_desc _ _)) in Hy.
    apply in_app_or in Hy. destruct Hy as [Hy|[Hy|[]]]; [|auto].
    exfalso. apply Z.eqb_eq in Heq.
    unfold fresh_ids in Hfresh. rewrite Forall_forall in Hfresh.
    apply (Hfresh y Hy). congruence.
Qed.

(** A creation that ends with status 201 went through the validation and
    inserted the row that the response shows. *)
Lemma answer_create_201 (env : Env)
    (checked : TaskSerializer.validated_data + list (string * list string))
    (s s' : Sys) (r : Response) :
  TaskViewSet.answer_create env checked s = (Return r, s') ->
  status r = 201 ->
  exists v task,
    checked = inl v
    /\ task = Task.mk (next_task_id (db s)) (TaskSerializer.v_title v)
                (match TaskSerializer.v_description v with Some x => x | None => "" end)
                (match TaskSerializer.v_priority v with Some x => x | None => "medium" end)
                (match TaskSerializer.v_status v with Some x => x | None => "pending" end)
                (now env) (later env)
                (match TaskSerializer.v_due_date v with Some x => x | None => None end)
                (TaskSerializer.v_user v)
    /\ r = mk_Response (TaskBody task) 201
    /\ s' = mk_Sys (mk_Store (tasks (db s) ++ [task])%list (weather_logs (db s))
                      (users (db s)) (next_task_id (db s) + 1)
                      (next_weather_log_id (db s)))
                   (calls s).
Proof.
  unfold TaskViewSet.answer_create, TaskViewSet.Task_objects_create, bind, ret.
  destruct checked as [v|errors].
  - destruct (db_fault env InsertTask); [discriminate|].
    intros H _. injection H as <- <-. eexists. eexists. repeat split.
  - intros H H201. injection H as <- <-. simpl in H201. discriminate.
Qed.

Lemma create_201 (env : Env) (d : TaskSerializer.data) (s s' : Sys) (r : Response) :
  TaskViewSet.create env d s = (Return r, s') ->
  status r = 201 ->
  exists known v task,
    TaskSerializer.run_validation known d = inl v
    /\ task = Task.mk (next_task_id (db s)) (TaskSerializer.v_title v)
                (match TaskSerializer.v_description v with Some x => x | None => "" end)
                (match TaskSerializer.v_priority v with Some x => x | None => "medium" end)
                (match TaskSerializer.v_status v with Some x => x | None => "pending" end)
                (now env) (later env)
                (match TaskSerializer.v_due_date v with Some x => x | None => None end)
                (TaskSerializer.v_user v)
    /\ r = mk_Response (TaskBody task) 201
    /\ s' = mk_Sys (mk_Store (tasks (db s) ++ [task])%list (weather_logs (db s))
                      (users (db s)) (next_task_id (db s) + 1)
                      (next_weather_log_id (db s)))
                   (calls s).
Proof.
  unfold TaskViewSet.create, bind, db_run, ret. intros Hrun H201.
  destruct (TaskSerializer.user d).
  - destruct (db_fault env SelectUsers); [discriminate|].
    eexists. eapply answer_create_201; eassumption.
  - eexists. eapply answer_create_201; eassumption.
Qed.

(** The messages about a refused [priority] are in the body of the 400
    response under the name of the field, whatever the other fields are. *)
Lemma refused_priority (known : list Z) (d : TaskSerializer.data) (p : string) :
  TaskSerializer.priority d = Some p ->
  ~ In p priorities ->
  exists errors,
    TaskSerializer.run_validation known d = inr errors
    /\ Py.assoc "priority" (map (fun e => (fst e, JArr (map JStr (snd e)))) errors)
       = Some (JArr [JStr (TaskSerializer.invalid_choice p)]).
Proof.
  intros Hp Hout.
  assert (E : TaskSerializer.check_choice Task.PRIORITY_CHOICES (Some p)
              = TaskSerializer.Invalid [TaskSerializer.invalid_choice p]).
  { unfold TaskSerializer.check_choice.
    destruct (TaskSerializer.is_choice Task.PRIORITY_CHOICES p) eqn:E; [|reflexivity].
    exfalso. apply Hout, is_choice_priorities, E. }
  unfold TaskSerializer.run_validation. cbv zeta. rewrite Hp, E.
  destruct (TaskSerializer.check_title (TaskSerializer.title d)),
    (TaskSerializer.check_char false true None (TaskSerializer.description d)),
    (TaskSerializer.check_choice Task.STATUS_CHOICES (TaskSerializer.status d)),
    (TaskSerializer.check_user known (TaskSerializer.user d));
    eexists; split; reflexivity.
Qed.

Lemma refused_status (known : list Z) (d : TaskSerializer.data) (v : string) :
  TaskSerializer.status d = Some v ->
  ~ In v statuses ->
  exists errors,
    TaskSerializer.run_validation known d = inr errors
    /\ Py.assoc "status" (map (fun e => (fst e, JArr (map JStr (snd e)))) errors)
       = Some (JArr [JStr (TaskSerializer.invalid_choice v)]).
Proof.
  intros Hs Hout.
  assert (E : TaskSerializer.check_choice Task.STATUS_CHOICES (Some v)
              = TaskSerializer.Invalid [TaskSerializer.invalid_choice v]).
  { unfold TaskSerializer.check_choice.
    destruct (TaskSerializer.is_choice Task.STATUS_CHOICES v) eqn:E; [|reflexivity].
    exfalso. apply Hout, is_choice_statuses, E. }
  unfold TaskSerializer.run_validation. cbv zeta. rewrite Hs, E.
  destruct (TaskSerializer.check_title (TaskSerializer.title d)),
    (TaskSerializer.check_char false true None (TaskSerializer.description d)),
    (TaskSerializer.check_choice Task.PRIORITY_CHOICES (TaskSerializer.priority d)),
    (TaskSerializer.check_user known (TaskSerializer.user d));
    eexists; split; reflexivity.
Qed.

(** A request whose data is refused is answered with 400 and the messages,
    and changes nothing. *)
Lemma create_refused (env : Env) (d : TaskSerializer.data) (s : Sys) :
  db_fault env SelectUsers = None ->
  (forall known, exists errors, TaskSerializer.run_validation known d = inr errors) ->
  exists known errors,
    TaskSerializer.run_validation known d = inr errors
    /\ TaskViewSet.create env d s
       = (Return (mk_Response (JsonBody (TaskSerializer.errors_json errors)) 400), s).
Proof.
  intros Hdb Hrefused.
  unfold TaskViewSet.create, bind, db_run, ret. rewrite Hdb.
  destruct (TaskSerializer.user d).
  - destruct (Hrefused (users (db s))) as [errors Herr].
    exists (users (db s)), errors. split; [exact Herr|].
    rewrite Herr. reflexivity.
  - destruct (Hrefused []) as [errors Herr].
    exists [], errors. split; [exact Herr|]. rewrite Herr. reflexivity.
Qed.

(** C8, as the code has it. For a task created (status 201) from a request
    that gives a priority among low, medium, high and a status among
    pending, in_progress, completed, the retrieval that follows returns the
    task of the creation response, whose priority, status, due date and
    user are the submitted ones as they are, and whose title and
    description are the submitted ones with the white space at both ends
    removed.  A request whose priority, or whose status, is outside its
    enumeration is answered with 400 and a body that has the messages
    about that field under its name, and the system is as it was. *)
Theorem create_then_retrieve :
  forall (env : Env) (d : TaskSerializer.data) (s : Sys),
    (forall r s' p v,
        TaskViewSet.create env d s = (Return r, s') ->
        status r = 201 ->
        TaskSerializer.priority d = Some p -> In p priorities ->
        TaskSerializer.status d = Some v -> In v statuses ->
        fresh_ids (db s) ->
        db_fault env SelectTasks = None ->
        exists task,
          content r = TaskBody task
          /\ TaskViewSet.retrieve env [] (Task.id task) s'
             = (Return (mk_Response (TaskBody task) 200), s')
          /\ Task.priority task = p
          /\ Task.status task = v
          /\ (exists t, TaskSerializer.title d = Some t /\ Task.title task = Text.strip t)
          /\ Task.description task
             = match TaskSerializer.description d with
               | Some text => Text.strip text
               | None => ""
               end
          /\ Task.due_date task
             = match TaskSerializer.due_date d with Some due => due | None => None end
          /\ TaskSerializer.user d = Some (Task.user task))
    /\ (forall p,
          TaskSerializer.priority d = Some p -> ~ In p priorities ->
          db_fault env SelectUsers = None ->
          exists r,
            TaskViewSet.create env d s = (Return r, s)
            /\ status r = 400
            /\ field r "priority" = Some (JArr [JStr (TaskSerializer.invalid_choice p)]))
    /\ (forall v,
          TaskSerializer.status d = Some v -> ~ In v statuses ->
          db_fault env SelectUsers = None ->
          exists r,
            TaskViewSet.create env d s = (Return r, s)
            /\ status r = 400
            /\ field r "status" = Some (JArr [JStr (TaskSerializer.invalid_choice v)])).
Proof.
  intros env d s. split; [|split].
  - intros r s' p v Hrun H201 Hp _ Hv _ Hfresh Hdb.
    destruct (create_201 env d s s' r Hrun H201)
      as (known & vd & task & Hvalid & Htask & Hr & Hs').
    destruct (run_validation_accepts known d vd Hvalid)
      as ((t & Ht & Hvt) & Hvd & Hvp & Hvs & Hvdue & Hvu).
    exists task. subst r s'. split; [reflexivity|]. split.
    + apply retrieve_inserted; try assumption. subst task. reflexivity.
    + subst task. simpl. rewrite Hvp, Hp, Hvs, Hv, Hvd, Hvdue, Hvu.
      repeat split.
      * exists t. split; assumption.
      * destruct (TaskSerializer.description d); reflexivity.
  - intros p Hp Hout Hdb.
    destruct (create_refused env d s Hdb) as (known & errors & Herr & Hrun).
    { intros known. destruct (refused_priority known d p Hp Hout) as (errors & H & _).
      exists errors. exact H. }
    destruct (refused_priority known d p Hp Hout) as (errors' & Herr' & Hfield).
    rewrite Herr in Herr'. injection Herr' as <-.
    eexists. split; [exact Hrun|]. split; [reflexivity|]. exact Hfield.
  - intros v Hv Hout Hdb.
    destruct (create_refused env d s Hdb) as (known & errors & Herr & Hrun).
    { intros known. destruct (refused_status known d v Hv Hout) as (errors & H & _).
      exists errors. exact H. }
    destruct (refused_status known d v Hv Hout) as (errors' & Herr' & Hfield).
    rewrite Herr in Herr'. injection Herr' as <-.
    eexists. split; [exact Hrun|]. split; [reflexivity|]. exact Hfield.
Qed.

Lemma sample_store_fresh : fresh_ids sample_store.
Proof. repeat constructor; discriminate. Qed.

(** A task created on the sample store is retrieved as it was created; a
    request with the priority [urgent] is refused. *)
Lemma create_then_retrieve_witness :
  (exists task s',
      TaskViewSet.create bare_env (sample_data "file taxes") sample_sys
      = (Return (mk_Response (TaskBody task) 201), s')
      /\ TaskViewSet.retrieve bare_env [] (Task.id task) s'
         = (Return (mk_Response (TaskBody task) 200), s')
      /\ Task.title task = "file taxes"
      /\ Task.priority task = "low")
  /\ (exists r,
        TaskViewSet.create bare_env
          (TaskSerializer.mk_data (Some "file taxes") None (Some "urgent") None None
             (Some 1))
          sample_sys = (Return r, sample_sys)
        /\ status r = 400).
Proof.
  split.
  - destruct (TaskViewSet.create bare_env (sample_data "file taxes") sample_sys)
      as [[r|e] s'] eqn:Hrun; [|vm_compute in Hrun; discriminate Hrun].
    assert (H201 : status r = 201).
    { vm_compute in Hrun. injection Hrun as <- _. reflexivity. }
    destruct (create_then_retrieve bare_env (sample_data "file taxes") sample_sys)
      as [Hround _].
    destruct (Hround r s' "low" "pending" Hrun H201 eq_refl
                (or_introl eq_refl) eq_refl (or_introl eq_refl)
                sample_store_fresh eq_refl)
      as (task & Hcontent & Hget & Hp & _ & (t & Ht & Htitle) & _).
    exists task, s'. destruct r as [body code]. simpl in Hcontent, H201. subst body code.
    repeat split; try assumption.
    injection Ht as <-. rewrite Htitle. reflexivity.
  - destruct (create_then_retrieve bare_env
                (TaskSerializer.mk_data (Some "file taxes") None (Some "urgent") None None
                   (Some 1)) sample_sys) as (_ & Hrefuse & _).
    destruct (Hrefuse "urgent" eq_refl) as (r & Hrun & H400 & _).
    + intros [H|[H|[H|[]]]]; discriminate H.
    + reflexivity.
    + exists r. split; assumption.
Defined.

(** C8 as it was stated fails on a title that starts with a space: the
    task is created and retrieved, its priority and status are the
    submitted ones, yet its title is not the submitted one.  It is the
    same with a no-break space at each end of the title. *)
Lemma round_trip_counterexample :
  (exists task s',
      TaskViewSet.create bare_env (sample_data " file taxes") sample_sys
      = (Return (mk_Response (TaskBody task) 201), s')
      /\ TaskViewSet.retrieve bare_env [] (Task.id task) s'
         = (Return (mk_Response (TaskBody task) 200), s')
      /\ TaskSerializer.priority (sample_data " file taxes") = Some (Task.priority task)
      /\ In (Task.priority task) priorities
      /\ TaskSerializer.status (sample_data " file taxes") = Some (Task.status task)
      /\ In (Task.status task) statuses
      /\ TaskSerializer.title (sample_data " file taxes") = Some " file taxes"
      /\ Task.title task = "file taxes"
      /\ Task.title task <> " file taxes")
  /\ (exists task s',
        TaskViewSet.create bare_env
          (sample_data (Text.utf8 160 ++ "file taxes" ++ Text.utf8 160)) sample_sys
        = (Return (mk_Response (TaskBody task) 201), s')
        /\ Task.title task = "file taxes").
Proof.
  split.
  - eexists. eexists. split; [vm_compute; reflexivity|].
    split; [vm_compute; reflexivity|].
    repeat split; simpl; auto. discriminate.
  - eexists. eexists. split; [vm_compute; reflexivity|]. reflexivity.
Qed.

(** * Further properties *)

(** ** The weather proxy, whatever happens *)

Lemma pure_ret (A : Type) (a : A) : pure (ret a).
Proof. intros s. reflexivity. Qed.

Lemma pure_eval (A : Type) (o : outcome A) : pure (eval o).
Proof. intros s. reflexivity. Qed.

Lemma pure_bind (A B : Type) (m : M A) (k : A -> M B) :
  pure m -> (forall a, pure (k a)) -> pure (bind m k).
Proof.
  intros Hm Hk s. unfold bind. specialize (Hm s).
  destruct (m s) as [[a|e] s1]; simpl in Hm; subst s1.
  - apply Hk.
  - reflexivity.
Qed.

Lemma pure_try_except (A : Type) (m : M A) (handler : exn -> M A) :
  pure m -> (forall e, pure (handler e)) -> pure (try_except m handler).
Proof.
  intros Hm Hh s. unfold try_except. specialize (Hm s).
  destruct (m s) as [[a|e] s1]; simpl in Hm; subst s1.
  - reflexivity.
  - apply Hh.
Qed.

Lemma pure_db_run (A : Type) (env : Env) (op : db_op) (q : Store -> A) :
  pure (db_run env op q).
Proof. intros s. unfold db_run. destruct (db_fault env op); reflexivity. Qed.

Ltac purity :=
  repeat first
    [ apply pure_ret | apply pure_eval | apply pure_db_run
    | apply pure_bind; [|intros ?] | apply pure_try_except; [|intros ?] ].

Lemma response_data_pure (env : Env) (data : json) (stamp : datetime) (debug_info : json) :
  pure (response_data env data stamp debug_info).
Proof. unfold response_data. purity. Qed.

Lemma load_api_key_answers (env : Env) (s : Sys) :
  exists loaded, load_api_key env s = (Return loaded, s).
Proof.
  unfold load_api_key, try_except, bind, eval, ret.
  destruct (config env "WEATHER_API_KEY") as [key|e].
  - destruct (Text.truthy key); eexists; reflexivity.
  - eexists. reflexivity.
Qed.

Lemma weather_handlers_answer (e : exn) (s : Sys) :
  exists r, weather_handlers e s = (Return r, s) /\ has_error r.
Proof.
  unfold weather_handlers, ret.
  destruct (is_Timeout e); [|destruct (is_ConnectionError e)];
    eexists; (split; [reflexivity|]); eexists; reflexivity.
Qed.

(** X1. The weather lookup never lets an exception out: whatever the
    configuration, the weather API and the database do, the handler returns
    a response. *)
Theorem get_weather_always_answers :
  forall (env : Env) (city : string) (s : Sys),
    exists r, fst (get_weather env city s) = Return r.
Proof.
  intros env city s. unfold get_weather, bind.
  destruct (load_api_key_answers env s) as [loaded ->].
  destruct loaded as [early|api_key].
  - eexists. reflexivity.
  - unfold try_except.
    destruct (fetch_weather env city (weather_url city api_key) s) as [[r|e] s'].
    + eexists. reflexivity.
    + destruct (weather_handlers_answer e s') as (r & -> & _). eexists. reflexivity.
Qed.

(** What the inner [try] does to the system: either it raises before the
    row is in (nothing is changed), or the four values were read and
    prepared, the insert was accepted and the row is the one change. *)
Lemma stored_response_cases (env : Env) (data : json) (s : Sys) :
  (exists e, stored_response env data s = (Raise e, s))
  \/ (exists city temperature description humidity c t d h,
        reads data city temperature description humidity
        /\ column_values env city temperature description humidity = Return (c, t, d, h)
        /\ db_fault env (InsertWeatherLog city temperature description humidity) = None
        /\ snd (stored_response env data s)
           = mk_Sys (with_log (log_row env (db s) c t d h) (db s)) (calls s)).
Proof.
  unfold stored_response, bind, eval.
  destruct (Py.getitem data "name") as [city|e] eqn:Hn; [|left; eexists; reflexivity].
  destruct (main_item data "temp") as [temperature|e] eqn:Ht;
    [|left; eexists; reflexivity].
  destruct (weather_description data) as [description|e] eqn:Hd;
    [|left; eexists; reflexivity].
  destruct (main_item data "humidity") as [humidity|e] eqn:Hh;
    [|left; eexists; reflexivity].
  destruct (create_error_cases env city temperature description humidity)
    as [[e He]|(c & t & d & h & Hprep & Hf)].
  - left. exists e. rewrite (create_raises _ _ _ _ _ e s He). reflexivity.
  - right. exists city, temperature, description, humidity, c, t, d, h.
    split; [repeat split; assumption|]. split; [exact Hprep|]. split; [exact Hf|].
    rewrite (create_stores _ _ _ _ _ c t d h s Hprep Hf).
    etransitivity; [apply response_data_pure | reflexivity].
Qed.

Lemma snd_bind_pure (A B : Type) (m : M A) (k : A -> M B) (s : Sys) :
  (forall a, pure (k a)) -> snd (bind m k s) = snd (m s).
Proof.
  intros Hk. unfold bind. destruct (m s) as [[a|e] s1]; simpl.
  - apply Hk.
  - reflexivity.
Qed.

Lemma snd_try_pure (A : Type) (m : M A) (handler : exn -> M A) (s : Sys) :
  (forall e, pure (handler e)) -> snd (try_except m handler s) = snd (m s).
Proof.
  intros Hh. unfold try_except. destruct (m s) as [[a|e] s1]; simpl.
  - reflexivity.
  - apply Hh.
Qed.

Lemma weather_handlers_pure (e : exn) : pure (weather_handlers e).
Proof.
  unfold weather_handlers.
  destruct (is_Timeout e); [|destruct (is_ConnectionError e)]; apply pure_ret.
Qed.

Lemma unstored_response_pure (env : Env) (data : json) (e : exn) :
  pure (unstored_response env data e).
Proof. unfold unstored_response. apply response_data_pure. Qed.

Lemma load_api_key_cases (env : Env) (s : Sys) :
  (exists r, load_api_key env s = (Return (inl r), s))
  \/ (exists api_key,
        config env "WEATHER_API_KEY" = Return api_key
        /\ Text.truthy api_key = true
        /\ load_api_key env s = (Return (inr api_key), s)).
Proof.
  unfold load_api_key, try_except, bind, eval, ret.
  destruct (config env "WEATHER_API_KEY") as [key|e].
  - destruct (Text.truthy key) eqn:Hk.
    + right. exists key. repeat split; assumption.
    + left. eexists. reflexivity.
  - left. eexists. reflexivity.
Qed.

(** Everything a weather lookup can do to the system: nothing at all (no
    key); or one call of the weather API and nothing else; or that call
    and one row in the weather log, which happens only when the API
    answered 200, the four values were read and prepared and the insert
    was accepted. *)
Lemma get_weather_effect (env : Env) (city : string) (s : Sys) :
  snd (get_weather env city s) = s
  \/ exists api_key,
       config env "WEATHER_API_KEY" = Return api_key
       /\ (snd (get_weather env city s)
           = mk_Sys (db s) (calls s ++ [HttpGet (weather_url city api_key)])%list
           \/ exists response data name temperature description humidity c t d h,
                requests_get env (weather_url city api_key) = Return response
                /\ status_code response = 200
                /\ json_body response = Return data
                /\ reads data name temperature description humidity
                /\ column_values env name temperature description humidity
                   = Return (c, t, d, h)
                /\ db_fault env (InsertWeatherLog name temperature description humidity)
                   = None
                /\ snd (get_weather env city s)
                   = mk_Sys (with_log (log_row env (db s) c t d h) (db s))
                            (calls s ++ [HttpGet (weather_url city api_key)])%list).
Proof.
  destruct (load_api_key_cases env s) as [[r Hload]|(api_key & Hc & Hk & _)].
  { left. unfold get_weather, bind. rewrite Hload. reflexivity. }
  right. exists api_key. split; [exact Hc|].
  rewrite (get_weather_with_key env city api_key s Hc Hk).
  rewrite snd_try_pure by apply weather_handlers_pure.
  remember (snd (fetch_weather env city (weather_url city api_key) s)) as final
    eqn:Hfinal.
  unfold fetch_weather, http_get, log_call, eval in Hfinal.
  unfold bind at 1 in Hfinal. unfold bind at 1 in Hfinal.
  destruct (requests_get env (weather_url city api_key)) as [response|e] eqn:Hget;
    [|left; exact Hfinal].
  destruct (status_code response =? 200) eqn:H200.
  2:{ left. destruct (status_code response =? 401); [exact Hfinal|].
      destruct (status_code response =? 404); [exact Hfinal|].
      destruct (Response_with_status _ (status_code response)); exact Hfinal. }
  apply Z.eqb_eq in H200.
  unfold bind at 1 in Hfinal. destruct (json_body response) as [data|e] eqn:Hjson;
    [|left; exact Hfinal].
  unfold bind at 1 in Hfinal. destruct (Py.keys data) as [ks|e]; [|left; exact Hfinal].
  rewrite snd_bind_pure in Hfinal by (intros; purity).
  rewrite snd_try_pure in Hfinal by apply unstored_response_pure.
  destruct (stored_response_cases env data
              (mk_Sys (db s) (calls s ++ [HttpGet (weather_url city api_key)])%list))
    as [[e He]|(name & temperature & description & humidity & c & t & d & h
                & Hreads & Hprep & Hfault & He)];
    rewrite He in Hfinal.
  - left. exact Hfinal.
  - right. exists response, data, name, temperature, description, humidity, c, t, d, h.
    repeat split; try assumption; apply Hreads.
Qed.

(** X2. A weather lookup never touches the tasks or the users, changes the
    weather log by at most one row added at its end, and calls the weather
    API at most once and nothing else outside. *)
Theorem get_weather_frame :
  forall (env : Env) (city : string) (s : Sys),
    let s' := snd (get_weather env city s) in
    tasks (db s') = tasks (db s)
    /\ users (db s') = users (db s)
    /\ next_task_id (db s') = next_task_id (db s)
    /\ (weather_logs (db s') = weather_logs (db s)
        \/ exists row, weather_logs (db s') = (weather_logs (db s) ++ [row])%list)
    /\ (new_calls s s' = [] \/ exists url, new_calls s s' = [HttpGet url]).
Proof.
  intros env city s s'. subst s'.
  destruct (get_weather_effect env city s)
    as [->|(api_key & _ & [->|(response & data & n & t & d & h & c' & t' & d' & h'
                               & _ & _ & _ & _ & _ & _ & ->)])].
  - repeat split; auto. left. apply skipn_length_nil.
  - repeat split; auto. right. eexists. apply skipn_length_app.
  - repeat split; auto.
    + right. eexists. reflexivity.
    + right. eexists. apply skipn_length_app.
Qed.

(** X3. The weather log changes only on success: when a lookup leaves it
    different, a key was configured, the weather API answered with HTTP
    200 and a body that could be decoded, the city, temperature,
    description and humidity were read from that body, their preparation
    for the columns and the insert raised nothing, and the one new row
    holds the four prepared values (a humidity of 62.5 is in the row as
    62), the next primary key and the time of the request. *)
Theorem weather_log_changes_only_on_success :
  forall (env : Env) (city : string) (s : Sys),
    weather_logs (db (snd (get_weather env city s))) <> weather_logs (db s) ->
    exists api_key response data name temperature description humidity row,
      config env "WEATHER_API_KEY" = Return api_key
      /\ requests_get env (weather_url city api_key) = Return response
      /\ status_code response = 200
      /\ json_body response = Return data
      /\ reads data name temperature description humidity
      /\ create_error env name temperature description humidity = None
      /\ column_values env name temperature description humidity
         = Return (WeatherLog.city row, WeatherLog.temperature row,
                   WeatherLog.description row, WeatherLog.humidity row)
      /\ weather_logs (db (snd (get_weather env city s)))
         = (weather_logs (db s) ++ [row])%list
      /\ WeatherLog.id row = next_weather_log_id (db s)
      /\ WeatherLog.timestamp row = now env.
Proof.
  intros env city s Hchanged.
  destruct (get_weather_effect env city s)
    as [H|(api_key & Hc & [H|(response & data & n & t & d & h & c' & t' & d' & h'
                               & Hget & H200 & Hjson & Hreads & Hprep & Hfault & H)])];
    rewrite H in Hchanged |- *.
  - exfalso. apply Hchanged. reflexivity.
  - exfalso. apply Hchanged. reflexivity.
  - exists api_key, response, data, n, t, d, h, (log_row env (db s) c' t' d' h').
    split; [exact Hc|]. split; [exact Hget|]. split; [exact H200|].
    split; [exact Hjson|]. split; [exact Hreads|].
    split; [unfold create_error; rewrite Hprep; exact Hfault|].
    split; [exact Hprep|]. repeat split.
Qed.

(** The answer with a humidity of 62.5: the row has 62. *)
Lemma weather_log_changes_only_on_success_witness :
  exists row,
    weather_logs
      (db (snd (get_weather (answering (Return cold_answer) no_fault) "Oslo" sample_sys)))
    = [row]
    /\ WeatherLog.humidity row = JInt 62
    /\ WeatherLog.id row = 1.
Proof.
  destruct (weather_log_changes_only_on_success
              (answering (Return cold_answer) no_fault) "Oslo" sample_sys)
    as (api_key & response & data & n & t & d & h & row
        & _ & Hget & _ & Hjson & Hreads & _ & Hprep & Hlog & Hid & _).
  - vm_compute. discriminate.
  - exists row. split; [exact Hlog|].
    injection Hget as <-. injection Hjson as <-.
    destruct Hreads as (Hn & Ht & Hd & Hh).
    injection Hn as <-. injection Ht as <-. injection Hd as <-. injection Hh as <-.
    injection Hprep as _ _ _ Hhum.
    split; [symmetry; exact Hhum | exact Hid].
Defined.

Lemma getitem_raises_ordinary (v : json) (k : string) (e : exn) :
  Py.getitem v k = Raise e -> ordinary e.
Proof.
  destruct v; simpl; try (intros H; injection H as <-; split; reflexivity).
  destruct (Py.assoc k members); [discriminate|].
  intros H; injection H as <-; split; reflexivity.
Qed.

Lemma getitem0_raises_ordinary (v : json) (e : exn) :
  Py.getitem0 v = Raise e -> ordinary e.
Proof.
  destruct v as [| | | |text|items|members]; simpl;
    try (intros H; injection H as <-; split; reflexivity).
  - destruct text; [|discriminate]. intros H; injection H as <-; split; reflexivity.
  - destruct items; [|discriminate]. intros H; injection H as <-; split; reflexivity.
Qed.

Lemma read_values_raises_ordinary (data : json) (e : exn) :
  read_values data = Raise e -> ordinary e.
Proof.
  unfold read_values, main_item, weather_description, and_then.
  destruct (Py.getitem data "name") eqn:Hn; [|intros H; injection H as <-;
                                               eapply getitem_raises_ordinary; eauto].
  destruct (Py.getitem data "main") as [main|] eqn:Hm;
    [|intros H; injection H as <-; eapply getitem_raises_ordinary; eauto].
  destruct (Py.getitem main "temp") eqn:Ht;
    [|intros H; injection H as <-; eapply getitem_raises_ordinary; eauto].
  destruct (Py.getitem data "weather") as [weather|] eqn:Hw;
    [|intros H; injection H as <-; eapply getitem_raises_ordinary; eauto].
  destruct (Py.getitem0 weather) as [first|] eqn:H0;
    [|intros H; injection H as <-; eapply getitem0_raises_ordinary; eauto].
  destruct (Py.getitem first "description") eqn:Hd;
    [|intros H; injection H as <-; eapply getitem_raises_ordinary; eauto].
  destruct (Py.getitem main "humidity") eqn:Hh;
    [discriminate|intros H; injection H as <-; eapply getitem_raises_ordinary; eauto].
Qed.

(** When one of the four values cannot be read, both the inner [try] and
    its handler raise the exception of the first failing read, and nothing
    is stored. *)
Lemma unreadable_raises_twice (env : Env) (data : json) (e : exn) (s : Sys) :
  read_values data = Raise e ->
  stored_response env data s = (Raise e, s)
  /\ forall db_error, unstored_response env data db_error s = (Raise e, s).
Proof.
  unfold read_values, and_then. intros H.
  unfold unstored_response, stored_response, response_data, bind, eval.
  destruct (Py.getitem data "name"); [|injection H as <-; split; reflexivity].
  destruct (main_item data "temp"); [|injection H as <-; split; reflexivity].
  destruct (weather_description data); [|injection H as <-; split; reflexivity].
  destruct (main_item data "humidity"); [discriminate|].
  injection H as <-; split; reflexivity.
Qed.

Lemma keys_raises_ordinary (data : json) (e : exn) :
  Py.keys data = Raise e -> ordinary e.
Proof.
  destruct data; simpl; try discriminate;
    intros H; injection H as <-; split; reflexivity.
Qed.

(** X4. A 200 answer of the weather API that cannot be used ends in the
    generic server error, with nothing stored: when the body is not JSON
    (the decoding raises), when it is JSON but no object (listing its keys
    raises), and when it is an object from which one of the four stored
    values cannot be read, the response has status 500 and the error
    [Unexpected error occurred], its [debug_info] is the text of that
    exception, and the database is as it was. *)
Theorem unusable_answer_is_a_server_error :
  forall (env : Env) (city api_key : string) (s : Sys) (response : HttpResponse) (e : exn),
    config env "WEATHER_API_KEY" = Return api_key ->
    Text.truthy api_key = true ->
    requests_get env (weather_url city api_key) = Return response ->
    status_code response = 200 ->
    (json_body response = Raise e /\ ordinary e
     \/ (exists data, json_body response = Return data /\ Py.keys data = Raise e)
     \/ exists data ks,
          json_body response = Return data /\ Py.keys data = Return ks
          /\ read_values data = Raise e) ->
    exists r,
      get_weather env city s
      = (Return r, mk_Sys (db s) (calls s ++ [HttpGet (weather_url city api_key)])%list)
      /\ status r = 500
      /\ field r "error" = Some (JStr "Unexpected error occurred")
      /\ field r "debug_info" = Some (JStr (exn_text e))
      /\ field r "city" = None.
Proof.
  intros env city api_key s response e Hc Hk Hget H200 Hcase.
  rewrite (get_weather_with_key env city api_key s Hc Hk).
  unfold try_except at 1, fetch_weather, http_get, log_call, eval.
  unfold bind at 1. unfold bind at 1. rewrite Hget, H200. cbv beta iota.
  change (200 =? 200) with true. cbv iota.
  destruct Hcase as [[Hjson [HT HC]]|[(data & Hjson & Hkeys)
                                      |(data & ks & Hjson & Hks & Hread)]].
  - unfold bind at 1. rewrite Hjson. cbv beta iota.
    unfold weather_handlers. rewrite HT, HC.
    eexists. split; [reflexivity|]. repeat split.
  - unfold bind at 1. rewrite Hjson. cbv beta iota.
    unfold bind at 1. rewrite Hkeys. cbv beta iota.
    destruct (keys_raises_ordinary data e Hkeys) as [HT HC].
    unfold weather_handlers. rewrite HT, HC.
    eexists. split; [reflexivity|]. repeat split.
  - unfold bind at 1. rewrite Hjson. cbv beta iota.
    unfold bind at 1. rewrite Hks. cbv beta iota.
    unfold bind at 1, try_except.
    destruct (unreadable_raises_twice env data e
                (mk_Sys (db s) (calls s ++ [HttpGet (weather_url city api_key)])%list)
                Hread) as [-> Hagain].
    rewrite Hagain. cbv beta iota.
    destruct (read_values_raises_ordinary data e Hread) as [HT HC].
    unfold weather_handlers. rewrite HT, HC.
    eexists. split; [reflexivity|]. repeat split.
Qed.

(** An answer whose body has no [name]: 500, with the text of the
    [KeyError]; an answer whose body is a list: 500, with the text of the
    [AttributeError]. *)
Lemma unusable_answer_is_a_server_error_witness :
  (exists r,
      fst (get_weather
             (answering (Return (mk_HttpResponse 200 "{}" (Return (JObj [])))) no_fault)
             "Pune" sample_sys) = Return r
      /\ status r = 500
      /\ field r "debug_info" = Some (JStr "'name'"))
  /\ (exists r,
        fst (get_weather
               (answering (Return (mk_HttpResponse 200 "[]" (Return (JArr [])))) no_fault)
               "Pune" sample_sys) = Return r
        /\ status r = 500
        /\ field r "debug_info" = Some (JStr "'list' object has no attribute 'keys'")).
Proof.
  split.
  - destruct (unusable_answer_is_a_server_error
                (answering (Return (mk_HttpResponse 200 "{}" (Return (JObj [])))) no_fault)
                "Pune" "k3y" sample_sys (mk_HttpResponse 200 "{}" (Return (JObj [])))
                (mk_exn KeyError "'name'") eq_refl eq_refl eq_refl eq_refl
                (or_intror (or_intror (ex_intro _ (JObj [])
                   (ex_intro _ [] (conj eq_refl (conj eq_refl eq_refl)))))))
      as (r & Hrun & Hst & _ & Hdebug & _).
    exists r. rewrite Hrun. repeat split; assumption.
  - destruct (unusable_answer_is_a_server_error
                (answering (Return (mk_HttpResponse 200 "[]" (Return (JArr [])))) no_fault)
                "Pune" "k3y" sample_sys (mk_HttpResponse 200 "[]" (Return (JArr [])))
                (Py.no_attribute (JArr []) "keys") eq_refl eq_refl eq_refl eq_refl
                (or_intror (or_introl (ex_intro _ (JArr []) (conj eq_refl eq_refl)))))
      as (r & Hrun & Hst & _ & Hdebug & _).
    exists r. rewrite Hrun. repeat split; assumption.
Defined.

Lemma nested_get_cases (members : list (string * json)) (outer inner : string) :
  section_ok (JObj members) outer
  \/ exists w, nested_get (JObj members) outer inner = Raise (Py.no_attribute w "get").
Proof.
  unfold section_ok, nested_get, and_then. simpl.
  destruct (Py.assoc outer members) as [w|].
  - destruct w; try (right; eexists; reflexivity).
    left. eexists. reflexivity.
  - left. eexists. reflexivity.
Qed.

(** With the four values readable but [wind] or [sys] present and not an
    object, the dictionary of the answer cannot be built: an
    [AttributeError] is raised, in the [try] and in its handler alike. *)
Lemma response_data_raises (env : Env) (data : json)
    (name temperature description humidity : json) :
  reads data name temperature description humidity ->
  ~ (section_ok data "wind" /\ section_ok data "sys") ->
  exists w,
    forall stamp debug_info s,
      response_data env data stamp debug_info s = (Raise (Py.no_attribute w "get"), s).
Proof.
  intros (Hn & Ht & Hd & Hh) Hbad.
  destruct (main_get_runs data "temp" "feels_like" _ Ht) as [fl Hfl].
  destruct (main_get_runs data "temp" "pressure" _ Ht) as [pr Hpr].
  destruct (getitem_object _ _ _ Hn) as [members Hobj].
  destruct (get_on_object members "visibility" JNull) as [vis Hvis].
  rewrite <- Hobj in Hvis.
  assert (Hcases :
    (exists w, nested_get data "wind" "speed" = Raise (Py.no_attribute w "get"))
    \/ (exists ws w, nested_get data "wind" "speed" = Return ws
                     /\ nested_get data "sys" "country" = Raise (Py.no_attribute w "get"))).
  { rewrite Hobj in *.
    destruct (nested_get_cases members "wind" "speed") as [Hwind|[w Hw]].
    - destruct (nested_get_cases members "sys" "country") as [Hsys|[w Hw]].
      + exfalso. apply Hbad. split; assumption.
      + right. destruct (nested_get_runs _ "wind" "speed" Hwind) as [ws Hws].
        exists ws, w. split; assumption.
    - left. exists w. exact Hw. }
  destruct Hcases as [[w Hw]|(ws & w & Hws & Hw)]; exists w; intros stamp debug_info s;
    unfold response_data, bind, eval;
    rewrite Hn, Ht, Hd, Hh, Hfl, Hpr, Hvis; [rewrite Hw | rewrite Hws, Hw]; reflexivity.
Qed.

(** X5. A row can be stored while the client is told of a failure: when
    the weather API answers 200, the four stored values are read and
    prepared for their columns and the insert is accepted, but the [wind]
    or the [sys] member of the body is present without being an object,
    the row of the prepared values is in the weather log and the response
    is the generic server error (status 500, error [Unexpected error
    occurred]), the [AttributeError] of [.get] being its [debug_info]. *)
Theorem stored_yet_server_error :
  forall (env : Env) (city api_key : string) (s : Sys) (response : HttpResponse)
         (data name temperature description humidity c t d h : json),
    config env "WEATHER_API_KEY" = Return api_key ->
    Text.truthy api_key = true ->
    requests_get env (weather_url city api_key) = Return response ->
    status_code response = 200 ->
    json_body response = Return data ->
    reads data name temperature description humidity ->
    column_values env name temperature description humidity = Return (c, t, d, h) ->
    db_fault env (InsertWeatherLog name temperature description humidity) = None ->
    ~ (section_ok data "wind" /\ section_ok data "sys") ->
    exists r w,
      get_weather env city s
      = (Return r,
         mk_Sys (with_log (log_row env (db s) c t d h) (db s))
                (calls s ++ [HttpGet (weather_url city api_key)])%list)
      /\ status r = 500
      /\ field r "error" = Some (JStr "Unexpected error occurred")
      /\ field r "debug_info" = Some (JStr (exn_text (Py.no_attribute w "get"))).
Proof.
  intros env city api_key s response data name temperature description humidity
         c t d h Hc Hk Hget H200 Hjson Hreads Hprep Hfault Hbad.
  rewrite (get_weather_with_key env city api_key s Hc Hk).
  pose proof Hreads as (Hn & Ht & Hd & Hh).
  destruct (keys_run _ _ _ Hn) as [ks Hks].
  destruct (response_data_raises env data _ _ _ _ Hreads Hbad) as [w Hraise].
  unfold try_except, fetch_weather, http_get, bind, log_call, eval.
  rewrite Hget, H200. simpl. rewrite Hjson, Hks.
  unfold stored_response, bind, eval, try_except.
  rewrite Hn, Ht, Hd, Hh.
  rewrite (create_stores env name temperature description humidity c t d h _ Hprep Hfault).
  unfold unstored_response. rewrite !Hraise.
  exists (mk_Response
            (error_body "Unexpected error occurred"
               (exn_text (Py.no_attribute w "get"))) 500), w.
  split; [|repeat split].
  unfold weather_handlers, ret.
  destruct w; reflexivity.
Qed.

(** The sample answer with a text for [wind], and a database that works. *)
Lemma stored_yet_server_error_witness :
  exists r,
    fst (get_weather (answering (Return (sample_answer windy_text)) no_fault)
           "Pune" sample_sys) = Return r
    /\ status r = 500
    /\ List.length
         (weather_logs
            (db (snd (get_weather (answering (Return (sample_answer windy_text)) no_fault)
                        "Pune" sample_sys)))) = 1%nat.
Proof.
  destruct (stored_yet_server_error
              (answering (Return (sample_answer windy_text)) no_fault)
              "Pune" "k3y" sample_sys (sample_answer windy_text)
              (sample_payload windy_text)
              (JStr "Pune") (JFloat 28.5%float) (JStr "broken clouds") (JInt 62)
              (JStr "Pune") (JFloat 28.5%float) (JStr "broken clouds") (JInt 62)
              eq_refl eq_refl eq_refl eq_refl eq_refl
              (conj eq_refl (conj eq_refl (conj eq_refl eq_refl))) eq_refl eq_refl)
    as (r & w & Hrun & Hst & _).
  - intros [[members Hwind] _]. discriminate Hwind.
  - exists r. rewrite Hrun. repeat split; assumption.
Defined.

(** ** The analytics endpoint, whatever happens *)

(** X6. The analytics endpoint never lets an exception out and never
    changes the database.  When the task queries run it answers 200
    without an [error] entry; when they raise, it answers 500 with the
    error [Failed to generate analytics] and the text of the exception,
    and nothing was drawn. *)
Theorem task_analytics_always_answers :
  forall (env : Env) (s : Sys),
    exists r,
      fst (task_analytics env s) = Return r
      /\ db (snd (task_analytics env s)) = db s
      /\ (db_fault env SelectTasks = None -> status r = 200 /\ field r "error" = None)
      /\ (forall e, db_fault env SelectTasks = Some e ->
            status r = 500
            /\ field r "error" = Some (JStr "Failed to generate analytics")
            /\ field r "debug_info" = Some (JStr (exn_text e))
            /\ snd (task_analytics env s) = s).
Proof.
  intros env s. destruct (db_fault env SelectTasks) as [e|] eqn:Hdb.
  - unfold task_analytics, try_except, bind, db_select, db_run, ret. rewrite Hdb.
    eexists. split; [reflexivity|]. split; [reflexivity|]. split; [discriminate|].
    intros e' He'. injection He' as <-. repeat split.
  - destruct (task_analytics_runs env s Hdb) as (chart_image & s' & Hchart & Hrun).
    rewrite Hrun. eexists. split; [reflexivity|]. simpl. split.
    + rewrite chart_runs in Hchart.
      destruct (0 <? total_of (db s)); injection Hchart as _ <-; reflexivity.
    + split; [intros _; split; reflexivity | discriminate].
Qed.

(** X7. With the queries running, the chart is drawn exactly when the
    table has a task, once, and from the counts of the table; when the
    drawing succeeds the response carries the picture as [chart_image] and
    says [chart_generated] true. *)
Theorem chart_is_drawn_when_there_are_tasks :
  forall (env : Env) (s : Sys),
    db_fault env SelectTasks = None ->
    (total_of (db s) = 0 -> new_calls s (snd (task_analytics env s)) = [])
    /\ (0 < total_of (db s) ->
          new_calls s (snd (task_analytics env s)) = [DrawChart (analytics_figure env (db s))]
          /\ forall picture r,
               draw_chart env (analytics_figure env (db s)) = Return picture ->
               fst (task_analytics env s) = Return r ->
               field r "chart_image" = Some (JStr picture)
               /\ debug_field r "chart_generated" = Some (JBool true)).
Proof.
  intros env s Hdb.
  destruct (task_analytics_runs env s Hdb) as (chart_image & s' & Hchart & Hrun).
  rewrite chart_runs in Hchart. rewrite Hrun. simpl. split.
  - intros Hzero. rewrite Hzero in Hchart. simpl in Hchart.
    injection Hchart as _ <-. apply skipn_length_nil.
  - intros Hpos. apply Z.ltb_lt in Hpos. rewrite Hpos in Hchart.
    injection Hchart as Himage <-. split.
    + unfold new_calls. simpl. apply skipn_length_app.
    + intros picture r Hdraw Hr. injection Hr as <-.
      fold (analytics_figure env (db s)) in Himage. rewrite Hdraw in Himage.
      subst chart_image. split; reflexivity.
Qed.

(** Three tasks and a chart library that draws: one drawing, and the
    picture in the response. *)
Lemma chart_is_drawn_when_there_are_tasks_witness :
  new_calls sample_sys (snd (task_analytics drawing_env sample_sys))
  = [DrawChart (analytics_figure drawing_env sample_store)]
  /\ exists r,
       fst (task_analytics drawing_env sample_sys) = Return r
       /\ field r "chart_image" = Some (JStr "iVBORw0KGgo=").
Proof.
  destruct (chart_is_drawn_when_there_are_tasks drawing_env sample_sys eq_refl)
    as [_ Hpos].
  destruct (Hpos eq_refl) as [Hcalls Hpicture]. split; [exact Hcalls|].
  destruct (task_analytics_runs drawing_env sample_sys eq_refl) as (image & s' & _ & Hr).
  eexists. split; [rewrite Hr; reflexivity|].
  apply (Hpicture "iVBORw0KGgo=" _ eq_refl). rewrite Hr. reflexivity.
Defined.

(** *** Grouping by priority *)

Lemma group_count_bump (p q : string) (groups : list (string * Z)) :
  group_count q (bump p groups)
  = group_count q groups + (if String.eqb q p then 1 else 0).
Proof.
  induction groups as [|[k n] rest IH]; simpl.
  - destruct (String.eqb q p); reflexivity.
  - destruct (String.eqb p k) eqn:Epk; simpl.
    + apply String.eqb_eq in Epk. subst k.
      destruct (String.eqb q p); lia.
    + rewrite IH. destruct (String.eqb q k) eqn:Eqk; [|reflexivity].
      apply String.eqb_eq in Eqk. subst k.
      rewrite String.eqb_sym, Epk. lia.
Qed.

Lemma bump_keys (p q : string) (groups : list (string * Z)) :
  In q (map fst (bump p groups)) <-> q = p \/ In q (map fst groups).
Proof.
  induction groups as [|[k n] rest IH]; simpl.
  - intuition.
  - destruct (String.eqb p k) eqn:Epk; simpl.
    + apply String.eqb_eq in Epk. subst k. intuition.
    + rewrite IH. intuition.
Qed.

Lemma bump_nodup (p : string) (groups : list (string * Z)) :
  NoDup (map fst groups) -> NoDup (map fst (bump p groups)).
Proof.
  induction groups as [|[k n] rest IH]; simpl; intros Hnd.
  - constructor; [intros []|constructor].
  - inversion Hnd as [|? ? Hnotin Hrest]; subst.
    destruct (String.eqb p k) eqn:Epk; simpl.
    + constructor; assumption.
    + constructor; [|apply IH, Hrest].
      rewrite bump_keys. intros [->|Hin]; [|contradiction].
      rewrite String.eqb_refl in Epk. discriminate.
Qed.

Lemma bump_positive (p : string) (groups : list (string * Z)) :
  Forall (fun g => 0 < snd g) groups -> Forall (fun g => 0 < snd g) (bump p groups).
Proof.
  induction groups as [|[k n] rest IH]; simpl; intros Hpos.
  - constructor; [simpl; lia|constructor].
  - inversion Hpos as [|? ? Hn Hrest]; subst. simpl in Hn.
    destruct (String.eqb p k); constructor; simpl; auto; lia.
Qed.

Lemma bump_sum (p : string) (groups : list (string * Z)) :
  sum_counts (bump p groups) = sum_counts groups + 1.
Proof.
  induction groups as [|[k n] rest IH]; simpl; [reflexivity|].
  destruct (String.eqb p k); simpl; [|rewrite IH]; lia.
Qed.

Lemma group_count_of_member (q : string) (n : Z) (groups : list (string * Z)) :
  NoDup (map fst groups) -> In (q, n) groups -> group_count q groups = n.
Proof.
  induction groups as [|[k m] rest IH]; simpl; intros Hnd Hin; [contradiction|].
  inversion Hnd as [|? ? Hnotin Hrest]; subst.
  destruct Hin as [Heq|Hin].
  - injection Heq as -> ->. rewrite String.eqb_refl. reflexivity.
  - destruct (String.eqb q k) eqn:Eqk; [|apply IH; assumption].
    apply String.eqb_eq in Eqk. subst k. exfalso. apply Hnotin.
    apply (in_map fst) in Hin. exact Hin.
Qed.

Lemma member_of_group_count (q : string) (groups : list (string * Z)) :
  group_count q groups <> 0 -> In (q, group_count q groups) groups.
Proof.
  induction groups as [|[k m] rest IH]; simpl; intros Hnz; [contradiction|].
  destruct (String.eqb q k) eqn:Eqk.
  - apply String.eqb_eq in Eqk. subst k. left. reflexivity.
  - right. apply IH, Hnz.
Qed.

(** What grouping a list of tasks adds to groups it starts from. *)
Lemma grouping_invariant (ts : list Task.t) (groups : list (string * Z)) :
  NoDup (map fst groups) ->
  Forall (fun g => 0 < snd g) groups ->
  let result := fold_left (fun acc t => bump (Task.priority t) acc) ts groups in
  NoDup (map fst result)
  /\ Forall (fun g => 0 < snd g) result
  /\ sum_counts result = sum_counts groups + Z.of_nat (List.length ts)
  /\ forall q,
       group_count q result
       = group_count q groups
         + Z.of_nat (List.length (filter (fun t => String.eqb (Task.priority t) q) ts)).
Proof.
  revert groups. induction ts as [|t rest IH]; intros groups Hnd Hpos; simpl.
  - repeat split; auto; intros; lia.
  - destruct (IH (bump (Task.priority t) groups) (bump_nodup _ _ Hnd)
                (bump_positive _ _ Hpos)) as (Hnd' & Hpos' & Hsum & Hcount).
    repeat split; auto.
    + rewrite Hsum, bump_sum. lia.
    + intros q. rewrite Hcount, group_count_bump.
      rewrite (String.eqb_sym q). destruct (String.eqb (Task.priority t) q); simpl; lia.
Qed.

Lemma insert_by_rank_perm (rank : string -> Z) (g : string * Z) (l : list (string * Z)) :
  Permutation (insert_by_rank rank g l) (g :: l).
Proof.
  induction l as [|h rest IH]; simpl.
  - apply Permutation_refl.
  - destruct (rank (fst g) <? rank (fst h)).
    + apply Permutation_refl.
    + apply Permutation_trans with (h :: g :: rest).
      * apply perm_skip. exact IH.
      * apply perm_swap.
Qed.

Lemma priority_counts_perm (env : Env) (st : Store) :
  Permutation (priority_counts env st) (priority_groups st).
Proof.
  unfold priority_counts. induction (priority_groups st) as [|g rest IH]; simpl.
  - apply perm_nil.
  - eapply Permutation_trans.
    + apply insert_by_rank_perm.
    + apply perm_skip. exact IH.
Qed.

Lemma sum_counts_perm (l l' : list (string * Z)) :
  Permutation l l' -> sum_counts l = sum_counts l'.
Proof.
  induction 1 as [|x l l' _ IH|x y l|l l' l'' _ IH1 _ IH2]; simpl; lia.
Qed.

(** X8. The priority distribution is a grouping of the table, in whatever
    order the database gives the groups: no priority has two rows; the
    count of a row is the number of stored tasks with that priority and
    is positive; every stored task's priority has its row; and the counts
    add up to the number of stored tasks. *)
Theorem priority_counts_group_the_table :
  forall (env : Env) (st : Store),
    NoDup (map fst (priority_counts env st))
    /\ (forall p n, In (p, n) (priority_counts env st) -> n = with_priority p st /\ 0 < n)
    /\ (forall t, In t (tasks st) ->
                  In (Task.priority t, with_priority (Task.priority t) st)
                     (priority_counts env st))
    /\ sum_counts (priority_counts env st) = total_of st.
Proof.
  intros env st.
  pose proof (priority_counts_perm env st) as Hperm.
  assert (Hin : forall g, In g (priority_counts env st) <-> In g (priority_groups st)).
  { intros g. split; apply Permutation_in;
      [exact Hperm | apply Permutation_sym, Hperm]. }
  rewrite (sum_counts_perm _ _ Hperm).
  assert (Hkeys : NoDup (map fst (priority_groups st))
                  -> NoDup (map fst (priority_counts env st))).
  { apply Permutation_NoDup, Permutation_map, Permutation_sym, Hperm. }
  unfold priority_groups in Hin, Hkeys |- *. unfold with_priority, total_of.
  destruct (grouping_invariant (tasks st) [] (NoDup_nil _) (Forall_nil _))
    as (Hnd & Hpos & Hsum & Hcount).
  simpl in Hsum, Hcount. repeat split.
  - apply Hkeys, Hnd.
  - apply Hin in H. rewrite <- (group_count_of_member p n _ Hnd H).
    rewrite Hcount. reflexivity.
  - apply Hin in H. rewrite Forall_forall in Hpos. apply (Hpos (p, n) H).
  - intros t Ht. apply Hin. rewrite <- (Z.add_0_l (Z.of_nat _)), <- Hcount.
    apply member_of_group_count. rewrite Hcount.
    assert (Hmem : In t (filter (fun u => String.eqb (Task.priority u) (Task.priority t))
                           (tasks st))).
    { apply filter_In. split; [exact Ht | apply String.eqb_refl]. }
    destruct (filter _ (tasks st)); [destruct Hmem | simpl; lia].
  - exact Hsum.
Qed.

(** *** The order of the listings *)

Lemma insert_by_created_sorted (x : Task.t) (l : list Task.t) :
  StronglySorted not_older l -> StronglySorted not_older (insert_by_created x l).
Proof.
  induction l as [|y rest IH]; simpl; intros Hs.
  - constructor; constructor.
  - inversion Hs as [|? ? Hrest Hy]; subst.
    destruct (Task.created_at y <=? Task.created_at x) eqn:E.
    + apply Z.leb_le in E. constructor; [exact Hs|].
      constructor; [exact E|].
      rewrite Forall_forall in Hy |- *. intros z Hz.
      specialize (Hy z Hz). unfold not_older in *. lia.
    + apply Z.leb_gt in E. constructor; [apply IH, Hrest|].
      rewrite Forall_forall in Hy |- *. intros z Hz.
      apply (Permutation_in z (insert_by_created_perm x rest)) in Hz.
      destruct Hz as [<-|Hz]; [unfold not_older; lia | apply Hy, Hz].
Qed.

Lemma order_by_created_desc_sorted (l : list Task.t) :
  StronglySorted not_older (order_by_created_desc l).
Proof.
  unfold order_by_created_desc. induction l as [|x rest IH]; simpl.
  - constructor.
  - apply insert_by_created_sorted, IH.
Qed.

Lemma filter_sorted (f : Task.t -> bool) (l : list Task.t) :
  StronglySorted not_older l -> StronglySorted not_older (filter f l).
Proof.
  induction 1 as [|x rest Hrest IH Hx]; simpl; [constructor|].
  destruct (f x); [|exact IH].
  constructor; [exact IH|].
  rewrite Forall_forall in Hx |- *. intros z Hz.
  apply filter_In in Hz. apply Hx, Hz.
Qed.

Lemma sorted_app_order (l1 l2 : list Task.t) :
  StronglySorted not_older (l1 ++ l2)%list ->
  forall a b, In a l1 -> In b l2 -> not_older a b.
Proof.
  induction l1 as [|x rest IH]; simpl; intros Hs a b Ha Hb; [contradiction|].
  inversion Hs as [|? ? Hrest Hx]; subst.
  destruct Ha as [<-|Ha].
  - rewrite Forall_forall in Hx. apply Hx, in_or_app. right. exact Hb.
  - apply (IH Hrest a b Ha Hb).
Qed.

Lemma filter_twice (f g : Task.t -> bool) (l : list Task.t) :
  filter f (filter g l) = filter (fun t => g t && f t) l.
Proof.
  induction l as [|x rest IH]; simpl; [reflexivity|].
  destruct (g x); simpl; [destruct (f x)|]; rewrite IH; reflexivity.
Qed.

Lemma filter_all (l : list Task.t) : filter (fun _ => true) l = l.
Proof. induction l as [|x rest IH]; simpl; [|rewrite IH]; reflexivity. Qed.

(** X9. Every listing of tasks is newest first, whatever the query string:
    it is the unfiltered listing with some tasks left out, in the same
    order, and no task in it was created before a task that follows it. *)
Theorem listings_are_newest_first :
  forall (params : query_params) (st : Store),
    StronglySorted not_older (TaskViewSet.get_queryset params st)
    /\ exists keep,
         TaskViewSet.get_queryset params st = filter keep (Task_objects_all st).
Proof.
  intros params st. unfold TaskViewSet.get_queryset.
  pose proof (order_by_created_desc_sorted (tasks st)) as Hall.
  destruct (query_get "status" params) as [v|]; [destruct (Text.truthy v)|];
    (destruct (query_get "priority" params) as [p|]; [destruct (Text.truthy p)|]);
    unfold filter_priority, filter_status, Task_objects_all; split;
    repeat apply filter_sorted; try exact Hall;
    first [ eexists; reflexivity
          | eexists; apply filter_twice
          | exists (fun _ => true); symmetry; apply filter_all ].
Qed.

(** X10. The recent tasks of the analytics and of the dashboard are the
    head of the newest-first listing: the listing is these tasks followed
    by the others, there are five of them or all the tasks when there are
    fewer, and none of the others was created after one of them. *)
Theorem recent_five_are_the_newest :
  forall st : Store,
    Task_objects_all st = (recent_five st ++ skipn 5 (Task_objects_all st))%list
    /\ List.length (recent_five st) = Nat.min 5 (List.length (tasks st))
    /\ (forall t, In t (recent_five st) -> In t (tasks st))
    /\ (forall t u, In t (recent_five st) -> In u (skipn 5 (Task_objects_all st)) ->
                    Task.created_at u <= Task.created_at t).
Proof.
  intros st. unfold recent_five, Task_objects_all.
  set (all := order_by_created_desc (tasks st)).
  assert (Hsplit : all = (firstn 5 all ++ skipn 5 all)%list)
    by (symmetry; apply firstn_skipn).
  repeat split.
  - exact Hsplit.
  - rewrite length_firstn. f_equal.
    apply Permutation_length, order_by_created_desc_perm.
  - intros t Ht. apply (in_order_by_created_desc t (tasks st)).
    fold all. rewrite Hsplit. apply in_or_app. left. exact Ht.
  - intros t u Ht Hu.
    apply (sorted_app_order (firstn 5 all) (skipn 5 all)); try assumption.
    rewrite <- Hsplit. apply order_by_created_desc_sorted.
Qed.

(** *** The counts by status *)

Lemma one_status_at_most (t : Task.t) :
  let tally := (Nat.b2n (String.eqb (Task.status t) "completed")
                + Nat.b2n (String.eqb (Task.status t) "pending")
                + Nat.b2n (String.eqb (Task.status t) "in_progress"))%nat in
  (tally <= 1)%nat /\ (tally = 1%nat <-> known_status t).
Proof.
  unfold known_status, statuses. simpl.
  destruct (String.eqb_spec (Task.status t) "completed") as [E1|E1];
    destruct (String.eqb_spec (Task.status t) "pending") as [E2|E2];
    destruct (String.eqb_spec (Task.status t) "in_progress") as [E3|E3]; simpl;
    try congruence.
  - split; [lia|]. split; auto.
  - split; [lia|]. split; auto.
  - split; [lia|]. split; auto.
  - split; [lia|]. split; [discriminate|].
    intros [H|[H|[H|[]]]]; congruence.
Qed.

Lemma filter_length_cons (f : Task.t -> bool) (x : Task.t) (l : list Task.t) :
  List.length (filter f (x :: l)) = (Nat.b2n (f x) + List.length (filter f l))%nat.
Proof. simpl. destruct (f x); reflexivity. Qed.

Lemma status_tally (l : list Task.t) :
  let tally := (List.length (filter (fun t => String.eqb (Task.status t) "completed") l)
                + List.length (filter (fun t => String.eqb (Task.status t) "pending") l)
                + List.length (filter (fun t => String.eqb (Task.status t) "in_progress") l)
               )%nat in
  (tally <= List.length l)%nat /\ (tally = List.length l <-> Forall known_status l).
Proof.
  induction l as [|x rest [IHle IHeq]].
  - simpl. split; [lia|]. split; [constructor | reflexivity].
  - cbv zeta in *. rewrite !filter_length_cons.
    destruct (one_status_at_most x) as [Hle Heq]. cbv zeta in Hle, Heq.
    split; [simpl; lia|].
    rewrite Forall_cons_iff, <- IHeq, <- Heq. simpl List.length. lia.
Qed.

(** X11. The three counts by status of the analytics never add up to more
    than the total, and they add up to the total exactly when every stored
    task has one of the three statuses of the model. *)
Theorem status_counts_cover_known_statuses :
  forall st : Store,
    let completed := count (filter_status "completed" Task_objects_all) st in
    let pending := count (filter_status "pending" Task_objects_all) st in
    let in_progress := count (filter_status "in_progress" Task_objects_all) st in
    let total := count Task_objects_all st in
    completed + pending + in_progress <= total
    /\ (completed + pending + in_progress = total <-> Forall known_status (tasks st)).
Proof.
  intros st. cbv zeta. rewrite count_all, !count_status.
  unfold with_status, total_of.
  destruct (status_tally (tasks st)) as [Hle Heq]. cbv zeta in Hle, Heq.
  split; [lia|]. rewrite <- Heq. lia.
Qed.

(** X12. The left panel of the chart is the caption [No tasks yet] exactly
    when no count is positive.  Otherwise it is a pie of the counts that
    are positive, in the order completed, pending, in progress, each with
    its label and a colour.  The colours are the first ones of the
    palette, whichever statuses are shown: with no completed task, the
    pending tasks get the first colour. *)
Theorem status_panel_shows_positive_counts :
  forall completed pending in_progress : Z,
    (completed <= 0 /\ pending <= 0 /\ in_progress <= 0 ->
       status_panel completed pending in_progress = PieText "No tasks yet")
    /\ (0 < completed \/ 0 < pending \/ 0 < in_progress ->
          exists chart_data labels colors,
            status_panel completed pending in_progress = Pie chart_data labels colors
            /\ chart_data = filter (fun n => 0 <? n) [completed; pending; in_progress]
            /\ labels = ((if 0 <? completed then ["Completed"] else [])
                         ++ (if 0 <? pending then ["Pending"] else [])
                         ++ (if 0 <? in_progress then ["In Progress"] else []))%list
            /\ List.length labels = List.length chart_data
            /\ colors = firstn (List.length labels) ["#4CAF50"; "#FF9800"; "#2196F3"]
            /\ List.length colors = List.length chart_data
            /\ (completed <= 0 -> 0 < pending ->
                hd_error labels = Some "Pending" /\ hd_error colors = Some "#4CAF50")).
Proof.
  intros completed pending in_progress. unfold status_panel, status_labels. simpl.
  destruct (0 <? completed) eqn:Ec; destruct (0 <? pending) eqn:Ep;
    destruct (0 <? in_progress) eqn:Ei; simpl;
    try apply Z.ltb_lt in Ec; try apply Z.ltb_lt in Ep; try apply Z.ltb_lt in Ei;
    try apply Z.ltb_ge in Ec; try apply Z.ltb_ge in Ep; try apply Z.ltb_ge in Ei;
    (split; [intros (H1 & H2 & H3); first [reflexivity | lia]
            | intros H; first [eexists; eexists; eexists; repeat split; intros; lia
                              | exfalso; lia]]).
Qed.

(** A panel without completed tasks: the pending ones get the first
    colour; a panel without any task: the caption. *)
Lemma status_panel_shows_positive_counts_witness :
  (exists chart_data labels colors,
      status_panel 0 2 1 = Pie chart_data labels colors
      /\ hd_error labels = Some "Pending"
      /\ hd_error colors = Some "#4CAF50")
  /\ status_panel 0 0 0 = PieText "No tasks yet".
Proof.
  split.
  - destruct (status_panel_shows_positive_counts 0 2 1) as [_ Hpie].
    destruct Hpie as (chart_data & labels & colors & Hpanel & _ & _ & _ & _ & _ & Hhead);
      [right; left; lia|].
    exists chart_data, labels, colors. split; [exact Hpanel|]. apply Hhead; lia.
  - destruct (status_panel_shows_positive_counts 0 0 0) as [Hcaption _].
    apply Hcaption. lia.
Defined.

(** ** The task API *)

Lemma find_none_intro (p : Task.t -> bool) (l : list Task.t) :
  (forall x, In x l -> p x = false) -> find p l = None.
Proof.
  induction l as [|y rest IH]; simpl; intros H; [reflexivity|].
  rewrite (H y (or_introl eq_refl)). apply IH. intros x Hx. apply H. right. exact Hx.
Qed.

(** X13. The filters of the query string apply to the retrieval of one
    task too: a stored task, alone with its primary key, is returned by a
    plain retrieval, and is not found (404) by a retrieval whose [status]
    parameter is another status than its own. *)
Theorem retrieve_honours_filters :
  forall (env : Env) (s : Sys) (task : Task.t) (value : string),
    db_fault env SelectTasks = None ->
    In task (tasks (db s)) ->
    (forall other, In other (tasks (db s)) -> Task.id other = Task.id task ->
                   other = task) ->
    Text.truthy value = true ->
    Task.status task <> value ->
    TaskViewSet.retrieve env [] (Task.id task) s
    = (Return (mk_Response (TaskBody task) 200), s)
    /\ TaskViewSet.retrieve env [("status", value)] (Task.id task) s
       = (Return TaskViewSet.not_found, s).
Proof.
  intros env s task value Hdb Hin Hone Hvalue Hstatus.
  unfold TaskViewSet.retrieve, bind, db_select, db_run, ret. rewrite Hdb.
  unfold TaskViewSet.get_queryset. simpl. rewrite Hvalue. split.
  - rewrite (find_the_one _ task); [reflexivity| | |].
    + apply in_order_by_created_desc, Hin.
    + apply Z.eqb_refl.
    + intros y Hy Heq. apply (proj1 (in_order_by_created_desc _ _)) in Hy.
      apply Hone; [exact Hy|]. apply Z.eqb_eq, Heq.
  - rewrite find_none_intro; [reflexivity|].
    intros x Hx. unfold filter_status in Hx. apply filter_In in Hx.
    destruct Hx as [Hx Hsx]. apply (proj1 (in_order_by_created_desc _ _)) in Hx.
    apply String.eqb_eq in Hsx. apply Z.eqb_neq. intros Hid.
    apply Hstatus. rewrite <- (Hone x Hx Hid). exact Hsx.
Qed.

(** The pending task of the sample store is not found among the completed
    ones. *)
Lemma retrieve_honours_filters_witness :
  TaskViewSet.retrieve bare_env [("status", "completed")] 3 sample_sys
  = (Return TaskViewSet.not_found, sample_sys)
  /\ status TaskViewSet.not_found = 404
  /\ field TaskViewSet.not_found "detail"
     = Some (JStr "No Task matches the given query.")
  /\ exists r, TaskViewSet.retrieve bare_env [] 3 sample_sys = (Return r, sample_sys)
               /\ status r = 200.
Proof.
  destruct (retrieve_honours_filters bare_env sample_sys
              (sample_task 3 "call bank" "high" "pending" 30) "completed" eq_refl)
    as [Hplain Hfiltered].
  - right. right. left. reflexivity.
  - intros other [<-|[<-|[<-|[]]]] Hid; try discriminate Hid; reflexivity.
  - reflexivity.
  - discriminate.
  - split; [exact Hfiltered|]. split; [reflexivity|]. split; [reflexivity|].
    eexists. split; [exact Hplain | reflexivity].
Defined.

(** All that a creation can do: answer 400 or raise and change nothing, or
    insert the task made of the validated data and answer 201 with it. *)
Lemma create_cases (env : Env) (d : TaskSerializer.data) (s : Sys) :
  (exists o, TaskViewSet.create env d s = (o, s)
             /\ forall r, o = Return r -> status r = 400)
  \/ (exists known v task,
        TaskSerializer.run_validation known d = inl v
        /\ task = Task.mk (next_task_id (db s)) (TaskSerializer.v_title v)
                    (match TaskSerializer.v_description v with Some x => x | None => "" end)
                    (match TaskSerializer.v_priority v with Some x => x | None => "medium" end)
                    (match TaskSerializer.v_status v with Some x => x | None => "pending" end)
                    (now env) (later env)
                    (match TaskSerializer.v_due_date v with Some x => x | None => None end)
                    (TaskSerializer.v_user v)
        /\ TaskViewSet.create env d s
           = (Return (mk_Response (TaskBody task) 201),
              mk_Sys (with_task task (db s)) (calls s))).
Proof.
  assert (Hanswer : forall known,
    (exists o, TaskViewSet.answer_create env (TaskSerializer.run_validation known d) s
               = (o, s) /\ forall r, o = Return r -> status r = 400)
    \/ (exists v task,
          TaskSerializer.run_validation known d = inl v
          /\ task = Task.mk (next_task_id (db s)) (TaskSerializer.v_title v)
                      (match TaskSerializer.v_description v with Some x => x | None => "" end)
                      (match TaskSerializer.v_priority v with Some x => x | None => "medium" end)
                      (match TaskSerializer.v_status v with Some x => x | None => "pending" end)
                      (now env) (later env)
                      (match TaskSerializer.v_due_date v with Some x => x | None => None end)
                      (TaskSerializer.v_user v)
          /\ TaskViewSet.answer_create env (TaskSerializer.run_validation known d) s
             = (Return (mk_Response (TaskBody task) 201),
                mk_Sys (with_task task (db s)) (calls s)))).
  { intros known.
    unfold TaskViewSet.answer_create, TaskViewSet.Task_objects_create, bind, ret.
    destruct (TaskSerializer.run_validation known d) as [v|errors].
    - destruct (db_fault env InsertTask) as [e|].
      + left. eexists. split; [reflexivity|]. discriminate.
      + right. eexists. eexists. repeat split.
    - left. eexists. split; [reflexivity|].
      intros r Hr. injection Hr as <-. reflexivity. }
  unfold TaskViewSet.create, bind, db_run, ret.
  destruct (TaskSerializer.user d).
  - destruct (db_fault env SelectUsers) as [e|].
    + left. eexists. split; [reflexivity|]. discriminate.
    + destruct (Hanswer (users (db s))) as [H|(v & task & H)]; [left; exact H|].
      right. exists (users (db s)), v, task. exact H.
  - destruct (Hanswer []) as [H|(v & task & H)]; [left; exact H|].
    right. exists [], v, task. exact H.
Qed.

(** X14. A creation keeps the primary keys in order: if every stored task
    has a key below the next one to be given and no two tasks share a key,
    the same holds afterwards.  It never touches the weather log or the
    users and makes no outside call; either nothing at all is changed, and
    a response, if there is one, has status 400, or the response has status
    201 and the one change is the new task at the end of the table, with
    the next key, the clock at the creation as its creation time and the
    clock as read once more after that as its update time. *)
Theorem create_keeps_keys_in_order :
  forall (env : Env) (d : TaskSerializer.data) (s : Sys),
    ids_below (db s) ->
    NoDup (map Task.id (tasks (db s))) ->
    let s' := snd (TaskViewSet.create env d s) in
    ids_below (db s')
    /\ NoDup (map Task.id (tasks (db s')))
    /\ weather_logs (db s') = weather_logs (db s)
    /\ users (db s') = users (db s)
    /\ calls s' = calls s
    /\ ((s' = s
         /\ forall r, fst (TaskViewSet.create env d s) = Return r -> status r = 400)
        \/ exists task,
             fst (TaskViewSet.create env d s) = Return (mk_Response (TaskBody task) 201)
             /\ db s' = with_task task (db s)
             /\ Task.id task = next_task_id (db s)
             /\ Task.created_at task = now env
             /\ Task.updated_at task = later env).
Proof.
  intros env d s Hbelow Hnodup s'. subst s'.
  destruct (create_cases env d s) as [(o & -> & Hst)|(known & v & task & _ & Htask & ->)].
  - simpl. repeat split; auto.
  - simpl. assert (Hid : Task.id task = next_task_id (db s)) by (subst task; reflexivity).
    repeat split.
    + unfold ids_below in *. simpl. rewrite Forall_forall in *.
      intros t Ht. apply in_app_or in Ht. destruct Ht as [Ht|[<-|[]]].
      * specialize (Hbelow t Ht). lia.
      * lia.
    + rewrite map_app. simpl.
      apply Permutation_NoDup with (l := (Task.id task :: map Task.id (tasks (db s)))).
      * apply Permutation_cons_append.
      * constructor; [|exact Hnodup].
        intros Hin. apply in_map_iff in Hin. destruct Hin as (t & Ht & Hint).
        unfold ids_below in Hbelow. rewrite Forall_forall in Hbelow.
        specialize (Hbelow t Hint). lia.
    + right. exists task. subst task. repeat split.
Qed.

Lemma sample_ids_below : ids_below sample_store.
Proof. repeat constructor. Qed.

Lemma sample_ids_nodup : NoDup (map Task.id (tasks sample_store)).
Proof.
  simpl. repeat constructor; simpl; intros H;
    repeat (destruct H as [H|H]; [discriminate H|]); exact H.
Qed.

(** After a creation on the sample store the keys are 1, 2, 3 and 4. *)
Lemma create_keeps_keys_in_order_witness :
  map Task.id
    (tasks (db (snd (TaskViewSet.create bare_env (sample_data "file taxes") sample_sys))))
  = [1; 2; 3; 4]
  /\ NoDup
       (map Task.id
          (tasks (db (snd (TaskViewSet.create bare_env (sample_data "file taxes")
                             sample_sys))))).
Proof.
  destruct (create_keeps_keys_in_order bare_env (sample_data "file taxes") sample_sys
              sample_ids_below sample_ids_nodup) as (_ & Hnodup & _).
  split; [reflexivity | exact Hnodup].
Defined.

(** X15. A created task takes the defaults of the model for what the
    request leaves out: priority [medium], status [pending], an empty
    description and no due date. *)
Theorem created_task_takes_model_defaults :
  forall (env : Env) (d : TaskSerializer.data) (s s' : Sys) (r : Response),
    TaskViewSet.create env d s = (Return r, s') ->
    status r = 201 ->
    exists task,
      content r = TaskBody task
      /\ In task (tasks (db s'))
      /\ (TaskSerializer.priority d = None -> Task.priority task = "medium")
      /\ (TaskSerializer.status d = None -> Task.status task = "pending")
      /\ (TaskSerializer.description d = None -> Task.description task = "")
      /\ (TaskSerializer.due_date d = None -> Task.due_date task = None).
Proof.
  intros env d s s' r Hrun H201.
  destruct (create_201 env d s s' r Hrun H201)
    as (known & v & task & Hvalid & Htask & -> & ->).
  destruct (run_validation_accepts known d v Hvalid)
    as (_ & Hvd & Hvp & Hvs & Hvdue & _).
  exists task. split; [reflexivity|]. split.
  - simpl. apply in_or_app. right. left. reflexivity.
  - subst task. simpl. rewrite Hvd, Hvp, Hvs, Hvdue.
    repeat split; intros ->; reflexivity.
Qed.

(** A request with a title and a user only. *)
Lemma created_task_takes_model_defaults_witness :
  exists task,
    fst (TaskViewSet.create bare_env
           (TaskSerializer.mk_data (Some "file taxes") None None None None (Some 1))
           sample_sys) = Return (mk_Response (TaskBody task) 201)
    /\ Task.priority task = "medium"
    /\ Task.status task = "pending".
Proof.
  destruct (TaskViewSet.create bare_env
              (TaskSerializer.mk_data (Some "file taxes") None None None None (Some 1))
              sample_sys) as [[r|e] s'] eqn:Hrun; [|vm_compute in Hrun; discriminate Hrun].
  assert (H201 : status r = 201).
  { vm_compute in Hrun. injection Hrun as <- _. reflexivity. }
  destruct (created_task_takes_model_defaults bare_env _ sample_sys s' r Hrun H201)
    as (task & Hcontent & _ & Hp & Hs & _).
  exists task. destruct r as [body code]. simpl in Hcontent, H201. subst body code.
  split; [reflexivity|]. split; [apply Hp | apply Hs]; reflexivity.
Defined.


Lemma refused_user (known : list Z) (d : TaskSerializer.data) (messages : list string) :
  TaskSerializer.check_user known (TaskSerializer.user d)
  = TaskSerializer.Invalid messages ->
  exists errors,
    TaskSerializer.run_validation known d = inr errors
    /\ Py.assoc "user" (map (fun e => (fst e, JArr (map JStr (snd e)))) errors)
       = Some (JArr (map JStr messages)).
Proof.
  intros E. unfold TaskSerializer.run_validation. cbv zeta. rewrite E.
  destruct (TaskSerializer.check_title (TaskSerializer.title d)),
    (TaskSerializer.check_char false true None (TaskSerializer.description d)),
    (TaskSerializer.check_choice Task.PRIORITY_CHOICES (TaskSerializer.priority d)),
    (TaskSerializer.check_choice Task.STATUS_CHOICES (TaskSerializer.status d));
    eexists; split; reflexivity.
Qed.

Lemma create_answers_400 (env : Env) (d : TaskSerializer.data) (s : Sys)
    (name : string) (messages : list string) :
  db_fault env SelectUsers = None ->
  (forall known, exists errors,
      TaskSerializer.run_validation known d = inr errors
      /\ Py.assoc name (map (fun e => (fst e, JArr (map JStr (snd e)))) errors)
         = Some (JArr (map JStr messages))) ->
  exists r,
    TaskViewSet.create env d s = (Return r, s)
    /\ status r = 400
    /\ field r name = Some (JArr (map JStr messages)).
Proof.
  intros Hdb Hrefused.
  unfold TaskViewSet.create, TaskViewSet.answer_create, bind, db_run, ret. rewrite Hdb.
  destruct (TaskSerializer.user d).
  - destruct (Hrefused (users (db s))) as (errors & -> & Hfield).
    eexists. split; [reflexivity|]. split; [reflexivity | exact Hfield].
  - destruct (Hrefused []) as (errors & -> & Hfield).
    eexists. split; [reflexivity|]. split; [reflexivity | exact Hfield].
Qed.



(** X17. A task needs a user who exists: a request without a user, or
    naming a primary key that no user has, is answered with 400 and the
    message under [user], and nothing is stored. *)
Theorem create_requires_a_known_user :
  forall (env : Env) (d : TaskSerializer.data) (s : Sys),
    db_fault env SelectUsers = None ->
    (TaskSerializer.user d = None ->
       exists r, TaskViewSet.create env d s = (Return r, s) /\ status r = 400
                 /\ field r "user" = Some (JArr [JStr "This field is required."]))
    /\ (forall pk, TaskSerializer.user d = Some pk -> ~ In pk (users (db s)) ->
          exists r, TaskViewSet.create env d s = (Return r, s) /\ status r = 400
                    /\ field r "user"
                       = Some (JArr [JStr (TaskSerializer.does_not_exist pk)])).
Proof.
  intros env d s Hdb. split.
  - intros Hu.
    apply (create_answers_400 env d s "user" ["This field is required."] Hdb).
    intros known. apply refused_user. rewrite Hu. reflexivity.
  - intros pk Hu Hunknown.
    unfold TaskViewSet.create, TaskViewSet.answer_create, bind, db_run, ret.
    rewrite Hdb, Hu.
    destruct (refused_user (users (db s)) d [TaskSerializer.does_not_exist pk])
      as (errors & -> & Hfield).
    + rewrite Hu. unfold TaskSerializer.check_user.
      destruct (existsb (Z.eqb pk) (users (db s))) eqn:E; [|reflexivity].
      exfalso. apply Hunknown. apply existsb_exists in E.
      destruct E as (u & Hin & Heq). apply Z.eqb_eq in Heq. subst u. exact Hin.
    + eexists. split; [reflexivity|]. split; [reflexivity | exact Hfield].
Qed.

(** The sample store has the user 1 only. *)
Lemma create_requires_a_known_user_witness :
  exists r,
    TaskViewSet.create bare_env
      (TaskSerializer.mk_data (Some "file taxes") None None None None (Some 7))
      sample_sys = (Return r, sample_sys)
    /\ status r = 400.
Proof.
  destruct (create_requires_a_known_user bare_env
              (TaskSerializer.mk_data (Some "file taxes") None None None None (Some 7))
              sample_sys eq_refl) as [_ Hunknown].
  destruct (Hunknown 7 eq_refl) as (r & Hrun & Hst & _).
  - intros [H|[]]. discriminate H.
  - exists r. split; assumption.
Defined.

(** ** The dashboard, when it renders *)

(** X18. The dashboard never changes the database.  When the task queries
    run and the template renders, the response is the rendered page with
    status 200, and the template was given the counts of the table: the
    number of tasks, the five newest, the number of completed and the
    number of pending ones. *)
Theorem dashboard_renders_the_table_counts :
  forall (env : Env) (s : Sys),
    db (snd (dashboard env s)) = db s
    /\ forall page,
         db_fault env SelectTasks = None ->
         render env "dashboard.html"
           (mk_context (total_of (db s)) (recent_five (db s))
              (with_status "completed" (db s)) (with_status "pending" (db s)))
         = Return page ->
         dashboard env s
         = (Return (mk_Response (HtmlBody page) 200),
            mk_Sys (db s) (calls s ++ [RenderTemplate "dashboard.html"])%list).
Proof.
  intros env s. split.
  - unfold dashboard, dashboard_body, try_except, bind, db_select, db_run,
      log_call, eval, ret.
    destruct (db_fault env SelectTasks); [reflexivity|].
    destruct (render env _ _); reflexivity.
  - intros page Hdb Hrender.
    unfold dashboard, dashboard_body, try_except, bind, db_select, db_run,
      log_call, eval, ret.
    rewrite Hdb. rewrite count_all, !count_status. simpl db. rewrite Hrender.
    reflexivity.
Qed.

Lemma dashboard_renders_the_table_counts_witness :
  fst (dashboard rendering_env sample_sys)
  = Return (mk_Response (HtmlBody "tasks: 3") 200).
Proof.
  destruct (dashboard_renders_the_table_counts rendering_env sample_sys) as [_ Hpage].
  rewrite (Hpage "tasks: 3" eq_refl eq_refl). reflexivity.
Defined.

(** ** The configuration report *)

(** X19. The configuration report never fails and never changes anything:
    whatever the configuration and the database do, [debug_config] answers
    with status 200 and a body that says the server is running, and the
    system is as it was; the answer with status 500 is never given. *)
Theorem debug_config_never_fails :
  forall (env : Env) (settings : Settings) (request : Request) (s : Sys),
    exists r,
      debug_config env settings request s = (Return r, s)
      /\ status r = 200
      /\ field r "server_status" = Some (JStr "running")
      /\ field r "error" = None.
Proof.
  intros env settings request s.
  unfold debug_config, database_entries, recent_weather, try_except, bind,
    db_select, db_run, db_select_logs, ret.
  destruct (db_fault env SelectTasks); destruct (weather_log_fault settings);
    eexists; repeat split.
Qed.

(** X20. A database that cannot be read is reported inside the answer:
    when the count of the tasks raises, or the tasks are counted and the
    weather log raises, the [database] entry has the status
    [error: ] followed by the text of the exception and the text [error]
    in place of both counts, also of the count that was obtained. *)
Theorem debug_config_reports_a_failing_database :
  forall (env : Env) (settings : Settings) (request : Request) (s : Sys) (e : exn),
    db_fault env SelectTasks = Some e
    \/ (db_fault env SelectTasks = None /\ weather_log_fault settings = Some e) ->
    exists r,
      fst (debug_config env settings request s) = Return r
      /\ status r = 200
      /\ field r "database" = Some (database_error e).
Proof.
  intros env settings request s e H.
  unfold debug_config, database_entries, recent_weather, try_except, bind,
    db_select, db_run, db_select_logs, ret.
  destruct H as [H|[H1 H2]].
  - rewrite H. destruct (weather_log_fault settings); eexists; repeat split.
  - rewrite H1, H2. eexists. repeat split.
Qed.

Lemma debug_config_reports_a_failing_database_witness :
  exists r,
    fst (debug_config bare_env failing_settings sample_request sample_sys) = Return r
    /\ status r = 200
    /\ database_field r "status"
       = Some (JStr "error: no such table: tasks_weatherlog")
    /\ database_field r "task_count" = Some (JStr "error").
Proof.
  destruct (debug_config_reports_a_failing_database bare_env failing_settings
              sample_request sample_sys
              (mk_exn DatabaseError "no such table: tasks_weatherlog")
              (or_intror (conj eq_refl eq_refl)))
    as (r & Hrun & Hstatus & Hdb).
  exists r. unfold database_field. rewrite Hdb.
  repeat split; assumption.
Defined.

(** X21. A weather log that cannot be read leaves one entry in
    [recent_weather_logs], with the text of the exception under [error];
    with a readable log the entry lists the rows of [recent_logs], each
    with its city, temperature and time, in that order. *)
Theorem debug_config_lists_the_recent_logs :
  forall (env : Env) (settings : Settings) (request : Request) (s : Sys),
    exists r,
      fst (debug_config env settings request s) = Return r
      /\ (forall e, weather_log_fault settings = Some e ->
            field r "recent_weather_logs"
            = Some (JArr [JObj [("error", JStr (exn_text e))]]))
      /\ (weather_log_fault settings = None ->
            field r "recent_weather_logs"
            = Some (JArr (map (fun log =>
                                 JObj [("city", WeatherLog.city log);
                                       ("temperature", WeatherLog.temperature log);
                                       ("timestamp",
                                        JStr (isoformat env (WeatherLog.timestamp log)))])
                              (recent_logs (db s))))).
Proof.
  intros env settings request s.
  unfold debug_config, database_entries, recent_weather, try_except, bind,
    db_select, db_run, db_select_logs, ret.
  destruct (db_fault env SelectTasks); destruct (weather_log_fault settings);
    eexists; (split; [reflexivity|]); split;
    first [ intros e' He'; injection He' as <-; reflexivity
          | discriminate
          | intros ? ; discriminate
          | intros _; reflexivity ].
Qed.

Lemma debug_config_lists_the_recent_logs_witness :
  exists r,
    fst (debug_config bare_env failing_settings sample_request sample_sys) = Return r
    /\ field r "recent_weather_logs"
       = Some (JArr [JObj [("error", JStr "no such table: tasks_weatherlog")]]).
Proof.
  destruct (debug_config_lists_the_recent_logs bare_env failing_settings
              sample_request sample_sys) as (r & Hrun & Hfail & _).
  exists r. split; [exact Hrun|]. exact (Hfail _ eq_refl).
Defined.

(** X22. With a database that can be read, the counts of the report are
    the sizes of the two tables. *)
Theorem debug_config_counts_the_tables :
  forall (env : Env) (settings : Settings) (request : Request) (s : Sys),
    db_fault env SelectTasks = None ->
    weather_log_fault settings = None ->
    exists r,
      fst (debug_config env settings request s) = Return r
      /\ database_field r "status" = Some (JStr "connected")
      /\ database_field r "task_count" = Some (JInt (total_of (db s)))
      /\ database_field r "weather_log_count" = Some (JInt (logged (db s))).
Proof.
  intros env settings request s H1 H2.
  unfold debug_config, database_entries, recent_weather, try_except, bind,
    db_select, db_run, db_select_logs, ret.
  rewrite H1, H2. eexists. split; [reflexivity|].
  unfold database_field, field, count, Task_objects_all, total_of, logged. simpl.
  repeat split. f_equal. f_equal. f_equal.
  apply Permutation_length, order_by_created_desc_perm.
Qed.

Lemma debug_config_counts_the_tables_witness :
  exists r,
    fst (debug_config bare_env sample_settings sample_request sample_sys) = Return r
    /\ database_field r "task_count" = Some (JInt 3)
    /\ database_field r "weather_log_count" = Some (JInt 0).
Proof.
  destruct (debug_config_counts_the_tables bare_env sample_settings sample_request
              sample_sys eq_refl eq_refl) as (r & Hrun & _ & Htasks & Hlogs).
  exists r. repeat split; assumption.
Defined.

(** *** The three newest rows of the weather log *)

Lemma insert_by_timestamp_perm (x : WeatherLog.t) (l : list WeatherLog.t) :
  Permutation (insert_by_timestamp x l) (x :: l).
Proof.
  induction l as [|y rest IH]; simpl.
  - apply Permutation_refl.
  - destruct (WeatherLog.timestamp y <=? WeatherLog.timestamp x).
    + apply Permutation_refl.
    + apply Permutation_trans with (y :: x :: rest).
      * apply perm_skip. exact IH.
      * apply perm_swap.
Qed.

Lemma by_timestamp_perm (l : list WeatherLog.t) :
  Permutation (fold_right insert_by_timestamp [] l) l.
Proof.
  induction l as [|x rest IH]; simpl.
  - apply perm_nil.
  - eapply Permutation_trans.
    + apply insert_by_timestamp_perm.
    + apply perm_skip. exact IH.
Qed.

Lemma insert_by_timestamp_sorted (x : WeatherLog.t) (l : list WeatherLog.t) :
  StronglySorted not_earlier l -> StronglySorted not_earlier (insert_by_timestamp x l).
Proof.
  induction l as [|y rest IH]; simpl; intros Hs.
  - constructor; constructor.
  - inversion Hs as [|? ? Hrest Hy]; subst.
    destruct (WeatherLog.timestamp y <=? WeatherLog.timestamp x) eqn:E.
    + apply Z.leb_le in E. constructor; [exact Hs|].
      constructor; [exact E|].
      rewrite Forall_forall in Hy |- *. intros z Hz.
      specialize (Hy z Hz). unfold not_earlier in *. lia.
    + apply Z.leb_gt in E. constructor; [apply IH, Hrest|].
      rewrite Forall_forall in Hy |- *. intros z Hz.
      apply (Permutation_in z (insert_by_timestamp_perm x rest)) in Hz.
      destruct Hz as [<-|Hz]; [unfold not_earlier; lia | apply Hy, Hz].
Qed.

Lemma by_timestamp_sorted (l : list WeatherLog.t) :
  StronglySorted not_earlier (fold_right insert_by_timestamp [] l).
Proof.
  induction l as [|x rest IH]; simpl.
  - constructor.
  - apply insert_by_timestamp_sorted, IH.
Qed.

Lemma sorted_logs_app (l1 l2 : list WeatherLog.t) :
  StronglySorted not_earlier (l1 ++ l2)%list ->
  StronglySorted not_earlier l1
  /\ forall a b, In a l1 -> In b l2 -> not_earlier a b.
Proof.
  induction l1 as [|x rest IH]; simpl; intros Hs.
  - split; [constructor|]. intros a b [].
  - inversion Hs as [|? ? Hrest Hx]; subst.
    destruct (IH Hrest) as [Hsorted Hcross].
    rewrite Forall_forall in Hx. split.
    + constructor; [exact Hsorted|].
      rewrite Forall_forall. intros z Hz. apply Hx, in_or_app. left. exact Hz.
    + intros a b [<-|Ha] Hb.
      * apply Hx, in_or_app. right. exact Hb.
      * apply Hcross; assumption.
Qed.

(** X23. The recent rows of the report are the newest of the weather log:
    three of them, or all the rows when there are fewer; each is a row of
    the log; they come newest first; and every row of the log is listed
    unless it is no newer than all the rows listed, which then are three. *)
Theorem recent_logs_are_the_newest :
  forall st : Store,
    List.length (recent_logs st) = Nat.min 3 (List.length (weather_logs st))
    /\ (forall log, In log (recent_logs st) -> In log (weather_logs st))
    /\ StronglySorted not_earlier (recent_logs st)
    /\ (forall other, In other (weather_logs st) ->
          In other (recent_logs st)
          \/ (List.length (recent_logs st) = 3%nat
              /\ forall log, In log (recent_logs st) -> not_earlier log other)).
Proof.
  intros st. unfold recent_logs.
  set (all := fold_right insert_by_timestamp [] (weather_logs st)).
  assert (Hperm : Permutation all (weather_logs st)) by apply by_timestamp_perm.
  assert (Hsplit : (firstn 3 all ++ skipn 3 all)%list = all) by apply firstn_skipn.
  assert (Hsorted : StronglySorted not_earlier (firstn 3 all ++ skipn 3 all)%list)
    by (rewrite Hsplit; apply by_timestamp_sorted).
  destruct (sorted_logs_app _ _ Hsorted) as [Hhead Hcross].
  repeat split.
  - rewrite length_firstn. f_equal. apply Permutation_length, Hperm.
  - intros log Hlog. apply (Permutation_in log Hperm).
    rewrite <- Hsplit. apply in_or_app. left. exact Hlog.
  - exact Hhead.
  - intros other Hother.
    apply (Permutation_in other (Permutation_sym Hperm)) in Hother.
    rewrite <- Hsplit in Hother. apply in_app_or in Hother.
    destruct Hother as [Hin|Hout]; [left; exact Hin|right].
    split.
    + rewrite length_firstn.
      destruct all as [|a [|b [|c rest]]]; simpl in Hout; try contradiction.
      reflexivity.
    + intros log Hlog. apply Hcross; assumption.
Qed.

(** *** What the report tells of the weather key *)

Lemma truthy_length (s : string) :
  Text.truthy s = negb (Nat.eqb (Text.len s) 0).
Proof.
  destruct s as [|c rest]; [reflexivity|].
  unfold Text.len. rewrite chars_cons.
  destruct (Text.chars rest) as [|following others]; [reflexivity|].
  destruct (Text.continues following); reflexivity.
Qed.

Lemma key_entries_with_key (env : Env) (key : string) :
  key_entries (with_weather_key env (Return key))
  = [("weather_api_key_configured", JBool (Text.truthy key));
     ("weather_api_key_length",
      JInt (if Text.truthy key then Z.of_nat (Text.len key) else 0))].
Proof. reflexivity. Qed.

(** X24. The report tells of the weather key whether it is set and how
    long it is, and nothing else: two keys of the same length, which is
    their number of characters, give the same answer. *)
Theorem debug_config_shows_only_the_key_length :
  forall (env : Env) (settings : Settings) (request : Request) (s : Sys)
         (key1 key2 : string),
    Text.len key1 = Text.len key2 ->
    debug_config (with_weather_key env (Return key1)) settings request s
    = debug_config (with_weather_key env (Return key2)) settings request s.
Proof.
  intros env settings request s key1 key2 Hlen.
  unfold debug_config. rewrite !key_entries_with_key.
  rewrite (truthy_length key1), (truthy_length key2), Hlen.
  reflexivity.
Qed.

Lemma debug_config_shows_only_the_key_length_witness :
  debug_config (with_weather_key bare_env (Return "k3y")) sample_settings
    sample_request sample_sys
  = debug_config (with_weather_key bare_env (Return "abc")) sample_settings
      sample_request sample_sys.
Proof.
  apply (debug_config_shows_only_the_key_length bare_env sample_settings
           sample_request sample_sys "k3y" "abc").
  reflexivity.
Defined.

(** X25. A key that is not defined, and a key whose reading fails in any
    other way, are both reported like an empty key: not configured, with
    length 0. *)
Theorem unreadable_key_is_reported_as_missing :
  forall (env : Env) (settings : Settings) (request : Request) (s : Sys) (e : exn),
    debug_config (with_weather_key env (Raise e)) settings request s
    = debug_config (with_weather_key env (Return "")) settings request s.
Proof.
  intros env settings request s e.
  unfold debug_config.
  assert (Hkey : key_entries (with_weather_key env (Raise e))
                 = key_entries (with_weather_key env (Return "")))
    by (unfold key_entries, config_default, with_weather_key; simpl;
        destruct (exn_kind e); reflexivity).
  rewrite Hkey. reflexivity.
Qed.

(** *** A lookup, then the report *)

Lemma stored_response_state :
  forall (env : Env) (data name temperature description humidity c t d h : json)
         (s : Sys),
    reads data name temperature description humidity ->
    column_values env name temperature description humidity = Return (c, t, d, h) ->
    db_fault env (InsertWeatherLog name temperature description humidity) = None ->
    snd (stored_response env data s)
    = mk_Sys (with_log (log_row env (db s) c t d h) (db s)) (calls s).
Proof.
  intros env data name temperature description humidity c t d h s
         (Hn & Ht & Hd & Hh) Hprep Hfault.
  unfold stored_response, bind, eval.
  rewrite Hn, Ht, Hd, Hh.
  rewrite (create_stores env name temperature description humidity c t d h s Hprep Hfault).
  etransitivity; [apply response_data_pure | reflexivity].
Qed.

Lemma stored_lookup_state :
  forall (env : Env) (city api_key : string) (s : Sys) (response : HttpResponse)
         (data name temperature description humidity c t d h : json),
    config env "WEATHER_API_KEY" = Return api_key ->
    Text.truthy api_key = true ->
    requests_get env (weather_url city api_key) = Return response ->
    status_code response = 200 ->
    json_body response = Return data ->
    reads data name temperature description humidity ->
    column_values env name temperature description humidity = Return (c, t, d, h) ->
    db_fault env (InsertWeatherLog name temperature description humidity) = None ->
    snd (get_weather env city s)
    = mk_Sys (with_log (log_row env (db s) c t d h) (db s))
             (calls s ++ [HttpGet (weather_url city api_key)])%list.
Proof.
  intros env city api_key s response data name temperature description humidity
         c t d h Hc Hk Hget H200 Hjson Hreads Hprep Hfault.
  rewrite (get_weather_with_key env city api_key s Hc Hk).
  rewrite snd_try_pure by apply weather_handlers_pure.
  remember (snd (fetch_weather env city (weather_url city api_key) s)) as final
    eqn:Hfinal.
  unfold fetch_weather, http_get, log_call, eval in Hfinal.
  unfold bind at 1 in Hfinal. unfold bind at 1 in Hfinal.
  rewrite Hget, H200, Z.eqb_refl in Hfinal.
  unfold bind at 1 in Hfinal. rewrite Hjson in Hfinal.
  destruct (keys_run _ _ _ (proj1 Hreads)) as [ks Hks].
  unfold bind at 1 in Hfinal. rewrite Hks in Hfinal.
  rewrite snd_bind_pure in Hfinal by (intros; purity).
  rewrite snd_try_pure in Hfinal by apply unstored_response_pure.
  rewrite (stored_response_state env data name temperature description humidity
             c t d h _ Hreads Hprep Hfault) in Hfinal.
  exact Hfinal.
Qed.

(** X26. A lookup that stores its row shows in the next report: when the
    weather API answers 200, the four stored values can be read and the
    creation of the row raises nothing, the report made after the lookup
    counts one row more in the weather log than the report made before
    it, and the same number of tasks. *)
Theorem stored_lookup_is_counted :
  forall (env : Env) (settings : Settings) (request : Request)
         (city api_key : string) (s : Sys) (response : HttpResponse)
         (data name temperature description humidity : json),
    config env "WEATHER_API_KEY" = Return api_key ->
    Text.truthy api_key = true ->
    requests_get env (weather_url city api_key) = Return response ->
    status_code response = 200 ->
    json_body response = Return data ->
    reads data name temperature description humidity ->
    create_error env name temperature description humidity = None ->
    db_fault env SelectTasks = None ->
    weather_log_fault settings = None ->
    exists before after,
      fst (debug_config env settings request s) = Return before
      /\ fst (debug_config env settings request (snd (get_weather env city s)))
         = Return after
      /\ database_field before "weather_log_count" = Some (JInt (logged (db s)))
      /\ database_field after "weather_log_count" = Some (JInt (logged (db s) + 1))
      /\ database_field after "task_count" = database_field before "task_count".
Proof.
  intros env settings request city api_key s response data name temperature
         description humidity Hc Hk Hget H200 Hjson Hreads Hcreate Htasks Hlogs.
  destruct (create_error_cases env name temperature description humidity)
    as [[e He]|(c & t & d & h & Hprep & Hfault)]; [congruence|].
  rewrite (stored_lookup_state env city api_key s response data name temperature
             description humidity c t d h Hc Hk Hget H200 Hjson Hreads Hprep Hfault).
  unfold debug_config, database_entries, recent_weather, try_except, bind,
    db_select, db_run, db_select_logs, ret.
  rewrite Htasks, Hlogs. eexists. eexists.
  split; [reflexivity|]. split; [reflexivity|].
  unfold database_field, field, logged, with_log. simpl.
  repeat split. rewrite length_app. simpl. f_equal. f_equal. lia.
Qed.

Lemma stored_lookup_is_counted_witness :
  exists before after,
    fst (debug_config (answering (Return (sample_answer sample_wind)) no_fault)
           sample_settings sample_request sample_sys) = Return before
    /\ fst (debug_config (answering (Return (sample_answer sample_wind)) no_fault)
              sample_settings sample_request
              (snd (get_weather (answering (Return (sample_answer sample_wind)) no_fault)
                      "Pune" sample_sys))) = Return after
    /\ database_field before "weather_log_count" = Some (JInt 0)
    /\ database_field after "weather_log_count" = Some (JInt 1).
Proof.
  destruct (stored_lookup_is_counted
              (answering (Return (sample_answer sample_wind)) no_fault)
              sample_settings sample_request "Pune" "k3y" sample_sys
              (sample_answer sample_wind) (sample_payload sample_wind)
              (JStr "Pune") (JFloat 28.5%float) (JStr "broken clouds") (JInt 62)
              eq_refl eq_refl eq_refl eq_refl eq_refl
              (conj eq_refl (conj eq_refl (conj eq_refl eq_refl)))
              eq_refl eq_refl eq_refl)
    as (before & after & Hb & Ha & Hnb & Hna & _).
  exists before, after. repeat split; assumption.
Defined.

(** ** The URL patterns *)

Lemma after_prefix_complete (pre rest : string) :
  Text.after_prefix pre (pre ++ rest) = Some rest.
Proof.
  induction pre as [|a pre IH]; simpl.
  - reflexivity.
  - rewrite Ascii.eqb_refl. exact IH.
Qed.

Lemma is_slash_eq (c : ascii) : is_slash c = true -> c = "/"%char.
Proof.
  unfold is_slash. intros H. apply Nat.eqb_eq in H.
  rewrite <- (ascii_nat_embedding c), H. reflexivity.
Qed.

Lemma take_segment_sound (s segment after : string) :
  take_segment s = (segment, after) ->
  s = (segment ++ after)%string
  /\ no_slash segment = true
  /\ (after = "" \/ exists tail, after = String "/" tail).
Proof.
  revert segment after. induction s as [|c rest IH]; simpl; intros segment after H.
  - injection H as <- <-. repeat split. left. reflexivity.
  - destruct (is_slash c) eqn:Ec.
    + injection H as <- <-. repeat split. right.
      exists rest. rewrite (is_slash_eq c Ec). reflexivity.
    + destruct (take_segment rest) as [segment' after'].
      injection H as <- <-.
      destruct (IH segment' after' eq_refl) as (Hs & Hn & Ha).
      simpl. rewrite Ec, Hn. repeat split; [f_equal; exact Hs | exact Ha].
Qed.

Lemma take_segment_complete (segment after : string) :
  no_slash segment = true ->
  after = "" \/ (exists tail, after = String "/" tail) ->
  take_segment (segment ++ after) = (segment, after).
Proof.
  intros Hn Ha. induction segment as [|c rest IH]; simpl in *.
  - destruct Ha as [->|[tail ->]]; reflexivity.
  - apply andb_prop in Hn. destruct Hn as [Hc Hrest].
    apply negb_true_iff in Hc. rewrite Hc, (IH Hrest). reflexivity.
Qed.

Lemma append_nothing (s : string) : (s ++ "")%string = s.
Proof. induction s as [|c rest IH]; simpl; [|rewrite IH]; reflexivity. Qed.

(** X27. The two weather patterns lead to the same view with the same
    city: for a city that is not empty and has no slash, the path with the
    trailing slash and the path without it are both handed to
    [get_weather] with that city, provided the router, which is asked
    first, has no route for them. *)
Theorem weather_paths_agree :
  forall (router_urls : string -> option string) (city : string),
    Text.truthy city = true ->
    no_slash city = true ->
    router_urls ("weather/" ++ city ++ "/") = None ->
    router_urls ("weather/" ++ city) = None ->
    resolve router_urls ("api/weather/" ++ city ++ "/") = Some (view_get_weather city)
    /\ resolve router_urls ("api/weather/" ++ city) = Some (view_get_weather city).
Proof.
  intros router_urls city Hcity Hslash Hr1 Hr2.
  split.
  - change ("api/weather/" ++ city ++ "/")
      with ("api/" ++ ("weather/" ++ city ++ "/")).
    unfold resolve, urlpatterns. cbn [resolve_in match_start].
    rewrite (after_prefix_complete "api/" ("weather/" ++ city ++ "/")), Hr1.
    change ("api/" ++ ("weather/" ++ city ++ "/"))
      with ("api/weather/" ++ (city ++ "/")).
    cbn [match_route].
    rewrite (after_prefix_complete "api/weather/" (city ++ "/")).
    rewrite (take_segment_complete city "/" Hslash)
      by (right; exists ""; reflexivity).
    rewrite Hcity. reflexivity.
  - change ("api/weather/" ++ city) with ("api/" ++ ("weather/" ++ city)).
    unfold resolve, urlpatterns. cbn [resolve_in match_start].
    rewrite (after_prefix_complete "api/" ("weather/" ++ city)), Hr2.
    change ("api/" ++ ("weather/" ++ city)) with ("api/weather/" ++ city).
    cbn [match_route].
    rewrite (after_prefix_complete "api/weather/" city).
    assert (Hseg : take_segment city = (city, ""))
      by (rewrite <- (take_segment_complete city "" Hslash) by (left; reflexivity);
          rewrite append_nothing; reflexivity).
    rewrite Hseg, Hcity. reflexivity.
Qed.

Lemma weather_paths_agree_witness :
  resolve sample_router "api/weather/Pune/" = Some (view_get_weather "Pune")
  /\ resolve sample_router "api/weather/Pune" = Some (view_get_weather "Pune").
Proof.
  apply (weather_paths_agree sample_router "Pune"); reflexivity.
Defined.

Lemma end_match (s : string) (captured : list (string * string)) :
  match_route [] s = Some captured -> s = "" /\ captured = [].
Proof.
  simpl. destruct s; simpl; [|discriminate].
  intros H. injection H as <-. split; reflexivity.
Qed.

Lemma literal_match (text s : string) (captured : list (string * string)) :
  match_route [Lit text] s = Some captured -> s = text.
Proof.
  cbn [match_route].
  destruct (Text.after_prefix text s) as [rest|] eqn:E; [|discriminate].
  intros H. destruct (end_match _ _ H) as [-> _].
  rewrite (after_prefix_sound _ _ _ E). apply append_nothing.
Qed.

Lemma weather_match (s : string) (captured : list (string * string)) :
  match_route [Lit "api/weather/"; StrParam "city"; Lit "/"] s = Some captured ->
  exists city,
    captured = [("city", city)] /\ Text.truthy city = true /\ no_slash city = true
    /\ s = ("api/weather/" ++ city ++ "/")%string.
Proof.
  cbn [match_route].
  destruct (Text.after_prefix "api/weather/" s) as [s1|] eqn:E1; [|discriminate].
  destruct (take_segment s1) as [segment s2] eqn:E2.
  destruct (Text.truthy segment) eqn:E3; [|discriminate].
  destruct (Text.after_prefix "/" s2) as [s3|] eqn:E4; [|discriminate].
  destruct (Text.truthy s3) eqn:E5; [discriminate|].
  intros H. injection H as <-.
  destruct s3; [|discriminate].
  apply after_prefix_sound in E1, E4.
  destruct (take_segment_sound _ _ _ E2) as (Hs1 & Hslash & _).
  exists segment. repeat split; try assumption.
  rewrite E1, Hs1, E4. reflexivity.
Qed.

Lemma weather_no_slash_match (s : string) (captured : list (string * string)) :
  match_route [Lit "api/weather/"; StrParam "city"] s = Some captured ->
  exists city,
    captured = [("city", city)] /\ Text.truthy city = true /\ no_slash city = true
    /\ s = ("api/weather/" ++ city)%string.
Proof.
  cbn [match_route].
  destruct (Text.after_prefix "api/weather/" s) as [s1|] eqn:E1; [|discriminate].
  destruct (take_segment s1) as [segment s2] eqn:E2.
  destruct (Text.truthy segment) eqn:E3; [|discriminate].
  destruct (Text.truthy s2) eqn:E5; [discriminate|].
  intros H. injection H as <-.
  destruct s2; [|discriminate].
  apply after_prefix_sound in E1.
  destruct (take_segment_sound _ _ _ E2) as (Hs1 & Hslash & _).
  exists segment. repeat split; try assumption.
  rewrite E1, Hs1, append_nothing. reflexivity.
Qed.

(** X28. Every path that is routed is routed for one of these reasons: it
    starts with [api/] and the router has a route for what follows; or it
    is [api/weather/] and a city that is not empty and has no slash, with
    or without a slash at the end, and goes to [get_weather] with that
    city; or it is exactly the path of the analytics, of the test
    endpoint or of the configuration report, or the empty path of the
    dashboard.  So [get_weather] is never handed an empty city or one with
    a slash. *)
Theorem resolve_cases :
  forall (router_urls : string -> option string) (s : string) (v : view),
    resolve router_urls s = Some v ->
    (exists remainder name,
        s = ("api/" ++ remainder)%string
        /\ router_urls remainder = Some name /\ v = router_view name)
    \/ (exists city,
          v = view_get_weather city /\ Text.truthy city = true /\ no_slash city = true
          /\ (s = ("api/weather/" ++ city ++ "/")%string
              \/ s = ("api/weather/" ++ city)%string))
    \/ (s = "api/analytics/" /\ v = view_task_analytics)
    \/ (s = "api/test/" /\ v = view_test_endpoint)
    \/ (s = "api/debug-config/" /\ v = view_debug_config)
    \/ (s = "" /\ v = view_dashboard).
Proof.
  intros router_urls s v. unfold resolve.
  assert (Hviews :
    resolve_in router_urls (tl urlpatterns) s = Some v ->
    (exists city,
        v = view_get_weather city /\ Text.truthy city = true /\ no_slash city = true
        /\ (s = ("api/weather/" ++ city ++ "/")%string
            \/ s = ("api/weather/" ++ city)%string))
    \/ (s = "api/analytics/" /\ v = view_task_analytics)
    \/ (s = "api/test/" /\ v = view_test_endpoint)
    \/ (s = "api/debug-config/" /\ v = view_debug_config)
    \/ (s = "" /\ v = view_dashboard)).
  { unfold urlpatterns, tl. cbn [resolve_in].
    destruct (match_route [Lit "api/weather/"; StrParam "city"; Lit "/"] s)
      as [captured|] eqn:M1.
    { destruct (weather_match _ _ M1) as (city & -> & Ht & Hn & ->).
      intros H. injection H as <-. left. exists city.
      repeat split; try assumption. left. reflexivity. }
    destruct (match_route [Lit "api/weather/"; StrParam "city"] s)
      as [captured|] eqn:M2.
    { destruct (weather_no_slash_match _ _ M2) as (city & -> & Ht & Hn & ->).
      intros H. injection H as <-. left. exists city.
      repeat split; try assumption. right. reflexivity. }
    destruct (match_route [Lit "api/analytics/"] s) as [captured|] eqn:M3.
    { rewrite (literal_match _ _ _ M3). intros H. injection H as <-.
      right. left. split; reflexivity. }
    destruct (match_route [Lit "api/test/"] s) as [captured|] eqn:M4.
    { rewrite (literal_match _ _ _ M4). intros H. injection H as <-.
      right. right. left. split; reflexivity. }
    destruct (match_route [Lit "api/debug-config/"] s) as [captured|] eqn:M5.
    { rewrite (literal_match _ _ _ M5). intros H. injection H as <-.
      right. right. right. left. split; reflexivity. }
    destruct (match_route [] s) as [captured|] eqn:M6; [|discriminate].
    destruct (end_match _ _ M6) as [-> _]. intros H. injection H as <-.
    right. right. right. right. split; reflexivity. }
  unfold urlpatterns at 1. cbn [resolve_in match_start].
  destruct (Text.after_prefix "api/" s) as [remainder|] eqn:Eapi.
  - destruct (router_urls remainder) as [name|] eqn:Er.
    + intros H. injection H as <-. left. exists remainder, name.
      rewrite (after_prefix_sound _ _ _ Eapi). repeat split. exact Er.
    + intros H. right. apply Hviews. exact H.
  - intros H. right. apply Hviews. exact H.
Qed.

Lemma resolve_cases_witness :
  (exists remainder name,
      "api/tasks/" = ("api/" ++ remainder)%string
      /\ sample_router remainder = Some name /\ router_view "task-list" = router_view name)
  \/ (exists city,
        router_view "task-list" = view_get_weather city /\ Text.truthy city = true
        /\ no_slash city = true
        /\ ("api/tasks/" = ("api/weather/" ++ city ++ "/")%string
            \/ "api/tasks/" = ("api/weather/" ++ city)%string))
  \/ ("api/tasks/" = "api/analytics/" /\ router_view "task-list" = view_task_analytics)
  \/ ("api/tasks/" = "api/test/" /\ router_view "task-list" = view_test_endpoint)
  \/ ("api/tasks/" = "api/debug-config/"
      /\ router_view "task-list" = view_debug_config)
  \/ ("api/tasks/" = "" /\ router_view "task-list" = view_dashboard).
Proof.
  apply (resolve_cases sample_router "api/tasks/" (router_view "task-list")).
  reflexivity.
Defined.

(** ** A creation, then the analytics *)

Lemma total_of_with_task (task : Task.t) (st : Store) :
  total_of (with_task task st) = total_of st + 1.
Proof.
  unfold total_of, with_task. cbn [tasks]. rewrite length_app. simpl. lia.
Qed.

Lemma with_status_with_task (value : string) (task : Task.t) (st : Store) :
  with_status value (with_task task st) = with_status value st + counted value task.
Proof.
  unfold with_status, with_task, counted. cbn [tasks].
  rewrite filter_app, length_app. simpl.
  destruct (String.eqb (Task.status task) value); simpl; lia.
Qed.

(** X29. A task that was created is counted by the analytics that follow:
    after a creation answered with status 201 and the task, the analytics
    report one task more than the table had, and one more for the status
    of the new task, the other two counts being as they were. *)
Theorem created_task_is_counted :
  forall (env : Env) (d : TaskSerializer.data) (s s' : Sys) (r : Response),
    TaskViewSet.create env d s = (Return r, s') ->
    status r = 201 ->
    db_fault env SelectTasks = None ->
    exists task after,
      content r = TaskBody task
      /\ fst (task_analytics env s') = Return after
      /\ field after "total_tasks" = Some (JInt (total_of (db s) + 1))
      /\ field after "completed_tasks"
         = Some (JInt (with_status "completed" (db s) + counted "completed" task))
      /\ field after "pending_tasks"
         = Some (JInt (with_status "pending" (db s) + counted "pending" task))
      /\ field after "in_progress_tasks"
         = Some (JInt (with_status "in_progress" (db s) + counted "in_progress" task)).
Proof.
  intros env d s s' r Hrun H201 Hselect.
  destruct (create_201 env d s s' r Hrun H201)
    as (known & v & task & _ & _ & -> & ->).
  fold (with_task task (db s)).
  destruct (task_analytics_runs env (mk_Sys (with_task task (db s)) (calls s)) Hselect)
    as (chart_image & s2 & _ & Hanalytics).
  exists task. eexists. split; [reflexivity|].
  rewrite Hanalytics. split; [reflexivity|].
  cbn [db].
  rewrite <- (total_of_with_task task (db s)).
  rewrite <- !(with_status_with_task _ task (db s)).
  repeat split.
Qed.

Lemma created_task_is_counted_witness :
  exists task after,
    content (mk_Response
               (TaskBody (Task.mk 4 "Write report" "two pages" "low" "pending"
                            1700000000000000 1700000000000042
                            (Some 1700086400000000) 1)) 201) = TaskBody task
    /\ fst (task_analytics bare_env
              (snd (TaskViewSet.create bare_env (sample_data "Write report") sample_sys)))
       = Return after
    /\ field after "total_tasks" = Some (JInt 4).
Proof.
  destruct (created_task_is_counted bare_env (sample_data "Write report") sample_sys
              (snd (TaskViewSet.create bare_env (sample_data "Write report") sample_sys))
              (mk_Response
                 (TaskBody (Task.mk 4 "Write report" "two pages" "low" "pending"
                              1700000000000000 1700000000000042
                              (Some 1700086400000000) 1)) 201)
              eq_refl eq_refl eq_refl)
    as (task & after & Hbody & Hafter & Htotal & _).
  exists task, after. repeat split; assumption.
Defined.
